(** * CommandProcessor: a shallow embedding of firmware/CommandProcessor/CommandProcessor.c

    The C file keeps its whole state in file-private statics (the linked list
    [head], the line [buffer], the [historyBuffer], the [cfg] block and the
    key-processing counters).  Here the statics are the fields of one record,
    every C function is a computation over that record, and the two heap
    blocks are lists of bytes of exactly the size that was requested from
    malloc.  An access that leaves its block is undefined behaviour in C; the
    embedding stops there with [Fault].  There is one exception.  The entry
    of a line into an empty history reads at [historyBuffer - cfg.bufferSize],
    in front of the history block, and every run does so at its first
    entry; what the run finds there is a parameter of the embedding
    ([beforeHistory]), so that the runs which survive that read can be
    followed further.  Without bytes there, this read ends in [Fault] like
    every other access outside a block.

    Conventions.
    - [char] and [int] values are integers ([Z]); counters stay far below the
      range of a C [int], so no wrap-around is written out.  The one product
      of two values of the caller, the size of the history block in Init, is
      checked against the range of [int]: outside it the product is
      undefined and the embedding stops with [Fault].
    - A C string read out of memory is the list of its bytes before the
      terminator; [deref] gives the terminator back at the end of the list.
    - [cfg.putch] and [cfg.puts] are caller-supplied; their calls are
      recorded, in order, in the [output] field.  [cfg.kbhit]/[cfg.getch] are
      the argument of [CommandProcessor_Run]: [None] when no key is waiting.
    - A user callback is a function of its argument string to its result; the
      built-in callbacks are modelled with their effect on the statics.
    - [calls] is a ghost field: it lists, in order, the command name and the
      parameter string of every callback that was invoked. *)

From Stdlib Require Import ZArith Lia Ascii String.
From stdpp Require Import prelude strings pretty.

Local Open Scope Z_scope.

(** ** Characters and C strings *)

Definition chr (a : ascii) : Z := Z.of_nat (nat_of_ascii a).

(** The bytes of a string literal (without its terminator). *)
Definition lit (s : string) : list Z := chr <$> list_ascii_of_string s.

(** [strlen] of a string given by its bytes. *)
Definition strlen (s : list Z) : Z := Z.of_nat (length s).

(** [*p] and [p + 1] for a pointer into a C string. *)
Definition deref (p : list Z) : Z := hd 0 p.

Definition SPACE : Z := 32.
Definition BELL : Z := 7.
Definition BS : Z := 8.
Definition TAB : Z := 9.
Definition LF : Z := 10.
Definition CR : Z := 13.
Definition ESC : Z := 27.

(** mytolower, CommandProcessor.c:650 *)
Definition mytolower (a : Z) : Z :=
  if (65 <=? a) && (a <=? 90) then a - 65 + 97 else a.

(** myisprint, CommandProcessor.c:713 *)
Definition myisprint (c : Z) : bool := (32 <=? c) && (c <=? 126).

(** The do-while of mystrnicmp, entered with [n <> 0]; the fuel is [n]. *)
Fixpoint mystrnicmp_loop (n : nat) (l r : list Z) : Z :=
  match n with
  | O => 0
  | S n' =>
    let result := mytolower (deref l) - mytolower (deref r) in
    if (result =? 0) && negb (deref (tail l) =? 0) && negb (Nat.eqb n' 0)
    then mystrnicmp_loop n' (tail l) (tail r)
    else result
  end.

(** mystrnicmp, CommandProcessor.c:669 *)
Definition mystrnicmp (l r : list Z) (n : nat) : Z :=
  let result := mystrnicmp_loop n l r in
  if result <? -1 then -1 else if 1 <? result then 1 else result.

(** Modelled from the C standard: [strncmp] compares at most [n] characters
    and stops after a terminator.  Only its being zero is ever tested. *)
Fixpoint strncmp (l r : list Z) (n : nat) : Z :=
  match n with
  | O => 0
  | S n' =>
    if deref l =? deref r
    then if deref l =? 0 then 0 else strncmp (tail l) (tail r) n'
    else deref l - deref r
  end.

(** Modelled from the C standard: [strchr s c] as the offset of the first
    [c] in [s], [None] for a null result. *)
Fixpoint strchr (s : list Z) (c : Z) : option Z :=
  match s with
  | [] => None
  | x :: s' => if x =? c then Some 0 else Z.succ <$> strchr s' c
  end.

(** ** Memory blocks *)

(** The string that starts at the head of [m]: [None] when the block ends
    before a terminator is met. *)
Fixpoint cstr (m : list Z) : option (list Z) :=
  match m with
  | [] => None
  | c :: m' => if c =? 0 then Some [] else (c ::.) <$> cstr m'
  end.

(** The string at offset [i] of block [m]. *)
Definition cstr_at (m : list Z) (i : Z) : option (list Z) :=
  if 0 <=? i then cstr (drop (Z.to_nat i) m) else None.

(** [m[i] = v] *)
Definition poke (m : list Z) (i v : Z) : option (list Z) :=
  if (0 <=? i) && (i <? Z.of_nat (length m))
  then Some (<[Z.to_nat i := v]> m) else None.

(** [strcpy (m + i, s)]: the bytes of [s] and a terminator. *)
Definition store_cstr (m : list Z) (i : Z) (s : list Z) : option (list Z) :=
  if (0 <=? i) && (i + strlen s + 1 <=? Z.of_nat (length m))
  then Some (take (Z.to_nat i) m ++ s ++ 0 :: drop (Z.to_nat (i + strlen s + 1)) m)
  else None.

(** What malloc hands out: [n] bytes of indeterminate content [junk]. *)
Definition fresh_block (junk : nat -> Z) (n : Z) : list Z :=
  junk <$> seq 0 (Z.to_nat n).

(** ** The data of CommandProcessor.h *)

Inductive VISIBLE_T := invisible | visible.
Inductive RUNRESULT_T := runexit | runok.
Inductive ADDRESULT_T := addfailed | addok.
Inductive INITRESULT_T := initfailed | initok.

Definition CFG_ENABLE_TERMINATE : Z := 0x0001.
Definition CFG_ENABLE_SYSTEM : Z := 0x0002.
Definition CFG_ECHO_ON : Z := 0x2000.
Definition CFG_CASE_INSENSITIVE : Z := 0x4000.

(** MENU_CALLBACK: the built-in routines of the C file, or a routine of the
    host program. *)
Inductive MENU_CALLBACK :=
  | Help_cb
  | History_cb
  | Echo_cb
  | Exit_cb
  | User_cb (f : list Z -> RUNRESULT_T).

Record CMD_T := mkCMD {
  command : list Z;
  helptext : list Z;
  callback : MENU_CALLBACK;
  vis : VISIBLE_T
}.

Definition HelpMenu : CMD_T :=
  mkCMD (lit "Help") (lit "Help or '?' shows this help, 'Help ?' shows more details.") Help_cb visible.
Definition QuestionMenu : CMD_T :=
  mkCMD (lit "?") (lit "Shows this help, '? ?' shows more details.") Help_cb invisible.
Definition HistoryMenu : CMD_T :=
  mkCMD (lit "History") (lit "Show command history") History_cb visible.
Definition EchoMenu : CMD_T :=
  mkCMD (lit "Echo") (lit "Echo [1|on|0|off] turns echo on or off.") Echo_cb visible.
Definition ExitMenu : CMD_T :=
  mkCMD (lit "Exit") (lit "Exits the program") Exit_cb visible.

(** ** The statics *)

Inductive Out :=
  | Putch (c : Z)
  | Puts (s : list Z).

Record Cfg := mkCfg {
  SignOnBanner : option CMD_T;
  showSignOnBanner : bool;
  caseinsensitive : bool;
  echo : Z;
  bufferSize : Z
}.

Record State := mkState {
  head : list CMD_T;
  buffer : list Z;
  historyBuffer : list Z;
  beforeHistory : list Z;
  historyCount : Z;
  historyDepth : Z;
  longestCommand : Z;
  cfg : Cfg;
  keycount : Z;
  leadinChar : bool;
  whereInHistory : Z;
  showPrompt : bool;
  output : list Out;
  calls : list (list Z * list Z)
}.

Definition set_head (v : list CMD_T) (s : State) : State :=
  mkState v (buffer s) (historyBuffer s) (beforeHistory s) (historyCount s)
    (historyDepth s) (longestCommand s) (cfg s) (keycount s) (leadinChar s)
    (whereInHistory s) (showPrompt s) (output s) (calls s).
Definition set_buffer (v : list Z) (s : State) : State :=
  mkState (head s) v (historyBuffer s) (beforeHistory s) (historyCount s)
    (historyDepth s) (longestCommand s) (cfg s) (keycount s) (leadinChar s)
    (whereInHistory s) (showPrompt s) (output s) (calls s).
Definition set_historyBuffer (v : list Z) (s : State) : State :=
  mkState (head s) (buffer s) v (beforeHistory s) (historyCount s)
    (historyDepth s) (longestCommand s) (cfg s) (keycount s) (leadinChar s)
    (whereInHistory s) (showPrompt s) (output s) (calls s).
Definition set_beforeHistory (v : list Z) (s : State) : State :=
  mkState (head s) (buffer s) (historyBuffer s) v (historyCount s)
    (historyDepth s) (longestCommand s) (cfg s) (keycount s) (leadinChar s)
    (whereInHistory s) (showPrompt s) (output s) (calls s).
Definition set_historyCount (v : Z) (s : State) : State :=
  mkState (head s) (buffer s) (historyBuffer s) (beforeHistory s) v
    (historyDepth s) (longestCommand s) (cfg s) (keycount s) (leadinChar s)
    (whereInHistory s) (showPrompt s) (output s) (calls s).
Definition set_historyDepth (v : Z) (s : State) : State :=
  mkState (head s) (buffer s) (historyBuffer s) (beforeHistory s) (historyCount s)
    v (longestCommand s) (cfg s) (keycount s) (leadinChar s)
    (whereInHistory s) (showPrompt s) (output s) (calls s).
Definition set_longestCommand (v : Z) (s : State) : State :=
  mkState (head s) (buffer s) (historyBuffer s) (beforeHistory s) (historyCount s)
    (historyDepth s) v (cfg s) (keycount s) (leadinChar s)
    (whereInHistory s) (showPrompt s) (output s) (calls s).
Definition set_cfg (v : Cfg) (s : State) : State :=
  mkState (head s) (buffer s) (historyBuffer s) (beforeHistory s) (historyCount s)
    (historyDepth s) (longestCommand s) v (keycount s) (leadinChar s)
    (whereInHistory s) (showPrompt s) (output s) (calls s).
Definition set_keycount (v : Z) (s : State) : State :=
  mkState (head s) (buffer s) (historyBuffer s) (beforeHistory s) (historyCount s)
    (historyDepth s) (longestCommand s) (cfg s) v (leadinChar s)
    (whereInHistory s) (showPrompt s) (output s) (calls s).
Definition set_leadinChar (v : bool) (s : State) : State :=
  mkState (head s) (buffer s) (historyBuffer s) (beforeHistory s) (historyCount s)
    (historyDepth s) (longestCommand s) (cfg s) (keycount s) v
    (whereInHistory s) (showPrompt s) (output s) (calls s).
Definition set_whereInHistory (v : Z) (s : State) : State :=
  mkState (head s) (buffer s) (historyBuffer s) (beforeHistory s) (historyCount s)
    (historyDepth s) (longestCommand s) (cfg s) (keycount s) (leadinChar s)
    v (showPrompt s) (output s) (calls s).
Definition set_showPrompt (v : bool) (s : State) : State :=
  mkState (head s) (buffer s) (historyBuffer s) (beforeHistory s) (historyCount s)
    (historyDepth s) (longestCommand s) (cfg s) (keycount s) (leadinChar s)
    (whereInHistory s) v (output s) (calls s).
Definition set_output (v : list Out) (s : State) : State :=
  mkState (head s) (buffer s) (historyBuffer s) (beforeHistory s) (historyCount s)
    (historyDepth s) (longestCommand s) (cfg s) (keycount s) (leadinChar s)
    (whereInHistory s) (showPrompt s) v (calls s).

Definition set_calls (v : list (list Z * list Z)) (s : State) : State :=
  mkState (head s) (buffer s) (historyBuffer s) (beforeHistory s) (historyCount s)
    (historyDepth s) (longestCommand s) (cfg s) (keycount s) (leadinChar s)
    (whereInHistory s) (showPrompt s) (output s) v.

Definition set_echo (v : Z) (c : Cfg) : Cfg :=
  mkCfg (SignOnBanner c) (showSignOnBanner c) (caseinsensitive c) v (bufferSize c).
Definition set_showSignOnBanner (v : bool) (c : Cfg) : Cfg :=
  mkCfg (SignOnBanner c) v (caseinsensitive c) (echo c) (bufferSize c).

(** The statics as the C file initialises them; the two buffer pointers are
    null, which is a block without bytes. *)
Definition statics : State :=
  mkState [] [] [] [] 0 0 0 (mkCfg None false false 0 0) 0 false 0 true [] [].

(** ** Computations over the statics *)

Inductive Block := BufferBlk | AlternateBlk | HistoryBlk | CommandBlk | SprintfBlk.

(** The ways an execution leaves defined behaviour: an access at offset [i]
    outside block [b], a [strcpy] between overlapping strings, a call
    through a null pointer, an [int] product outside the range of [int]. *)
Inductive UB :=
  | BadRead (b : Block) (i : Z)
  | BadWrite (b : Block) (i : Z)
  | Overlap (i : Z)
  | NullDeref
  | IntOverflow.

Inductive Result (A : Type) :=
  | Ok (a : A) (s : State)
  | Fault (u : UB).
Arguments Ok {A} a s.
Arguments Fault {A} u.

Definition M (A : Type) : Type := State -> Result A.

Definition ret {A} (a : A) : M A := fun s => Ok a s.
Definition bind {A B} (m : M A) (k : A -> M B) : M B :=
  fun s => match m s with Ok a s' => k a s' | Fault u => Fault u end.
Definition fault {A} (u : UB) : M A := fun _ => Fault u.
Definition get : M State := fun s => Ok s s.
Definition modify (f : State -> State) : M unit := fun s => Ok tt (f s).
Definition when (b : bool) (m : M unit) : M unit := if b then m else ret tt.

Declare Scope cmd_scope.
Delimit Scope cmd_scope with cmd.
Notation "x <- m ;; k" := (bind m (fun x => k))
  (at level 100, m at next level, right associativity) : cmd_scope.
Notation "m ;; k" := (bind m (fun _ => k))
  (at level 100, right associativity) : cmd_scope.
Local Open Scope cmd_scope.

(** The state a computation ends in, when it ends. *)
Definition final {A} (r : Result A) : option State :=
  match r with Ok _ s => Some s | Fault _ => None end.

(** [cfg.putch (c)] and [cfg.puts (t)] *)
Definition putch (c : Z) : M unit :=
  modify (fun s => set_output (output s ++ [Putch c]) s).
Definition puts (t : list Z) : M unit :=
  modify (fun s => set_output (output s ++ [Puts t]) s).

(** The string at [buffer + i] *)
Definition read_buffer (i : Z) : M (list Z) := fun s =>
  match cstr_at (buffer s) i with
  | Some t => Ok t s
  | None => Fault (BadRead BufferBlk i)
  end.

(** [buffer[i] = v] *)
Definition poke_buffer (i v : Z) : M unit := fun s =>
  match poke (buffer s) i v with
  | Some m => Ok tt (set_buffer m s)
  | None => Fault (BadWrite BufferBlk i)
  end.

(** [strcpy (buffer + i, t)] *)
Definition write_buffer (i : Z) (t : list Z) : M unit := fun s =>
  match store_cstr (buffer s) i t with
  | Some m => Ok tt (set_buffer m s)
  | None => Fault (BadWrite BufferBlk i)
  end.

(** The string at [&historyBuffer[slot * cfg.bufferSize]].  For a slot
    below 0 the address lies in front of the block, which in C is a read
    outside the block.  The bytes there are not the program's: what the
    read finds is whatever the state carries in [beforeHistory] (the bytes
    that end where the block starts), and it is a [Fault] when the state
    carries no byte at that address. *)
Definition read_history (slot : Z) : M (list Z) := fun s =>
  let off := slot * bufferSize (cfg s) in
  match cstr_at (beforeHistory s ++ historyBuffer s) (strlen (beforeHistory s) + off) with
  | Some t => Ok t s
  | None => Fault (BadRead HistoryBlk off)
  end.

(** [strcpy (&historyBuffer[slot * cfg.bufferSize], t)] *)
Definition write_history (slot : Z) (t : list Z) : M unit := fun s =>
  let off := slot * bufferSize (cfg s) in
  match store_cstr (historyBuffer s) off t with
  | Some m => Ok tt (set_historyBuffer m s)
  | None => Fault (BadWrite HistoryBlk off)
  end.

(** EchoString, CommandProcessor.c:398 *)
Fixpoint EchoString (p : list Z) : M unit :=
  match p with
  | [] => ret tt
  | c :: p' => putch c ;; EchoString p'
  end.

Fixpoint EraseChars_loop (n : nat) : M unit :=
  match n with
  | O => ret tt
  | S n' => putch BS ;; putch SPACE ;; putch BS ;; EraseChars_loop n'
  end.

(** EraseChars, CommandProcessor.c:403; every caller passes a length. *)
Definition EraseChars (n : Z) : M unit := EraseChars_loop (Z.to_nat n).

(** ** The registry *)

(** One comparison of CommandMatches, under the configured case rule. *)
Definition compare_name (ci : bool) (b name : list Z) (compareLength : nat) : Z :=
  if ci then mystrnicmp b name compareLength else strncmp b name compareLength.

(** What CommandMatches has found so far: [foundCount], [*menu], [*params]
    (an offset into [buffer]; the caller starts both pointers at null). *)
Record Found := mkFound {
  foundCount : Z;
  menu : option CMD_T;
  params : option Z
}.

(** The while loop of CommandMatches over the links. *)
Fixpoint match_links (ci : bool) (b : list Z) (compareLength : nat) (space : Z)
    (link : list CMD_T) (acc : Found) : Found :=
  match link with
  | [] => acc
  | m :: next =>
    match_links ci b compareLength space next
      (if compare_name ci b (command m) compareLength =? 0
       then mkFound (foundCount acc + 1) (Some m) (Some space)
       else acc)
  end.

(** A write of [t] and its terminator into [alternateBuffer], a block of
    [cfg.bufferSize] bytes.  The allocation of the block is taken to
    succeed; the C code does not test its result. *)
Definition write_alternate (t : list Z) : M unit := fun s =>
  if strlen t + 1 <=? bufferSize (cfg s) then Ok tt s
  else Fault (BadWrite AlternateBlk (bufferSize (cfg s))).

(** The offset of the parameters in a line: behind the first space, or at
    the terminator. *)
Definition params_of (b : list Z) : Z :=
  match strchr b SPACE with
  | Some i => i + 1
  | None => strlen b
  end.

(** The length of the command part of a line. *)
Definition compareLength_of (b : list Z) : Z :=
  match strchr b SPACE with
  | Some i => i
  | None => strlen b
  end.

(** CommandMatches, CommandProcessor.c:220, called on the static [buffer]. *)
Definition CommandMatches (exec : bool) : M Found :=
  b <- read_buffer 0 ;;
  if strlen b =? 0 then ret (mkFound 0 None None) else
  let compareLength := compareLength_of b in
  let space := params_of b in
  s <- get ;;
  let found := match_links (caseinsensitive (cfg s)) b (Z.to_nat compareLength)
                 space (head s) (mkFound 0 None None) in
  match menu found with
  | Some m =>
    if (foundCount found =? 1) && exec then
      let diff := strlen (command m) - compareLength in
      if (0 <? diff) || negb (strncmp b (command m) (Z.to_nat compareLength) =? 0) then
        args <- read_buffer space ;;
        write_alternate (command m) ;;
        write_alternate (command m ++ [SPACE]) ;;
        write_alternate (command m ++ [SPACE] ++ args) ;;
        EraseChars (strlen b) ;;
        write_buffer 0 (command m ++ [SPACE] ++ args) ;;
        p <- read_buffer 0 ;;
        EchoString p ;;
        b' <- read_buffer 0 ;;
        ret (mkFound (foundCount found) (menu found) (Some (params_of b')))
      else ret found
    else ret found
  | None => ret found
  end.

(** The search of CommandProcessor_Add for the insertion point; [prev] and
    [ptr] are positions in the list, [ptr] past the end when null. *)
Fixpoint add_search (name : list Z) (rest : list CMD_T) (prev ptr : nat) : nat * nat :=
  match rest with
  | [] => (prev, ptr)
  | m :: next =>
    if mystrnicmp (command m) name (length name) <? 0
    then add_search name next ptr (S ptr)
    else (prev, ptr)
  end.

(** CommandProcessor_Add, CommandProcessor.c:362; [temp] tells whether the
    allocation of the link succeeds. *)
Definition CommandProcessor_Add (m : CMD_T) (temp : bool) : M ADDRESULT_T :=
  s <- get ;;
  when (longestCommand s <? strlen (command m))
    (modify (set_longestCommand (strlen (command m)))) ;;
  if negb temp then ret addfailed else
  match head s with
  | [] => modify (set_head [m]) ;; ret addok
  | _ =>
    let '(prev, ptr) := add_search (command m) (head s) 0%nat 0%nat in
    if Nat.eqb prev 0
    then modify (set_head (m :: head s)) ;; ret addok
    else modify (set_head (take ptr (head s) ++ m :: drop ptr (head s))) ;; ret addok
  end.

(** ** The built-in commands *)

(** CommandProcessor_Echo, CommandProcessor.c:614 *)
Definition CommandProcessor_Echo (e : Z) : M RUNRESULT_T :=
  modify (fun s => set_cfg (set_echo e (cfg s)) s) ;; ret runok.

Definition CRLF : list Z := [CR; LF].

(** Echo, CommandProcessor.c:164 *)
Definition Echo (p : list Z) : M RUNRESULT_T :=
  when (negb (deref p =? 0))
    (when ((deref p =? chr "1") || (mystrnicmp p (lit "on") 2 =? 0))
       (CommandProcessor_Echo 1 ;; ret tt) ;;
     when ((deref p =? chr "0") || (mystrnicmp p (lit "off") 3 =? 0))
       (CommandProcessor_Echo 0 ;; ret tt)) ;;
  s <- get ;;
  (if echo (cfg s) =? 0 then puts (CRLF ++ lit "Echo is off")
   else puts (CRLF ++ lit "Echo is on")) ;;
  ret runok.

(** Exit, CommandProcessor.c:178 *)
Definition Exit (p : list Z) : M RUNRESULT_T :=
  puts (CRLF ++ lit "bye.") ;; ret runexit.

(** A [sprintf] of [t] and its terminator into a local array of 100 bytes. *)
Definition sprintf100 (t : list Z) : M (list Z) := fun s =>
  if strlen t + 1 <=? 100 then Ok t s else Fault (BadWrite SprintfBlk 100).

(** The conversion [%-*s]: [t], filled with spaces on the right to [width]. *)
Definition pad_right (width : Z) (t : list Z) : list Z :=
  t ++ replicate (Z.to_nat (width - strlen t)) SPACE.

(** The conversion [%2i]: the decimal digits, filled on the left to two. *)
Definition fmt_2i (i : Z) : list Z :=
  let d := lit (pretty i) in
  replicate (2 - length d) SPACE ++ d.

Fixpoint Help_loop (link : list CMD_T) : M unit :=
  match link with
  | [] => ret tt
  | m :: next =>
    s <- get ;;
    when (match vis m with visible => true | invisible => false end)
      (when (strlen (command m) + strlen (helptext m) + 5 <? 100)
         (line <- sprintf100 (lit " " ++ pad_right (longestCommand s) (command m)
                                ++ lit ": " ++ helptext m) ;;
          puts line)) ;;
    Help_loop next
  end.

(** Help, CommandProcessor.c:184 *)
Definition Help (p : list Z) : M RUNRESULT_T :=
  s <- get ;;
  puts CRLF ;;
  Help_loop (head s) ;;
  puts [] ;;
  ret runok.

Fixpoint History_loop (n : nat) (whereIn : Z) : M unit :=
  match n with
  | O => ret tt
  | S n' =>
    s <- get ;;
    e <- read_history whereIn ;;
    line <- sprintf100 (lit "  " ++ fmt_2i (whereIn - historyCount s) ++ lit ": " ++ e) ;;
    puts line ;;
    History_loop n' (whereIn + 1)
  end.

(** History, CommandProcessor.c:139 *)
Definition History (p : list Z) : M RUNRESULT_T :=
  s <- get ;;
  puts [] ;;
  History_loop (Z.to_nat (historyCount s)) 0 ;;
  b <- read_buffer 0 ;;
  line <- sprintf100 (lit "  " ++ fmt_2i 0 ++ lit ": " ++ b) ;;
  puts line ;;
  ret runok.

(** The call of a command's callback with the parameter string [p]. *)
Definition call (m : CMD_T) (p : list Z) : M RUNRESULT_T :=
  modify (fun s => set_calls (calls s ++ [(command m, p)]) s) ;;
  match callback m with
  | Help_cb => Help p
  | History_cb => History p
  | Echo_cb => Echo p
  | Exit_cb => Exit p
  | User_cb f => ret (f p)
  end.

(** ** Key processing *)

(** The recall shared by the two arrows: erase the shown line, copy history
    entry [whereIn] into [buffer], show it, and set [keycount]. *)
Definition recall (whereIn : Z) : M unit :=
  s <- get ;;
  EraseChars (keycount s) ;;
  e <- read_history whereIn ;;
  write_buffer 0 e ;;
  p <- read_buffer 0 ;;
  EchoString p ;;
  b <- read_buffer 0 ;;
  modify (set_keycount (strlen b)).

(** ProcessComplexSequence, CommandProcessor.c:412 *)
Definition ProcessComplexSequence (c : Z) : M Z :=
  s <- get ;;
  c' <- (if (c =? 0x42) || (c =? 0x50) then
           when (negb (historyCount s =? 0) && (whereInHistory s <? historyCount s))
             (recall (whereInHistory s) ;;
              modify (set_whereInHistory (whereInHistory s + 1))) ;;
           ret 0
         else if (c =? 0x41) || (c =? 0x48) then
           if negb (historyCount s =? 0) then
             modify (set_whereInHistory (whereInHistory s - 1)) ;;
             if 0 <=? whereInHistory s - 1 then
               recall (whereInHistory s - 1) ;; ret 0
             else
               modify (set_whereInHistory 0) ;; ret ESC
           else
             modify (set_whereInHistory 0) ;; ret ESC
         else ret 0) ;;
  modify (set_leadinChar false) ;;
  ret c'.

(** The for loop that moves the entries one slot down, CommandProcessor.c:522;
    [strcpy] between strings that overlap is undefined. *)
Fixpoint history_shift (n : nat) (i : Z) : M unit :=
  match n with
  | O => ret tt
  | S n' =>
    s <- get ;;
    e <- read_history (i + 1) ;;
    (if strlen e + 1 <=? bufferSize (cfg s) then write_history i e
     else fault (Overlap ((i + 1) * bufferSize (cfg s)))) ;;
    history_shift n' (i + 1)
  end.

(** The entry of the line into the history, CommandProcessor.c:517-528. *)
Definition history_enter : M unit :=
  s <- get ;;
  b <- read_buffer 0 ;;
  last <- read_history (historyCount s - 1) ;;
  when (negb (mystrnicmp b last (length last) =? 0))
    (when (historyCount s =? historyDepth s)
       (modify (set_historyCount (historyCount s - 1)) ;;
        history_shift (Z.to_nat (historyCount s - 1)) 0) ;;
     s1 <- get ;;
     line <- read_buffer 0 ;;
     write_history (historyCount s1) line ;;
     modify (set_whereInHistory (historyCount s1)) ;;
     modify (set_historyCount (historyCount s1 + 1))).

Definition NON_UNIQUE : list Z := lit " *** non-unique command ignored      try 'Help' ***".
Definition HUH : list Z := lit " *** huh?                            try 'Help' ***".

(** The case of '\r' and '\n' in ProcessStandardSequence. *)
Definition submit : M RUNRESULT_T :=
  b <- read_buffer 0 ;;
  val <- (if negb (strlen b =? 0) then
            found <- CommandMatches true ;;
            if foundCount found =? 1 then
              match menu found, params found with
              | Some cbk, Some prm =>
                p <- read_buffer prm ;;
                val <- call cbk p ;;
                history_enter ;;
                ret val
              | _, _ => fault NullDeref
              end
            else if 1 <? foundCount found then puts NON_UNIQUE ;; ret runok
            else if foundCount found =? 0 then puts HUH ;; ret runok
            else ret runok
          else puts [] ;; ret runok) ;;
  modify (set_keycount 0) ;;
  poke_buffer 0 0 ;;
  modify (set_showPrompt true) ;;
  ret val.

(** The case of the tab key in ProcessStandardSequence. *)
Definition complete : M unit :=
  found <- CommandMatches false ;;
  if foundCount found =? 1 then
    match menu found with
    | Some cbk =>
      b <- read_buffer 0 ;;
      let n := compareLength_of b in
      if n <? strlen (command cbk) then
        if strlen b <=? strlen (command cbk) then
          let p := drop (Z.to_nat (strlen b)) (command cbk) in
          write_buffer (strlen b) p ;;
          b' <- read_buffer 0 ;;
          modify (set_keycount (strlen b')) ;;
          EchoString p
        else fault (BadRead CommandBlk (strlen b))
      else ret tt
    | None => fault NullDeref
    end
  else ret tt.

(** The default case of ProcessStandardSequence. *)
Definition insert (c : Z) : M unit :=
  s <- get ;;
  if myisprint c && (keycount s <? bufferSize (cfg s)) then
    poke_buffer (keycount s) c ;;
    modify (set_keycount (keycount s + 1)) ;;
    poke_buffer (keycount s + 1) 0 ;;
    found <- CommandMatches false ;;
    if negb (foundCount found =? 0) then putch c
    else
      modify (set_keycount (keycount s)) ;;
      poke_buffer (keycount s) 0 ;;
      putch BELL
  else putch BELL.

(** ProcessStandardSequence, CommandProcessor.c:454 *)
Definition ProcessStandardSequence (c : Z) : M RUNRESULT_T :=
  if c =? 0 then ret runok
  else if c =? 0x5B then modify (set_leadinChar true) ;; ret runok
  else if c =? 0xE0 then modify (set_leadinChar true) ;; ret runok
  else if c =? TAB then complete ;; ret runok
  else if c =? ESC then
    s <- get ;;
    EraseChars (keycount s) ;;
    modify (set_keycount 0) ;;
    poke_buffer 0 0 ;;
    ret runok
  else if c =? BS then
    s <- get ;;
    (if negb (keycount s =? 0) then
       modify (set_keycount (keycount s - 1)) ;;
       poke_buffer (keycount s - 1) 0 ;;
       EraseChars 1
     else putch BELL) ;;
    ret runok
  else if (c =? CR) || (c =? LF) then submit
  else insert c ;; ret runok.

(** CommandProcessor_Run, CommandProcessor.c:590; [key] is what
    [cfg.kbhit] and [cfg.getch] deliver. *)
Definition CommandProcessor_Run (key : option Z) : M RUNRESULT_T :=
  let val := runok in
  s <- get ;;
  when (showSignOnBanner (cfg s))
    (match SignOnBanner (cfg s) with
     | Some m => call m [] ;; ret tt
     | None => fault NullDeref
     end ;;
     modify (fun s => set_cfg (set_showSignOnBanner false (cfg s)) s)) ;;
  s <- get ;;
  when (showPrompt s && negb (echo (cfg s) =? 0))
    (putch (chr ">") ;; modify (set_showPrompt false)) ;;
  match key with
  | Some c =>
    s <- get ;;
    c <- (if leadinChar s then ProcessComplexSequence c else ret c) ;;
    ProcessStandardSequence c ;;
    ret tt
  | None => ret tt
  end ;;
  ret val.

(** ** Initialisation *)

(** The range of a C [int], 32 bits wide. *)
Definition INT_MIN : Z := - 2 ^ 31.
Definition INT_MAX : Z := 2 ^ 31 - 1.
Definition is_int (n : Z) : bool := (INT_MIN <=? n) && (n <=? INT_MAX).

(** The product of two [int]s. *)
Definition int_mul (a b : Z) : M Z :=
  if is_int (a * b) then ret (a * b) else fault IntOverflow.

Definition flag (config mask : Z) : bool := negb (Z.land config mask =? 0).

(** What one call of malloc returns: null, or a block of the requested
    size with indeterminate content. *)
Definition malloc (r : option (nat -> Z)) (n : Z) : list Z :=
  match r with
  | Some junk => fresh_block junk n
  | None => []
  end.

(** CommandProcessor_Init, CommandProcessor.c:307.  [links k] tells whether
    the allocation of the [k]-th link succeeds, [mbuf] and [mhist] are the
    results of the two calls of malloc, and [before] is what lies in front of
    the history block.  The size of the history block is the [int] product
    [historyDepth * maxCmdLen]. *)
Definition CommandProcessor_Init (banner : option CMD_T) (config maxCmdLen numInHistory : Z)
    (links : nat -> bool) (mbuf mhist : option (nat -> Z)) (before : list Z)
    : M INITRESULT_T :=
  match banner with
  | Some b =>
    CommandProcessor_Add b (links 0%nat) ;;
    modify (fun s => set_cfg (mkCfg (Some b) true (caseinsensitive (cfg s))
                                (echo (cfg s)) (bufferSize (cfg s))) s)
  | None => ret tt
  end ;;
  let maxCmdLen := if maxCmdLen <? 6 then 6 else maxCmdLen in
  modify (set_buffer (malloc mbuf maxCmdLen)) ;;
  modify (set_historyDepth numInHistory) ;;
  n <- int_mul numInHistory maxCmdLen ;;
  modify (set_historyBuffer (malloc mhist n)) ;;
  modify (set_beforeHistory before) ;;
  modify (fun s => set_cfg (mkCfg (SignOnBanner (cfg s)) (showSignOnBanner (cfg s))
                              (caseinsensitive (cfg s)) (echo (cfg s)) maxCmdLen) s) ;;
  if bool_decide (is_Some mbuf) && bool_decide (is_Some mhist) then
    when (flag config CFG_ENABLE_SYSTEM)
      (CommandProcessor_Add QuestionMenu (links 1%nat) ;;
       CommandProcessor_Add HelpMenu (links 2%nat) ;;
       CommandProcessor_Add HistoryMenu (links 3%nat) ;;
       CommandProcessor_Add EchoMenu (links 4%nat) ;;
       ret tt) ;;
    when (flag config CFG_ENABLE_TERMINATE)
      (CommandProcessor_Add ExitMenu (links 5%nat) ;; ret tt) ;;
    modify (fun s => set_cfg (mkCfg (SignOnBanner (cfg s)) (showSignOnBanner (cfg s))
                                (flag config CFG_CASE_INSENSITIVE)
                                (if flag config CFG_ECHO_ON then 1 else 0)
                                (bufferSize (cfg s))) s) ;;
    ret initok
  else ret initfailed.

(** ** Notions used in the statements *)

(** The line held in [buffer]. *)
Definition line (s : State) : option (list Z) := cstr_at (buffer s) 0.

(** The history entry kept in slot [i]. *)
Definition entry (s : State) (i : Z) : option (list Z) :=
  cstr_at (historyBuffer s) (i * bufferSize (cfg s)).

(** The stored entries, oldest first. *)
Definition entries (s : State) : option (list (list Z)) :=
  mapM (fun i => entry s (Z.of_nat i)) (seq 0 (Z.to_nat (historyCount s))).

(** The names in the registry, in list order. *)
Definition names (s : State) : list (list Z) := command <$> head s.

(** A line matches a command when the comparison of CommandMatches,
    limited to the typed text before the first space, gives zero. *)
Definition matches (ci : bool) (b : list Z) (m : CMD_T) : bool :=
  compare_name ci b (command m) (Z.to_nat (compareLength_of b)) =? 0.

(** The prefix invariant of the line buffer. *)
Definition prefix_ok (s : State) (b : list Z) : Prop :=
  b = [] \/ exists m, m ∈ head s /\ matches (caseinsensitive (cfg s)) b m = true.

(** The keys of a session, fed one per call of CommandProcessor_Run. *)
Fixpoint session (keys : list Z) : M unit :=
  match keys with
  | [] => ret tt
  | k :: keys' => CommandProcessor_Run (Some k) ;; session keys'
  end.

(** The state a computation ends in; the statics when it does not end. *)
Definition state_of {A} (r : Result A) : State :=
  match r with Ok _ s => s | Fault _ => statics end.

(** Alphabetical order without regard to case, on whole names. *)
Fixpoint ci_le (x y : list Z) : bool :=
  match x, y with
  | [], _ => true
  | _ :: _, [] => false
  | a :: x', b :: y' =>
    if mytolower a <? mytolower b then true
    else if mytolower a =? mytolower b then ci_le x' y'
    else false
  end.

Fixpoint ci_sorted (l : list (list Z)) : bool :=
  match l with
  | x :: ((y :: _) as l') => ci_le x y && ci_sorted l'
  | _ => true
  end.

(** *** Concrete set-ups used for evaluation *)

Definition zeros : nat -> Z := fun _ => 0.

(** A user command that keeps the processor running. *)
Definition user_cmd (name : string) : CMD_T :=
  mkCMD (lit name) (lit "user command") (User_cb (fun _ => runok)) visible.

(** After [Init (NULL, CFG_ENABLE_SYSTEM | CFG_ENABLE_TERMINATE, 10, 2, ...)]
    with every allocation successful, zeroed blocks, and ten bytes ['z'] in
    front of the history block. *)
Definition boot : State :=
  state_of (CommandProcessor_Init None (CFG_ENABLE_SYSTEM + CFG_ENABLE_TERMINATE) 10 2
              (fun _ => true) (Some zeros) (Some zeros) (replicate 10 (chr "z")) statics).

(** [boot] after the keys E, x, i, t. *)
Definition exit_typed : State := state_of (session (lit "Exit") boot).

(** [Init (NULL, 0, 6, 2, ...)] followed by the registration of one user
    command, History6, and the keys H, i, s, t, o. *)
Definition boot6 : State :=
  state_of (CommandProcessor_Add (user_cmd "History6") true
    (state_of (CommandProcessor_Init None 0 6 2 (fun _ => true) (Some zeros) (Some zeros)
                 (replicate 6 (chr "z")) statics))).
Definition histo_typed : State := state_of (session (lit "Histo") boot6).

(** A string without a terminator inside. *)
Definition nonul (t : list Z) : Prop := Forall (fun c => c <> 0) t.

(** A string under the case rule of a comparison. *)
Definition fold_case (ci : bool) (t : list Z) : list Z :=
  if ci then mytolower <$> t else t.

(** The scan of CommandMatches for a line [b] over the registry of [s]. *)
Definition scan (s : State) (b : list Z) : Found :=
  match_links (caseinsensitive (cfg s)) b (Z.to_nat (compareLength_of b))
    (params_of b) (head s) (mkFound 0 None None).

(** The commands of a registry that a line matches. *)
Definition hits (ci : bool) (b : list Z) (l : list CMD_T) : list CMD_T :=
  filter (fun m => matches ci b m = true) l.

(** The parameter text of a line: what follows its first space. *)
Definition args_of (b : list Z) : list Z := drop (Z.to_nat (params_of b)) b.

(** The typed command part of a line. *)
Definition typed_of (b : list Z) : list Z := take (Z.to_nat (compareLength_of b)) b.

(** The output of EraseChars and of EchoString. *)
Definition erased (n : nat) : list Out :=
  concat (replicate n [Putch BS; Putch SPACE; Putch BS]).
Definition echoed (t : list Z) : list Out := Putch <$> t.

(** The test of CommandMatches for rewriting the line: the typed command
    part is shorter than the name, or differs from its start under
    [strncmp]. *)
Definition rewrite_needed (b : list Z) (m : CMD_T) : bool :=
  (0 <? strlen (command m) - compareLength_of b)
  || negb (strncmp b (command m) (Z.to_nat (compareLength_of b)) =? 0).

(** The line CommandMatches rewrites [b] to for command [m]. *)
Definition canonical (m : CMD_T) (b : list Z) : list Z :=
  command m ++ SPACE :: args_of b.

(** What the body of a callback leaves alone: all statics but the echo
    setting, and the output only grows. *)
Definition untouched (s s' : State) : Prop :=
  head s' = head s /\ buffer s' = buffer s /\
  historyBuffer s' = historyBuffer s /\ beforeHistory s' = beforeHistory s /\
  historyCount s' = historyCount s /\ historyDepth s' = historyDepth s /\
  longestCommand s' = longestCommand s /\ keycount s' = keycount s /\
  leadinChar s' = leadinChar s /\ whereInHistory s' = whereInHistory s /\
  showPrompt s' = showPrompt s /\
  bufferSize (cfg s') = bufferSize (cfg s) /\
  caseinsensitive (cfg s') = caseinsensitive (cfg s) /\
  SignOnBanner (cfg s') = SignOnBanner (cfg s) /\
  showSignOnBanner (cfg s') = showSignOnBanner (cfg s) /\
  calls s' = calls s /\
  (exists o, output s' = output s ++ o).

(** Every entry in the slots below [hi] that fits the line buffer is empty
    or matches a command. *)
Definition hist_ok (s : State) (hi : Z) : Prop :=
  forall i e, 0 <= i < hi -> entry s i = Some e ->
    strlen e < bufferSize (cfg s) -> prefix_ok s e.

(** The invariant of the key-processing statics: the line buffer has the
    configured size and holds a terminated line of [keycount] characters
    that is empty or matches a command; the names are proper strings; the
    navigation index stays within the stored entries; and every stored
    entry that fits the line buffer is empty or matches a command. *)
Record Inv (s : State) : Prop := mkInv {
  inv_size : Z.of_nat (length (buffer s)) = bufferSize (cfg s);
  inv_line : exists b, line s = Some b /\ keycount s = strlen b /\ prefix_ok s b;
  inv_names : forall m, m ∈ head s -> nonul (command m);
  inv_where : 0 <= whereInHistory s <= historyCount s;
  inv_hist : hist_ok s (historyCount s)
}.

(** The statics right after initialisation: an empty line in a buffer of
    the configured size, an empty history, proper names. *)
Definition Fresh (s : State) : Prop :=
  Z.of_nat (length (buffer s)) = bufferSize (cfg s) /\
  line s = Some [] /\ keycount s = 0 /\
  whereInHistory s = 0 /\ historyCount s = 0 /\
  (forall m, m ∈ head s -> nonul (command m)).

(** [Init (NULL, 0, 10, 2, ...)] (case-sensitive), the registration of the
    user commands Go and Gop, and the keys G, o. *)
Definition boot_go : State :=
  state_of (CommandProcessor_Add (user_cmd "Gop") true
    (state_of (CommandProcessor_Add (user_cmd "Go") true
      (state_of (CommandProcessor_Init None 0 10 2 (fun _ => true) (Some zeros) (Some zeros)
                   (replicate 10 (chr "z")) statics))))).
Definition go_typed : State := state_of (session (lit "Go") boot_go).

(** The history as a computation that does not enter a line leaves it. *)
Definition hist_same (s s' : State) : Prop :=
  historyBuffer s' = historyBuffer s /\ historyCount s' = historyCount s /\
  historyDepth s' = historyDepth s /\ beforeHistory s' = beforeHistory s /\
  bufferSize (cfg s') = bufferSize (cfg s).

(** [boot] after the keys H, e, l, p and the carriage return. *)
Definition help_submitted : State := state_of (session (lit "Help" ++ [CR]) boot).

(** [boot] (case-sensitive) after the line "Echo on" was submitted, with
    "Echo ON" typed next. *)
Definition echo_on_typed : State :=
  state_of (session (lit "Echo on" ++ [CR] ++ lit "Echo ON") boot).

(** [boot] with "He 12" typed: a prefix of Help and a parameter. *)
Definition he_typed : State := state_of (session (lit "He 12") boot).

(** A well-formed history: a block of [historyDepth] slots of
    [cfg.bufferSize] bytes, at most that many entries, each a string that
    ends inside its slot. *)
Definition hist_wf (s : State) : Prop :=
  0 < bufferSize (cfg s) /\
  Z.of_nat (length (historyBuffer s)) = historyDepth s * bufferSize (cfg s) /\
  0 <= historyCount s <= historyDepth s /\ 1 <= historyDepth s /\
  forall i, 0 <= i < historyCount s ->
    exists e, entry s i = Some e /\ strlen e < bufferSize (cfg s).

(** The entries after one more line was entered: the oldest goes when all
    [depth] slots are taken. *)
Definition fifo (depth : Z) (es : list (list Z)) (l : list Z) : list (list Z) :=
  if Z.of_nat (length es) =? depth then tail es ++ [l] else es ++ [l].

(** The keys that type and submit each of the lines. *)
Definition submit_keys (lines : list (list Z)) : list Z :=
  concat ((fun l => l ++ [CR]) <$> lines).

(** [Init (NULL, 0, 10, depth, ...)] with zeroed blocks and ten bytes ['z']
    in front of the history block, and the user commands A, B, C, Go. *)
Definition boot_depth (depth : Z) : State :=
  state_of (CommandProcessor_Add (user_cmd "Go") true
    (state_of (CommandProcessor_Add (user_cmd "C") true
      (state_of (CommandProcessor_Add (user_cmd "B") true
        (state_of (CommandProcessor_Add (user_cmd "A") true
          (state_of (CommandProcessor_Init None 0 10 depth (fun _ => true)
                       (Some zeros) (Some zeros) (replicate 10 (chr "z")) statics))))))))).

(** ** Further notions *)

(** Nothing is due before the key is looked at: the sign-on banner was
    shown, and no prompt is to be printed. *)
Definition quiet (s : State) : Prop :=
  showSignOnBanner (cfg s) = false /\
  (showPrompt s && negb (echo (cfg s) =? 0)) = false.

(** The arrow codes that ProcessComplexSequence knows. *)
Definition arrow_up (c : Z) : bool := (c =? 0x41) || (c =? 0x48).
Definition arrow_down (c : Z) : bool := (c =? 0x42) || (c =? 0x50).

(** [help_submitted] after the lead-in byte 0xE0. *)
Definition help_leadin : State := state_of (session [0xE0] help_submitted).

(** mystrcat, CommandProcessor.c:696, on a destination block [m] (taken from
    its first byte) and a source string [src].  The while loop looks for the
    terminator of the destination; the do-while stores the bytes of the
    source, and last its terminator.  [None] is an access outside the
    block. *)
Fixpoint mystrcat_seek (m : list Z) (dst : Z) : option Z :=
  match m with
  | [] => None
  | c :: m' => if c =? 0 then Some dst else mystrcat_seek m' (dst + 1)
  end.

Fixpoint mystrcat_copy (m : list Z) (dst : Z) (src : list Z) : option (list Z) :=
  match src with
  | [] => poke m dst 0
  | c :: src' =>
    match poke m dst c with
    | Some m' => mystrcat_copy m' (dst + 1) src'
    | None => None
    end
  end.

Definition mystrcat (m : list Z) (src : list Z) : option (list Z) :=
  match mystrcat_seek m 0 with
  | Some dst => mystrcat_copy m dst src
  | None => None
  end.

(** The number of leading links that the search of CommandProcessor_Add
    passes: those whose name compares below [name] under
    [mystrnicmp (..., name, strlen (name))]. *)
Fixpoint passed (name : list Z) (l : list CMD_T) : nat :=
  match l with
  | [] => 0
  | x :: l' =>
    if mystrnicmp (command x) name (length name) <? 0 then S (passed name l') else 0
  end.

(** No registered name is longer than [longestCommand]. *)
Definition longest_ok (s : State) : Prop :=
  Forall (fun x => strlen (command x) <= longestCommand s) (head s).

(** The registry and the length of its longest name. *)
Definition registry_same (s s' : State) : Prop :=
  head s' = head s /\ longestCommand s' = longestCommand s.


(** The statics a host program can bring about: those of the C file, and
    what Init, Add and Run make of them. *)
Inductive reachable : State -> Prop :=
  | reach_statics : reachable statics
  | reach_Init s banner config maxCmdLen numInHistory links mbuf mhist before r s' :
      reachable s ->
      CommandProcessor_Init banner config maxCmdLen numInHistory links mbuf mhist before s
      = Ok r s' ->
      reachable s'
  | reach_Add s m temp r s' :
      reachable s -> CommandProcessor_Add m temp s = Ok r s' -> reachable s'
  | reach_Run s key r s' :
      reachable s -> CommandProcessor_Run key s = Ok r s' -> reachable s'.

(** The line that Help formats for a command, with the names padded to the
    width [w]: [sprintf (buffer, " %-*s: %s", w, command, helptext)]. *)
Definition help_line (w : Z) (m : CMD_T) : list Z :=
  lit " " ++ pad_right w (command m) ++ lit ": " ++ helptext m.

(** The two tests of Help before it formats a command: the command is
    visible, and [strlen (command) + strlen (helptext) + 5 < sizeof (buffer)]. *)
Definition help_shown (m : CMD_T) : bool :=
  match vis m with visible => true | invisible => false end
  && (strlen (command m) + strlen (helptext m) + 5 <? 100).

(** A visible command with a one-letter name and a help text of 92
    characters, and [boot] with that command registered. *)
Definition wide_help : CMD_T :=
  mkCMD (lit "X") (replicate 92 (chr "h")) (User_cb (fun _ => runok)) visible.
Definition boot_wide : State := state_of (CommandProcessor_Add wide_help true boot).

(** What the two tests of Echo make of the echo setting [e] for the
    argument [p]: the test for off is made last and wins.  It holds when
    [p] begins with 0, when [p] begins with off in any letter case, and
    also when [p] is the one letter o or the two letters of, because
    mystrnicmp stops at the end of [p]; the test for on holds when [p]
    begins with 1 or with on, and for the one letter o. *)
Definition echo_arg (p : list Z) (e : Z) : Z :=
  match p with
  | [] => e
  | a :: t =>
    let o := mytolower a =? chr "o" in
    let off :=
      (a =? chr "0")
      || o && match t with
              | [] => true
              | b :: t' =>
                (mytolower b =? chr "f")
                && match t' with [] => true | c :: _ => mytolower c =? chr "f" end
              end in
    let on :=
      (a =? chr "1")
      || o && match t with [] => true | b :: _ => mytolower b =? chr "n" end in
    if off then 0 else if on then 1 else e
  end.

(** [Init (NULL, 0, 10, 0, ...)]: a history of depth 0 (with nine bytes
    ['z'] and a zero byte in front of the history block), the user command
    Go registered, and the keys G, o. *)
Definition go_typed_depth0 : State :=
  state_of (session (lit "Go")
    (state_of (CommandProcessor_Add (user_cmd "Go") true
      (state_of (CommandProcessor_Init None 0 10 0 (fun _ => true) (Some zeros) (Some zeros)
                   (replicate 9 (chr "z") ++ [0]) statics))))).

(** The line that History formats for the entry [e] numbered [i]:
    [sprintf (buf, "  %2i: %s", i, e)]. *)
Definition history_line (i : Z) (e : list Z) : list Z :=
  lit "  " ++ fmt_2i i ++ lit ": " ++ e.

(** ** CommandProcessor_End *)

(** What End hands to [free]. *)
Inductive Freed :=
  | FreeLink (m : CMD_T)
  | FreeBuffer.

(** CommandProcessor_End, CommandProcessor.c:623.  The do-while reads
    [p->next] before anything is tested: without a link in the registry
    that is a read through the null [head].  Otherwise every link is freed,
    then the line buffer, and [buffer] is set to null; [head] keeps its
    value and the history block is not freed.  The blocks handed to [free]
    are returned, in order, beside the result of the C function. *)
Fixpoint End_loop (p : CMD_T) (next : list CMD_T) : list Freed :=
  FreeLink p ::
  match next with
  | [] => []
  | n :: next' => End_loop n next'
  end.

Definition CommandProcessor_End : M (RUNRESULT_T * list Freed) :=
  s <- get ;;
  match head s with
  | [] => fault NullDeref
  | p :: next =>
    modify (set_buffer []) ;;
    ret (runok, End_loop p next ++ [FreeBuffer])
  end.

(** ** Watchdog::log2 (Watchdog.cpp, TARGET_STM) *)

(** [while (v >>= 1) r++;] on an unsigned [v]; [None] when the fuel runs
    out before the loop ends. *)
Fixpoint log2_loop (fuel : nat) (v r : Z) : option Z :=
  match fuel with
  | O => None
  | S fuel' =>
    let v' := Z.shiftr v 1 in
    if v' =? 0 then Some r else log2_loop fuel' v' (r + 1)
  end.

(** Watchdog::log2 on a 32-bit unsigned argument: at most 32 shifts give
    zero, the 33rd test ends the loop. *)
Definition log2 (v : Z) : option Z := log2_loop 33 v 0.

(** [boot_depth 2] after the line A was submitted, with "Go 1" typed. *)
Definition go_typed_depth2 : State :=
  state_of (session (lit "A" ++ [CR] ++ lit "Go 1") (boot_depth 2)).

(** ** The host program: the Filename command of main.cpp *)

Inductive HostBlock := FilenameBlk | LongfilenameBlk.

(** The globals of main.cpp that Filename uses: the led, the arrays
    [char filename[32]] and [char longfilename[48]], and what was written to
    the serial port, in order. *)
Record Host := mkHost {
  ledout : Z;
  filename : list Z;
  longfilename : list Z;
  btserial : list (list Z)
}.

(** The result of a callback of the host program, or an access outside the
    block [b] (at offset [i], the size of the block). *)
Inductive HostResult :=
  | HostOk (r : RUNRESULT_T) (h : Host)
  | HostFault (b : HostBlock) (i : Z).

Definition SUCCESS : list Z := CRLF ++ lit "success" ++ CRLF.

(** Filename, main.cpp:210: with a parameter, [strcpy (filename, p)] and
    [sprintf (longfilename, "/sd/%s", filename)]; without one, the name is
    printed.  [p] is the parameter string that the command processor hands
    over. *)
Definition Filename (p : list Z) (h : Host) : HostResult :=
  if negb (deref p =? 0) then
    match store_cstr (filename h) 0 p with
    | None => HostFault FilenameBlk (Z.of_nat (length (filename h)))
    | Some fn =>
      match cstr_at fn 0 with
      | None => HostFault FilenameBlk (Z.of_nat (length fn))
      | Some name =>
        match store_cstr (longfilename h) 0 (lit "/sd/" ++ name) with
        | None => HostFault LongfilenameBlk (Z.of_nat (length (longfilename h)))
        | Some lfn => HostOk runok (mkHost 0 fn lfn (btserial h ++ [SUCCESS]))
        end
      end
    end
  else
    match cstr_at (filename h) 0 with
    | None => HostFault FilenameBlk (Z.of_nat (length (filename h)))
    | Some name =>
      HostOk runok (mkHost 0 (filename h) (longfilename h)
                      (btserial h ++ [[CR] ++ name ++ CRLF; SUCCESS]))
    end.

(** The globals after the first two statements of main:
    [strcpy (filename, "default.csv")] and
    [sprintf (longfilename, "/sd/%s", filename)] on zeroed arrays. *)
Definition host0 : Host :=
  mkHost 0 (lit "default.csv" ++ replicate 21 0) (lit "/sd/default.csv" ++ replicate 33 0) [].

(** The commands of main.cpp; their callbacks all return runok. *)
Definition host_cmd (name help : string) (v : VISIBLE_T) : CMD_T :=
  mkCMD (lit name) (lit help) (User_cb (fun _ => runok)) v.
Definition SignOnBannerCmd : CMD_T := host_cmd "About" "Banner on start" invisible.
Definition FilenameCmd : CMD_T :=
  host_cmd "Filename" "Get filename (w/o args) or send new filename to gauge" visible.
Definition FileGetCmd : CMD_T := host_cmd "Get" "Get file %filename%" visible.
Definition CheckCmd : CMD_T := host_cmd "Check" "Check control of subsystems" visible.
Definition LsCmd : CMD_T := host_cmd "Ls" "List of files in %arg% directory" visible.
Definition ModeCmd : CMD_T :=
  host_cmd "Mode" "Select run mode (0 - do nothing; 1 - logging mode)" visible.

(** The statics as main sets them up, main.cpp:313-332: Init with the
    banner, the system commands, case-insensitive, a line buffer of 80 bytes
    and a history of depth 5, then the five commands of the program (every
    allocation successful, zeroed blocks, 80 bytes ['z'] in front of the
    history block). *)
Definition main_boot : State :=
  state_of
    ((CommandProcessor_Init (Some SignOnBannerCmd)
        (CFG_ENABLE_SYSTEM + CFG_CASE_INSENSITIVE) 80 5
        (fun _ => true) (Some zeros) (Some zeros) (replicate 80 (chr "z")) ;;
      CommandProcessor_Add FilenameCmd true ;;
      CommandProcessor_Add FileGetCmd true ;;
      CommandProcessor_Add CheckCmd true ;;
      CommandProcessor_Add LsCmd true ;;
      CommandProcessor_Add ModeCmd true) statics).

(** ** The comparison window in the words of the specification *)

(** The typed text before its first space. *)
Fixpoint before_space (b : list Z) : list Z :=
  match b with
  | [] => []
  | c :: b' => if c =? SPACE then [] else c :: before_space b'
  end.

(** The line [b] matches [name]: the typed text before the first space and
    as many leading characters of the name are equal under the case rule. *)
Definition window_match (ci : bool) (b name : list Z) : Prop :=
  fold_case ci (before_space b)
  = fold_case ci (take (length (before_space b)) name).

#[global] Instance window_match_dec ci b name : Decision (window_match ci b name).
Proof. unfold window_match. apply _. Defined.

(** The number of registered commands that the line [b] matches. *)
Definition window_count (s : State) (b : list Z) : Z :=
  Z.of_nat (length (filter (fun m => window_match (caseinsensitive (cfg s)) b (command m))
                      (head s))).

(** ** Further set-ups used for evaluation *)

(** A block that malloc may hand out for the line buffer: the bytes Z and q
    with zero bytes behind them; and the statics after
    [Init (NULL, CFG_ENABLE_SYSTEM | CFG_ENABLE_TERMINATE, 10, 2, ...)] on
    that block. *)
Definition junk_Zq (i : nat) : Z :=
  match i with
  | O => chr "Z"
  | S O => chr "q"
  | _ => 0
  end.
Definition boot_junk : State :=
  state_of (CommandProcessor_Init None (CFG_ENABLE_SYSTEM + CFG_ENABLE_TERMINATE) 10 2
              (fun _ => true) (Some junk_Zq) (Some zeros) (replicate 10 (chr "z")) statics).

(** [boot] with "He 12345" typed: eight characters in the buffer of ten. *)
Definition he12345_typed : State := state_of (session (lit "He 12345") boot).

(** As [boot_depth depth], with the bytes [before] in front of the history
    block: [Init (NULL, 0, 10, depth, ...)] with zeroed blocks and the user
    commands A, B, C, Go. *)
Definition boot_depth_before (before : list Z) (depth : Z) : State :=
  state_of (CommandProcessor_Add (user_cmd "Go") true
    (state_of (CommandProcessor_Add (user_cmd "C") true
      (state_of (CommandProcessor_Add (user_cmd "B") true
        (state_of (CommandProcessor_Add (user_cmd "A") true
          (state_of (CommandProcessor_Init None 0 10 depth (fun _ => true)
                       (Some zeros) (Some zeros) before statics))))))))).

(** [boot_depth_before before depth] with A typed. *)
Definition a_typed_before (before : list Z) (depth : Z) : State :=
  state_of (session (lit "A") (boot_depth_before before depth)).
(** * Properties *)

(** ** Running computations *)

Lemma bind_Ok {A B} (m : M A) (k : A -> M B) s b s' :
  bind m k s = Ok b s' <-> exists a s1, m s = Ok a s1 /\ k a s1 = Ok b s'.
Proof.
  unfold bind. destruct (m s) as [a s1|u]; split.
  - intros H. exists a, s1. auto.
  - intros (a' & s1' & [= <- <-] & H). exact H.
  - discriminate.
  - intros (a' & s1' & [=] & _).
Qed.

Lemma bind_Fault_l {A B} (m : M A) (k : A -> M B) s u :
  m s = Fault u -> bind m k s = Fault u.
Proof. unfold bind. intros ->. reflexivity. Qed.

Lemma bind_Ok_l {A B} (m : M A) (k : A -> M B) s a s1 :
  m s = Ok a s1 -> bind m k s = k a s1.
Proof. unfold bind. intros ->. reflexivity. Qed.

(** Symbolic execution of a computation known to end in [Ok]. *)
Ltac mstep H :=
  lazymatch type of H with
  | bind _ _ _ = Ok _ _ =>
    let a := fresh "a" in let s1 := fresh "s" in let H1 := fresh "E" in
    apply bind_Ok in H; destruct H as (a & s1 & H1 & H)
  | ret _ _ = Ok _ _ => unfold ret in H; injection H as ? ?; subst
  | get _ = Ok _ _ => unfold get in H; injection H as ? ?; subst
  | modify _ _ = Ok _ _ => unfold modify in H; injection H as ? ?; subst
  | putch _ _ = Ok _ _ => unfold putch, modify in H; injection H as ? ?; subst
  | puts _ _ = Ok _ _ => unfold puts, modify in H; injection H as ? ?; subst
  | fault _ _ = Ok _ _ => discriminate H
  end.

Tactic Notation "mbind" hyp(H) "as" simple_intropattern(a) ident(E) :=
  apply bind_Ok in H; destruct H as (a & ? & E & H).
Tactic Notation "mbind" hyp(H) "as" simple_intropattern(a) ident(s) ident(E) :=
  apply bind_Ok in H; destruct H as (a & s & E & H).

(** A step [s <- get ;; ...]: the state read is the current one. *)
Ltac mget H :=
  let E := fresh in
  apply bind_Ok in H; destruct H as (? & ? & E & H);
  unfold get in E; injection E as <- <-.

(** The [int] product: it gives the product, when that is an [int]. *)
Lemma int_mul_Ok a b n s s' :
  int_mul a b s = Ok n s' -> n = a * b /\ s' = s /\ is_int (a * b) = true.
Proof.
  unfold int_mul. destruct (is_int (a * b)); [|discriminate].
  unfold ret. by intros [= <- <-].
Qed.


(** ** Strings in memory blocks *)

Lemma strlen_nonneg t : 0 <= strlen t.
Proof. unfold strlen. lia. Qed.

Lemma strlen_app t u : strlen (t ++ u) = strlen t + strlen u.
Proof. unfold strlen. rewrite length_app. lia. Qed.

Lemma strlen_nil_iff t : strlen t = 0 <-> t = [].
Proof. unfold strlen. destruct t; simpl; split; intros; try done; lia. Qed.

Lemma nonul_app t u : nonul (t ++ u) <-> nonul t /\ nonul u.
Proof. apply Forall_app. Qed.

Lemma cstr_Some m t :
  cstr m = Some t <-> nonul t /\ exists rest, m = t ++ 0 :: rest.
Proof.
  revert t. induction m as [|c m IH]; intros t; simpl.
  - split; [done|]. intros (_ & rest & H). by destruct t.
  - destruct (Z.eqb_spec c 0) as [->|Hc].
    + split.
      * intros [= <-]. split; [constructor|]. by exists m.
      * intros (Ht & rest & H). destruct t as [|x t]; [done|].
        simplify_eq/=. by inversion Ht.
    + destruct (cstr m) as [t'|]; simpl.
      * split.
        -- intros [= <-]. destruct (proj1 (IH t') eq_refl) as (Ht' & rest & ->).
           split; [by constructor|]. by exists rest.
        -- intros (Ht & rest' & H). destruct t as [|x t]; simplify_eq/=.
           inversion Ht; subst. f_equal. f_equal.
           assert (Some t' = Some t) as [= ->]; [|done].
           apply IH. split; [done|]. by exists rest'.
      * split; [done|]. intros (Ht & rest & H). destruct t as [|x t]; simplify_eq/=.
        inversion Ht; subst.
        assert (@None (list Z) = Some t) as [=].
        apply IH. split; [done|]. by exists rest.
Qed.

Lemma cstr_app t rest : nonul t -> cstr (t ++ 0 :: rest) = Some t.
Proof. intros Ht. apply cstr_Some. split; [done|]. by exists rest. Qed.

Lemma cstr_at_Some m i t :
  cstr_at m i = Some t <->
  0 <= i /\ nonul t /\ exists pre rest, m = pre ++ t ++ 0 :: rest /\ strlen pre = i.
Proof.
  unfold cstr_at, strlen. destruct (Z.leb_spec 0 i) as [Hi|Hi].
  - rewrite cstr_Some. split.
    + intros (Ht & rest & H). split; [done|]. split; [done|].
      exists (take (Z.to_nat i) m), rest. split.
      * rewrite <- H. by rewrite take_drop.
      * rewrite length_take.
        assert (Z.to_nat i <= length m)%nat; [|lia].
        destruct (decide (Z.to_nat i <= length m)%nat) as [|Hn]; [done|].
        rewrite drop_ge in H by lia. by destruct t.
    + intros (_ & Ht & pre & rest & -> & Hp). split; [done|]. exists rest.
      rewrite drop_app_length'; [done|lia].
  - split; [done|]. intros (? & _). lia.
Qed.

Lemma cstr_at_app pre t rest :
  nonul t -> cstr_at (pre ++ t ++ 0 :: rest) (strlen pre) = Some t.
Proof.
  intros Ht. apply cstr_at_Some. split; [apply strlen_nonneg|].
  split; [done|]. by exists pre, rest.
Qed.

Lemma cstr_at_nonul m i t : cstr_at m i = Some t -> nonul t.
Proof. intros H. by apply cstr_at_Some in H as (_ & ? & _). Qed.

Lemma cstr_at_bound m i t :
  cstr_at m i = Some t -> i + strlen t + 1 <= Z.of_nat (length m).
Proof.
  intros H. apply cstr_at_Some in H as (? & _ & pre & rest & -> & <-).
  unfold strlen. rewrite !length_app. simpl. lia.
Qed.

Lemma poke_app pre x rest v :
  poke (pre ++ x :: rest) (strlen pre) v = Some (pre ++ v :: rest).
Proof.
  unfold poke, strlen. rewrite length_app. simpl.
  destruct (Z.leb_spec 0 (Z.of_nat (length pre))); [|lia].
  destruct (Z.ltb_spec (Z.of_nat (length pre)) (Z.of_nat (length pre + S (length rest)))); [|lia].
  simpl. f_equal. rewrite Nat2Z.id.
  replace (length pre) with (length pre + 0)%nat at 1 by lia.
  by rewrite insert_app_r.
Qed.

Lemma store_cstr_app pre mid rest t :
  length mid = S (length t) ->
  store_cstr (pre ++ mid ++ rest) (strlen pre) t = Some (pre ++ t ++ 0 :: rest).
Proof.
  intros Hm. unfold store_cstr, strlen. rewrite !length_app.
  destruct (Z.leb_spec 0 (Z.of_nat (length pre))); [|lia].
  destruct (Z.leb_spec (Z.of_nat (length pre) + Z.of_nat (length t) + 1)
              (Z.of_nat (length pre + (length mid + length rest)))); [|lia].
  simpl. f_equal. rewrite Nat2Z.id. rewrite take_app_length. f_equal. f_equal. f_equal.
  replace (Z.to_nat (Z.of_nat (length pre) + Z.of_nat (length t) + 1))
    with (length pre + length mid)%nat by lia.
  rewrite drop_app_ge by lia.
  replace (length pre + length mid - length pre)%nat with (length mid) by lia.
  by rewrite drop_app_length.
Qed.

Lemma store_cstr_length m i t m' :
  store_cstr m i t = Some m' -> length m' = length m.
Proof.
  unfold store_cstr, strlen.
  destruct (Z.leb_spec 0 i); [|done].
  destruct (Z.leb_spec (i + Z.of_nat (length t) + 1) (Z.of_nat (length m))); [|done].
  simpl. intros [= <-]. rewrite !length_app. simpl.
  rewrite length_take, length_drop. lia.
Qed.

Lemma poke_length m i v m' : poke m i v = Some m' -> length m' = length m.
Proof.
  unfold poke. destruct (_ && _); [|done]. intros [= <-]. apply length_insert.
Qed.

(** A block split around the bytes a [strcpy] will write. *)
Lemma store_cstr_split m i t m' :
  store_cstr m i t = Some m' ->
  exists pre mid rest,
    m = pre ++ mid ++ rest /\ strlen pre = i /\ length mid = S (length t) /\
    m' = pre ++ t ++ 0 :: rest.
Proof.
  unfold store_cstr, strlen.
  destruct (Z.leb_spec 0 i) as [Hi|]; [|done].
  destruct (Z.leb_spec (i + Z.of_nat (length t) + 1) (Z.of_nat (length m))) as [Hb|]; [|done].
  simpl. intros [= <-].
  exists (take (Z.to_nat i) m),
         (take (S (length t)) (drop (Z.to_nat i) m)),
         (drop (Z.to_nat (i + Z.of_nat (length t) + 1)) m).
  split; [|split; [|split]].
  - replace (Z.to_nat (i + Z.of_nat (length t) + 1))
      with (Z.to_nat i + S (length t))%nat by lia.
    rewrite <- drop_drop. by rewrite !take_drop.
  - rewrite length_take. lia.
  - rewrite length_take, length_drop. lia.
  - done.
Qed.

(** Reading back where a string was just written. *)
Lemma cstr_at_store_same m i t m' :
  store_cstr m i t = Some m' -> nonul t -> cstr_at m' i = Some t.
Proof.
  intros H Ht. apply store_cstr_split in H as (pre & mid & rest & -> & <- & _ & ->).
  by apply cstr_at_app.
Qed.

(** Two blocks that differ only in a stretch [mid] hold the same strings
    clear of that stretch. *)
Lemma cstr_at_frame pre mid mid' rest j e :
  length mid = length mid' ->
  cstr_at (pre ++ mid ++ rest) j = Some e ->
  j + strlen e + 1 <= strlen pre \/ strlen pre + Z.of_nat (length mid) <= j ->
  cstr_at (pre ++ mid' ++ rest) j = Some e.
Proof.
  intros Hmid He Hd.
  set (m := pre ++ mid ++ rest) in *.
  assert (m = pre ++ mid ++ rest) as Hm by done. clearbody m.
  apply cstr_at_Some in He as (Hj & Hne & pre' & rest' & Hm' & Hj').
  apply cstr_at_Some. split; [done|]. split; [done|].
  unfold strlen in *.
  destruct Hd as [Hd|Hd].
  - (* the string ends before the stretch *)
    assert (pre = pre' ++ e ++ 0 :: take (length pre - length pre' - length e - 1) rest') as Hp.
    { assert (pre = take (length pre) m) as Hx.
      { rewrite Hm. by rewrite take_app_length. }
      rewrite Hx at 1. rewrite Hm'.
      rewrite take_app_ge by lia. f_equal.
      rewrite take_app_ge by lia. f_equal.
      remember (length pre - length pre' - length e - 1)%nat as k eqn:Hk.
      replace (length pre - length pre' - length e)%nat with (S k) by lia.
      done. }
    exists pre', (take (length pre - length pre' - length e - 1) rest' ++ mid' ++ rest).
    split; [|done]. rewrite Hp at 1. by rewrite <- !app_assoc.
  - (* the string starts behind the stretch *)
    assert (rest = drop (length pre + length mid) m) as Hr.
    { rewrite Hm.
      rewrite drop_app_ge by lia.
      replace (length pre + length mid - length pre)%nat with (length mid) by lia.
      by rewrite drop_app_length. }
    assert (rest = drop (length pre + length mid) pre' ++ e ++ 0 :: rest') as Hr'.
    { rewrite Hr, Hm'. rewrite drop_app_le by lia. done. }
    exists (pre ++ mid' ++ drop (length pre + length mid) pre'), rest'.
    split.
    + rewrite Hr'. by rewrite <- !app_assoc.
    + rewrite !length_app. rewrite length_drop. lia.
Qed.

(** A string that lies clear of the written bytes is still there, and was
    there before. *)
Lemma cstr_at_store_other m i t m' j e :
  store_cstr m i t = Some m' ->
  j + strlen e + 1 <= i \/ i + strlen t + 1 <= j ->
  cstr_at m j = Some e <-> cstr_at m' j = Some e.
Proof.
  intros H Hd.
  apply store_cstr_split in H as (pre & mid & rest & -> & <- & Hmid & ->).
  replace (pre ++ t ++ 0 :: rest) with (pre ++ (t ++ [0]) ++ rest)
    by (by rewrite <- app_assoc).
  assert (length mid = length (t ++ [0])) as Hl
    by (rewrite length_app; simpl; lia).
  unfold strlen in Hd.
  split; intros He.
  - eapply cstr_at_frame; [exact Hl|exact He|]. unfold strlen. lia.
  - eapply cstr_at_frame; [symmetry; exact Hl|exact He|].
    unfold strlen. rewrite length_app. simpl. lia.
Qed.

(** ** What the comparisons decide *)

Lemma mytolower_0 a : mytolower a = 0 <-> a = 0.
Proof. unfold mytolower. destruct (_ && _) eqn:E; lia. Qed.

Lemma nonul_cons x t : nonul (x :: t) <-> x <> 0 /\ nonul t.
Proof. unfold nonul. apply (Forall_cons (fun c : Z => c <> 0)). Qed.

(** [strncmp] over [n] characters of a string that has them is zero exactly
    when the other string starts with the same [n] characters. *)
Lemma strncmp_0 n : forall b name,
  (n <= length b)%nat -> nonul b ->
  strncmp b name n = 0 <-> take n b = take n name.
Proof.
  induction n as [|n IH]; intros b name Hn Hb; simpl; [done|].
  destruct b as [|x b]; simpl in *; [lia|].
  apply nonul_cons in Hb as [Hx Hb]. unfold deref. simpl.
  destruct name as [|y name]; simpl.
  - destruct (Z.eqb_spec x 0); [done|]. split; [lia|done].
  - destruct (Z.eqb_spec x y) as [->|Hxy].
    + destruct (Z.eqb_spec y 0); [done|].
      rewrite IH by (done || lia). split; [by intros ->|by intros [= ->]].
    + split; [lia|]. by intros [= ->].
Qed.

(** The loop of mystrnicmp runs over the first [n] characters of its left
    string, or over all of them when there are fewer. *)
Lemma mystrnicmp_loop_0 n : forall l r,
  n <> 0%nat -> l <> [] -> nonul l ->
  mystrnicmp_loop n l r = 0 <->
  mytolower <$> take (n `min` length l) l = mytolower <$> take (n `min` length l) r.
Proof.
  induction n as [|n IH]; intros l r Hn Hl Hnl; [done|].
  destruct l as [|x l]; [done|]. apply nonul_cons in Hnl as [Hx Hnl].
  simpl mystrnicmp_loop.
  assert (mytolower x <> 0) as Hlx by (by rewrite mytolower_0).
  replace (S n `min` length (x :: l))%nat with (S (n `min` length l)) by (simpl; lia).
  destruct r as [|y r]; unfold deref; simpl hd; simpl tail.
  - change (mytolower 0) with 0.
    destruct (Z.eqb_spec (mytolower x - 0) 0); [lia|]. simpl. split; [lia|done].
  - destruct (Z.eqb_spec (mytolower x - mytolower y) 0) as [He|He]; simpl.
    + assert (mytolower x = mytolower y) as Hxy by lia.
      destruct l as [|x' l].
      * simpl. replace (n `min` 0)%nat with 0%nat by lia. simpl.
        rewrite Hxy. split; [done|lia].
      * simpl hd.
        assert (Hnl' := Hnl). apply nonul_cons in Hnl' as [Hx' _].
        destruct (Z.eqb_spec x' 0); [done|]. simpl.
        destruct n as [|n].
        -- simpl. rewrite Hxy. split; [done|lia].
        -- simpl negb. cbv iota.
           rewrite IH by done. rewrite Hxy.
           split; [intros H; f_equal; exact H|intros [= H]; exact H].
    + split; [lia|]. intros [= ? _]. lia.
Qed.

Lemma mystrnicmp_0 n l r :
  l <> [] -> nonul l ->
  mystrnicmp l r n = 0 <->
  mytolower <$> take (n `min` length l) l = mytolower <$> take (n `min` length l) r.
Proof.
  intros Hl Hnl. unfold mystrnicmp.
  destruct n as [|n].
  - simpl. split; done.
  - rewrite <- mystrnicmp_loop_0 by done.
    destruct (Z.ltb_spec (mystrnicmp_loop (S n) l r) (-1)); [lia|].
    destruct (Z.ltb_spec 1 (mystrnicmp_loop (S n) l r)); lia.
Qed.

(** The comparison of CommandMatches over the typed command part. *)
Lemma compare_name_0 ci b name n :
  (n <= length b)%nat -> nonul b ->
  compare_name ci b name n = 0 <->
  fold_case ci (take n b) = fold_case ci (take n name).
Proof.
  intros Hn Hb. unfold compare_name, fold_case. destruct ci.
  - destruct b as [|x b].
    + assert (n = 0%nat) as -> by (simpl in Hn; lia). done.
    + rewrite mystrnicmp_0 by done.
      replace (n `min` length (x :: b))%nat with n by lia. done.
  - by apply strncmp_0.
Qed.

Lemma fold_case_app ci t u : fold_case ci (t ++ u) = fold_case ci t ++ fold_case ci u.
Proof. unfold fold_case. destruct ci; [apply fmap_app|done]. Qed.

Lemma fold_case_take ci n t : fold_case ci (take n t) = take n (fold_case ci t).
Proof. unfold fold_case. destruct ci; [apply fmap_take|done]. Qed.

Lemma fold_case_length ci t : length (fold_case ci t) = length t.
Proof. unfold fold_case. destruct ci; [apply length_fmap|done]. Qed.

(** ** The command part of a line *)

Lemma strchr_Some s c i :
  strchr s c = Some i ->
  0 <= i /\ exists pre post, s = pre ++ c :: post /\ strlen pre = i /\ c ∉ pre.
Proof.
  revert i. induction s as [|x s IH]; intros i; simpl; [done|].
  destruct (Z.eqb_spec x c) as [->|Hx].
  - intros [= <-]. split; [done|]. exists [], s. split; [done|]. split; [done|].
    apply not_elem_of_nil.
  - destruct (strchr s c) as [j|]; simpl; [|done]. intros [= <-].
    destruct (IH j eq_refl) as (Hj & pre & post & -> & <- & Hp).
    split; [lia|]. exists (x :: pre), post. split; [done|].
    split; [unfold strlen; simpl; lia|].
    apply not_elem_of_cons. done.
Qed.

Lemma strchr_None s c : strchr s c = None <-> c ∉ s.
Proof.
  induction s as [|x s IH]; simpl.
  - split; [intros _; apply not_elem_of_nil|done].
  - destruct (Z.eqb_spec x c) as [->|Hx].
    + split; [done|]. intros H. exfalso. apply H. left.
    + destruct (strchr s c); simpl.
      * split; [done|]. intros H. apply not_elem_of_cons in H as [_ H].
        by apply IH in H.
      * split; [|done]. intros _. apply not_elem_of_cons. split; [done|]. by apply IH.
Qed.

Lemma strchr_app_notin pre c post :
  c ∉ pre -> strchr (pre ++ c :: post) c = Some (strlen pre).
Proof.
  induction pre as [|x pre IH]; intros Hp; simpl.
  - by rewrite Z.eqb_refl.
  - apply not_elem_of_cons in Hp as [Hx Hp].
    destruct (Z.eqb_spec x c); [done|]. rewrite IH by done. simpl.
    f_equal. unfold strlen. simpl. lia.
Qed.

Lemma compareLength_of_bounds b : 0 <= compareLength_of b <= strlen b.
Proof.
  unfold compareLength_of. destruct (strchr b SPACE) as [i|] eqn:E.
  - apply strchr_Some in E as (? & pre & post & -> & <- & _).
    rewrite strlen_app. pose proof (strlen_nonneg (SPACE :: post)). lia.
  - pose proof (strlen_nonneg b). lia.
Qed.

Lemma params_of_bounds b : 0 <= params_of b <= strlen b.
Proof.
  unfold params_of. destruct (strchr b SPACE) as [i|] eqn:E.
  - apply strchr_Some in E as (? & pre & post & -> & <- & _).
    rewrite strlen_app. unfold strlen. simpl length. lia.
  - pose proof (strlen_nonneg b). lia.
Qed.

(** ** Output routines *)

Lemma EchoString_spec p s :
  EchoString p s = Ok tt (set_output (output s ++ echoed p) s).
Proof.
  revert s. induction p as [|c p IH]; intros s.
  - simpl. unfold ret, echoed. simpl. rewrite app_nil_r. by destruct s.
  - simpl. unfold bind, putch, modify. rewrite IH. f_equal.
    unfold set_output, echoed. simpl. by rewrite <- app_assoc.
Qed.

Lemma EraseChars_loop_spec n s :
  EraseChars_loop n s = Ok tt (set_output (output s ++ erased n) s).
Proof.
  revert s. induction n as [|n IH]; intros s.
  - simpl. unfold ret, erased. simpl. rewrite app_nil_r. by destruct s.
  - simpl. unfold bind, putch, modify. rewrite IH. f_equal.
    unfold set_output, erased. simpl. by rewrite <- !app_assoc.
Qed.

Lemma EraseChars_spec n s :
  EraseChars n s = Ok tt (set_output (output s ++ erased (Z.to_nat n)) s).
Proof. apply EraseChars_loop_spec. Qed.

(** ** Reading the line *)

Lemma line_block s b :
  line s = Some b <-> nonul b /\ exists rest, buffer s = b ++ 0 :: rest.
Proof.
  unfold line. rewrite cstr_at_Some. split.
  - intros (_ & Hb & pre & rest & H & Hp). split; [done|].
    apply strlen_nil_iff in Hp as ->. by exists rest.
  - intros (Hb & rest & H). split; [done|]. split; [done|]. by exists [], rest.
Qed.

Lemma read_buffer_line s b : line s = Some b -> read_buffer 0 s = Ok b s.
Proof. unfold line, read_buffer. by intros ->. Qed.

Lemma read_buffer_Ok i s t s' :
  read_buffer i s = Ok t s' <-> cstr_at (buffer s) i = Some t /\ s' = s.
Proof.
  unfold read_buffer. destruct (cstr_at (buffer s) i); split.
  - by intros [= <- <-].
  - by intros [[= <-] <-].
  - done.
  - by intros [? _].
Qed.

(** A pointer into a string reads the rest of the string. *)
Lemma cstr_at_suffix m b i :
  cstr_at m 0 = Some b -> 0 <= i <= strlen b ->
  cstr_at m i = Some (drop (Z.to_nat i) b).
Proof.
  intros H Hi. apply cstr_at_Some in H as (_ & Hb & pre & rest & -> & Hp).
  apply strlen_nil_iff in Hp as ->. simpl.
  apply cstr_at_Some. split; [lia|]. split.
  { unfold nonul in *. by apply Forall_drop. }
  exists (take (Z.to_nat i) b), rest. split.
  - by rewrite app_assoc, take_drop.
  - unfold strlen in *. rewrite length_take. lia.
Qed.

Lemma read_buffer_args s b :
  line s = Some b -> read_buffer (params_of b) s = Ok (args_of b) s.
Proof.
  intros H. unfold read_buffer.
  rewrite (cstr_at_suffix _ b); [done|done|apply params_of_bounds].
Qed.

(** ** The scan over the registry *)

Lemma match_links_hits ci b sp l acc :
  match_links ci b (Z.to_nat (compareLength_of b)) sp l acc =
  let h := hits ci b l in
  mkFound (foundCount acc + Z.of_nat (length h))
          (match last h with Some m => Some m | None => menu acc end)
          (match h with [] => params acc | _ => Some sp end).
Proof.
  revert acc. induction l as [|m l IH]; intros acc.
  - simpl. destruct acc. simpl. f_equal. lia.
  - simpl match_links. rewrite IH. unfold hits. rewrite filter_cons.
    fold (matches ci b m). destruct (matches ci b m) eqn:E.
    + rewrite decide_True by done. simpl.
      f_equal; [lia| |].
      * destruct (filter _ l) as [|m' h]; [done|].
        change (last (m :: m' :: h)) with (last (m' :: h)).
        destruct (last (m' :: h)) eqn:E2; [done|].
        by apply last_None in E2.
      * by destruct (filter _ l).
    + rewrite decide_False by done. done.
Qed.

Lemma scan_hits s b :
  scan s b =
  let h := hits (caseinsensitive (cfg s)) b (head s) in
  mkFound (Z.of_nat (length h)) (last h)
          (match h with [] => None | _ => Some (params_of b) end).
Proof.
  unfold scan. rewrite match_links_hits. simpl. f_equal.
  by destruct (last _).
Qed.

Lemma scan_one s b :
  foundCount (scan s b) = 1 ->
  exists m, hits (caseinsensitive (cfg s)) b (head s) = [m] /\
            scan s b = mkFound 1 (Some m) (Some (params_of b)).
Proof.
  rewrite scan_hits. simpl.
  destruct (hits _ b (head s)) as [|m [|m' h]] eqn:E; simpl; try lia.
  intros _. by exists m.
Qed.

Lemma scan_zero s b :
  foundCount (scan s b) = 0 <-> hits (caseinsensitive (cfg s)) b (head s) = [].
Proof.
  rewrite scan_hits. simpl.
  destruct (hits _ b (head s)); simpl; split; (done || lia).
Qed.

Lemma hits_elem ci b l m : m ∈ hits ci b l <-> m ∈ l /\ matches ci b m = true.
Proof. unfold hits. rewrite list_elem_of_filter. tauto. Qed.

Lemma scan_nonzero s b :
  foundCount (scan s b) <> 0 <->
  exists m, m ∈ head s /\ matches (caseinsensitive (cfg s)) b m = true.
Proof.
  rewrite scan_zero. split.
  - intros H. destruct (hits _ b (head s)) as [|m h] eqn:E; [done|].
    exists m. apply hits_elem. rewrite E. left.
  - intros (m & Hm) E. apply hits_elem in Hm. rewrite E in Hm.
    by apply elem_of_nil in Hm.
Qed.

(** CommandMatches without the wish to execute only counts. *)
Lemma CommandMatches_false s b :
  line s = Some b ->
  CommandMatches false s =
  Ok (if strlen b =? 0 then mkFound 0 None None else scan s b) s.
Proof.
  intros H. unfold CommandMatches.
  rewrite (bind_Ok_l _ _ _ _ _ (read_buffer_line _ _ H)).
  destruct (strlen b =? 0); [done|].
  unfold bind, get. fold (scan s b).
  destruct (menu (scan s b)); [|done].
  by rewrite andb_false_r.
Qed.

(** ** CommandMatches with the wish to execute *)

Lemma write_alternate_Ok t s u s' :
  write_alternate t s = Ok u s' <-> strlen t + 1 <= bufferSize (cfg s) /\ s' = s.
Proof.
  unfold write_alternate. destruct (Z.leb_spec (strlen t + 1) (bufferSize (cfg s))); split.
  - by intros [= <-].
  - intros [_ ->]. by destruct u.
  - done.
  - lia.
Qed.

Lemma write_buffer_Ok i t s u s' :
  write_buffer i t s = Ok u s' <->
  exists m, store_cstr (buffer s) i t = Some m /\ s' = set_buffer m s.
Proof.
  unfold write_buffer. destruct (store_cstr (buffer s) i t) as [m|]; split.
  - intros [= <-]. by exists m.
  - intros (m' & [= <-] & ->). by destruct u.
  - done.
  - by intros (? & ? & _).
Qed.

Lemma poke_buffer_Ok i v s u s' :
  poke_buffer i v s = Ok u s' <->
  exists m, poke (buffer s) i v = Some m /\ s' = set_buffer m s.
Proof.
  unfold poke_buffer. destruct (poke (buffer s) i v) as [m|]; split.
  - intros [= <-]. by exists m.
  - intros (m' & [= <-] & ->). by destruct u.
  - done.
  - by intros (? & ? & _).
Qed.

(** What a successful CommandMatches with [exec] set has done: nothing but
    the scan, or the rewriting of the line for the one command found. *)
Lemma CommandMatches_true_Ok s b f s' :
  line s = Some b -> b <> [] ->
  CommandMatches true s = Ok f s' ->
  (f = scan s b /\ s' = s /\
   forall m, scan s b = mkFound 1 (Some m) (Some (params_of b)) -> rewrite_needed b m = false)
  \/
  (exists m buf p,
     scan s b = mkFound 1 (Some m) (Some (params_of b)) /\
     rewrite_needed b m = true /\
     strlen (canonical m b) + 1 <= bufferSize (cfg s) /\
     store_cstr (buffer s) 0 (canonical m b) = Some buf /\
     cstr_at buf 0 = Some p /\
     s' = set_output (output s ++ erased (length b) ++ echoed p) (set_buffer buf s) /\
     f = mkFound 1 (Some m) (Some (params_of p))).
Proof.
  intros Hl Hb H. unfold CommandMatches in H.
  rewrite (bind_Ok_l _ _ _ _ _ (read_buffer_line _ _ Hl)) in H.
  destruct (Z.eqb_spec (strlen b) 0) as [E|_]; [by apply strlen_nil_iff in E|].
  unfold bind at 1, get in H. fold (scan s b) in H.
  destruct (menu (scan s b)) as [m|] eqn:Em.
  2:{ mstep H. left. split; [done|]. split; [done|]. intros m Hs.
      rewrite Hs in Em. done. }
  rewrite andb_true_r in H.
  destruct (Z.eqb_spec (foundCount (scan s b)) 1) as [E1|E1].
  2:{ mstep H. left. split; [done|]. split; [done|]. intros m' Hs.
      rewrite Hs in E1. done. }
  destruct (scan_one _ _ E1) as (m' & Hh & Hs).
  assert (m' = m) as -> by (rewrite Hs in Em; by injection Em).
  fold (rewrite_needed b m) in H.
  destruct (rewrite_needed b m) eqn:Er.
  2:{ mstep H. left. split; [done|]. split; [done|]. intros m' Hs'.
      rewrite Hs in Hs'. by injection Hs' as ->. }
  right.
  rewrite (bind_Ok_l _ _ _ _ _ (read_buffer_args _ _ Hl)) in H.
  mstep H. apply write_alternate_Ok in E as [_ ->].
  mstep H. apply write_alternate_Ok in E as [_ ->].
  mstep H. apply write_alternate_Ok in E as [Hfit ->].
  mstep H. rewrite EraseChars_spec in E. injection E as _ <-.
  mstep H. apply write_buffer_Ok in E as (buf & Hst & ->).
  mbind H as p E. apply read_buffer_Ok in E as [Hp ->].
  mstep H. rewrite EchoString_spec in E. injection E as _ <-.
  mbind H as p' E. apply read_buffer_Ok in E as [Hp' ->].
  mstep H.
  simpl in Hp, Hp', Hst. rewrite Hp in Hp'. injection Hp' as <-.
  exists m, buf, p. rewrite Hs. simpl.
  split; [done|]. split; [done|]. split; [exact Hfit|]. split; [exact Hst|].
  split; [done|]. split; [|done].
  unfold set_output, set_buffer. simpl. f_equal.
  unfold strlen. rewrite Nat2Z.id. by rewrite <- app_assoc.
Qed.

(** ** Callbacks *)

Lemma untouched_refl s : untouched s s.
Proof. unfold untouched. repeat split. exists []. by rewrite app_nil_r. Qed.

Lemma untouched_trans s1 s2 s3 : untouched s1 s2 -> untouched s2 s3 -> untouched s1 s3.
Proof.
  unfold untouched. intros H1 H2.
  destruct H1 as (?&?&?&?&?&?&?&?&?&?&?&?&?&?&?&?&o1&?).
  destruct H2 as (?&?&?&?&?&?&?&?&?&?&?&?&?&?&?&?&o2&?).
  repeat split; try congruence.
  exists (o1 ++ o2). rewrite app_assoc. congruence.
Qed.

Lemma untouched_output s o : untouched s (set_output (output s ++ o) s).
Proof. unfold untouched. simpl. repeat split. by exists o. Qed.

Lemma untouched_echo s e : untouched s (set_cfg (set_echo e (cfg s)) s).
Proof. unfold untouched. simpl. repeat split. exists []. by rewrite app_nil_r. Qed.

Lemma sprintf100_Ok t s r s' : sprintf100 t s = Ok r s' -> s' = s.
Proof. unfold sprintf100. destruct (_ <=? _); [|done]. by intros [= _ <-]. Qed.

Lemma read_history_Ok i s e s' : read_history i s = Ok e s' -> s' = s.
Proof. unfold read_history. destruct (cstr_at _ _); [|done]. by intros [= _ <-]. Qed.

Lemma Help_loop_untouched l s u s' : Help_loop l s = Ok u s' -> untouched s s'.
Proof.
  revert s. induction l as [|m l IH]; intros s H; simpl in H.
  - mstep H. apply untouched_refl.
  - mbind H as ? s1 E1. mstep E1. mbind H as ? s2 E2. apply IH in H.
    eapply untouched_trans; [|exact H]. clear H IH.
    unfold when in E2. destruct (vis m); [mstep E2; apply untouched_refl|].
    destruct (_ <? _); [|mstep E2; apply untouched_refl].
    mbind E2 as ? s3 E3. apply sprintf100_Ok in E3 as ->. mstep E2.
    apply untouched_output.
Qed.

Lemma History_loop_untouched n i s u s' : History_loop n i s = Ok u s' -> untouched s s'.
Proof.
  revert i s. induction n as [|n IH]; intros i s H; simpl in H.
  - mstep H. apply untouched_refl.
  - mbind H as ? s1 E1. mstep E1. mbind H as ? s2 E2. apply read_history_Ok in E2 as ->.
    mbind H as ? s3 E3. apply sprintf100_Ok in E3 as ->.
    mbind H as ? s4 E4. mstep E4.
    apply IH in H. eapply untouched_trans; [|exact H]. apply untouched_output.
Qed.

Lemma CommandProcessor_Echo_untouched e s r s' :
  CommandProcessor_Echo e s = Ok r s' -> untouched s s'.
Proof.
  unfold CommandProcessor_Echo. intros H. mbind H as ? s1 E1. mstep E1. mstep H.
  apply untouched_echo.
Qed.

Lemma Echo_untouched p s r s' : Echo p s = Ok r s' -> untouched s s'.
Proof.
  unfold Echo, when. intros H.
  mbind H as ? s1 E1. mbind H as ? s2 E2. mstep E2. mbind H as ? s3 E3. mstep H.
  eapply untouched_trans;
    [|destruct (echo (cfg s2) =? 0); mstep E3; apply untouched_output].
  clear E3. destruct (negb (deref p =? 0)); [|mstep E1; apply untouched_refl].
  mbind E1 as ? s4 E4.
  eapply untouched_trans.
  - destruct (_ || _); [|mstep E4; apply untouched_refl].
    mbind E4 as ? s5 E5. mstep E4. eapply CommandProcessor_Echo_untouched. exact E5.
  - clear E4. destruct (_ || _); [|mstep E1; apply untouched_refl].
    mbind E1 as ? s5 E5. mstep E1. eapply CommandProcessor_Echo_untouched. exact E5.
Qed.

Lemma call_untouched m p s r s' :
  call m p s = Ok r s' ->
  untouched (set_calls (calls s ++ [(command m, p)]) s) s'.
Proof.
  unfold call. intros H. mbind H as ? s0 E0. mstep E0.
  destruct (callback m).
  - unfold Help in H.
    mbind H as ? s1 E1. mstep E1. mbind H as ? s2 E2. mstep E2.
    mbind H as ? s3 E3. mbind H as ? s4 E4. mstep E4. mstep H.
    eapply untouched_trans; [apply (untouched_output (set_calls _ s))|].
    eapply untouched_trans; [eapply Help_loop_untouched; exact E3|].
    apply untouched_output.
  - unfold History in H.
    mbind H as ? s1 E1. mstep E1. mbind H as ? s2 E2. mstep E2.
    mbind H as ? s3 E3. mbind H as ? s4 E4. apply read_buffer_Ok in E4 as [_ ->].
    mbind H as ? s5 E5. apply sprintf100_Ok in E5 as ->.
    mbind H as ? s6 E6. mstep E6. mstep H.
    eapply untouched_trans; [apply (untouched_output (set_calls _ s))|].
    eapply untouched_trans; [eapply History_loop_untouched; exact E3|].
    apply untouched_output.
  - eapply Echo_untouched. exact H.
  - unfold Exit in H. mbind H as ? s1 E1. mstep E1. mstep H. apply (untouched_output (set_calls _ s)).
  - mstep H. apply untouched_refl.
Qed.

(** ** Edits of the line *)

(** Cutting the line at position [k] by writing a terminator there. *)
Lemma poke_truncate b rest k :
  0 <= k <= strlen b ->
  exists rest', poke (b ++ 0 :: rest) k 0 = Some (take (Z.to_nat k) b ++ 0 :: rest').
Proof.
  intros Hk. unfold strlen in Hk.
  assert (b ++ 0 :: rest = take (Z.to_nat k) b ++ drop (Z.to_nat k) (b ++ 0 :: rest)) as Hs.
  { rewrite drop_app_le by lia. by rewrite app_assoc, take_drop. }
  destruct (drop (Z.to_nat k) (b ++ 0 :: rest)) as [|x rest'] eqn:Ed.
  { apply (f_equal length) in Ed. rewrite length_drop, length_app in Ed.
    simpl in Ed. lia. }
  exists rest'. rewrite Hs.
  pose proof (poke_app (take (Z.to_nat k) b) x rest' 0) as Hp.
  replace (strlen (take (Z.to_nat k) b)) with k in Hp; [exact Hp|].
  unfold strlen. rewrite length_take. lia.
Qed.

Lemma line_truncate s b k m :
  line s = Some b -> 0 <= k <= strlen b ->
  poke (buffer s) k 0 = Some m ->
  cstr_at m 0 = Some (take (Z.to_nat k) b).
Proof.
  intros Hl Hk Hp. apply line_block in Hl as (Hb & rest & Hbuf).
  rewrite Hbuf in Hp. destruct (poke_truncate b rest k Hk) as (rest' & Hp').
  rewrite Hp' in Hp. injection Hp as <-.
  apply (cstr_at_app []). unfold nonul in *. by apply Forall_take.
Qed.

(** Appending one character: the two writes of the default case. *)
Lemma line_append s b c m1 m2 :
  line s = Some b -> c <> 0 ->
  poke (buffer s) (strlen b) c = Some m1 ->
  poke m1 (strlen b + 1) 0 = Some m2 ->
  cstr_at m2 0 = Some (b ++ [c]).
Proof.
  intros Hl Hc H1 H2. apply line_block in Hl as (Hb & rest & Hbuf).
  rewrite Hbuf, poke_app in H1. injection H1 as <-.
  destruct rest as [|x rest].
  { unfold poke in H2. rewrite length_app in H2. simpl in H2. unfold strlen in H2.
    destruct (Z.ltb_spec (Z.of_nat (length b) + 1) (Z.of_nat (length b + 1))); [lia|].
    by rewrite andb_false_r in H2. }
  replace (b ++ c :: x :: rest) with ((b ++ [c]) ++ x :: rest) in H2
    by (by rewrite <- app_assoc).
  replace (strlen b + 1) with (strlen (b ++ [c])) in H2
    by (rewrite strlen_app; done).
  rewrite poke_app in H2. injection H2 as <-.
  apply (cstr_at_app []). apply nonul_app. split; [done|].
  apply nonul_cons. split; [done|constructor].
Qed.

(** Appending a string behind the line: [mystrcat]. *)
Lemma line_extend s b p m :
  line s = Some b -> nonul p ->
  store_cstr (buffer s) (strlen b) p = Some m ->
  cstr_at m 0 = Some (b ++ p).
Proof.
  intros Hl Hp H. apply line_block in Hl as (Hb & rest & Hbuf).
  apply store_cstr_split in H as (pre & mid & rest' & Hm & Hlen & _ & ->).
  assert (pre = b) as ->.
  { rewrite Hbuf in Hm. apply (f_equal (take (length b))) in Hm.
    rewrite take_app_length in Hm. unfold strlen in Hlen.
    rewrite take_app_length' in Hm by lia. done. }
  rewrite app_assoc. apply (cstr_at_app []). apply nonul_app. done.
Qed.

(** ** Matching and the command part *)

Lemma compareLength_of_nat b : (Z.to_nat (compareLength_of b) <= length b)%nat.
Proof. pose proof (compareLength_of_bounds b). unfold strlen in *. lia. Qed.

Lemma matches_iff ci b m :
  nonul b ->
  matches ci b m = true <->
  fold_case ci (typed_of b) = fold_case ci (take (Z.to_nat (compareLength_of b)) (command m)).
Proof.
  intros Hb. unfold matches, typed_of.
  rewrite <- (compare_name_0 ci b (command m)) by (done || apply compareLength_of_nat).
  apply Z.eqb_eq.
Qed.

Lemma compareLength_of_space pre post :
  SPACE ∉ pre -> compareLength_of (pre ++ SPACE :: post) = strlen pre.
Proof. intros H. unfold compareLength_of. by rewrite strchr_app_notin. Qed.

Lemma params_of_space pre post :
  SPACE ∉ pre -> params_of (pre ++ SPACE :: post) = strlen pre + 1.
Proof. intros H. unfold params_of. by rewrite strchr_app_notin. Qed.

Lemma compareLength_of_nospace b : SPACE ∉ b -> compareLength_of b = strlen b.
Proof. intros H. unfold compareLength_of. apply strchr_None in H. by rewrite H. Qed.

Lemma params_of_nospace b : SPACE ∉ b -> params_of b = strlen b.
Proof. intros H. unfold params_of. apply strchr_None in H. by rewrite H. Qed.

(** A line is its command part, and when it has a space, the space and the
    parameter text. *)
Lemma notin_take (x : Z) k l : x ∉ l -> x ∉ take k l.
Proof.
  intros H Hin. apply H. apply elem_of_take in Hin as (i & Hi & _).
  by eapply list_elem_of_lookup_2.
Qed.

Lemma line_parts b :
  ((SPACE ∉ b) /\ typed_of b = b /\ args_of b = []) \/
  ((SPACE ∉ typed_of b) /\ b = typed_of b ++ SPACE :: args_of b).
Proof.
  unfold typed_of, args_of, compareLength_of, params_of.
  destruct (strchr b SPACE) as [i|] eqn:E.
  - right. apply strchr_Some in E as (_ & pre & post & -> & <- & Hn).
    unfold strlen. rewrite Nat2Z.id.
    replace (Z.to_nat (Z.of_nat (length pre) + 1)) with (length pre + 1)%nat by lia.
    rewrite take_app_length.
    rewrite drop_app_ge by lia.
    replace (length pre + 1 - length pre)%nat with 1%nat by lia. done.
  - left. apply strchr_None in E. split; [done|].
    unfold strlen. rewrite Nat2Z.id. split.
    + by rewrite take_ge.
    + by rewrite drop_ge.
Qed.

(** The command part of a shortened line is the shortened command part. *)
Lemma typed_of_take b k :
  (k <= length b)%nat ->
  typed_of (take k b) = take k (typed_of b).
Proof.
  intros Hk. destruct (line_parts b) as [(Hn & Ht & _)|(Hn & Hb)].
  - rewrite Ht. unfold typed_of. rewrite compareLength_of_nospace.
    + unfold strlen. rewrite Nat2Z.id. by rewrite take_ge.
    + by apply notin_take.
  - set (t := typed_of b) in *. set (a := args_of b) in *.
    destruct (decide (k <= length t)%nat) as [Hle|Hgt].
    + assert (take k b = take k t) as Hx.
      { rewrite Hb. by rewrite take_app_le. }
      rewrite Hx. unfold typed_of at 1. rewrite compareLength_of_nospace.
      * unfold strlen. rewrite Nat2Z.id. by rewrite take_ge.
      * by apply notin_take.
    + assert (take k b = t ++ SPACE :: take (k - length t - 1) a) as Hx.
      { rewrite Hb. rewrite take_app_ge by lia. f_equal.
        remember (k - length t - 1)%nat as j eqn:Hj.
        replace (k - length t)%nat with (S j) by lia. done. }
      rewrite Hx. unfold typed_of at 1. rewrite compareLength_of_space by done.
      unfold strlen. rewrite Nat2Z.id, take_app_length.
      by rewrite take_ge by lia.
Qed.

(** Shortening a line keeps every match: backspace cannot break the prefix
    property. *)
Lemma matches_take ci b m k :
  nonul b -> (k <= length b)%nat ->
  matches ci b m = true -> matches ci (take k b) m = true.
Proof.
  intros Hb Hk Hm.
  assert (nonul (take k b)) as Hb' by (unfold nonul in *; by apply Forall_take).
  apply matches_iff in Hm; [|done]. apply matches_iff; [done|].
  rewrite typed_of_take by done.
  assert (Z.to_nat (compareLength_of (take k b)) = length (take k (typed_of b))) as Hc.
  { rewrite <- typed_of_take by done. unfold typed_of.
    rewrite length_take. pose proof (compareLength_of_nat (take k b)). lia. }
  rewrite Hc.
  assert (length (typed_of b) = Z.to_nat (compareLength_of b)) as Hlt.
  { unfold typed_of. rewrite length_take. pose proof (compareLength_of_nat b). lia. }
  rewrite length_take. rewrite Hlt.
  rewrite !fold_case_take. rewrite Hm. rewrite <- !fold_case_take.
  by rewrite take_take.
Qed.

(** Text behind a space does not take part in the match. *)
Lemma typed_of_app_space b p :
  SPACE ∈ b -> typed_of (b ++ p) = typed_of b /\
  compareLength_of (b ++ p) = compareLength_of b.
Proof.
  intros Hin. destruct (line_parts b) as [(Hn & _)|(Hn & Hb)]; [done|].
  set (t := typed_of b) in *.
  assert (compareLength_of b = strlen t) as Hc.
  { rewrite Hb. by apply compareLength_of_space. }
  assert (compareLength_of (b ++ p) = strlen t) as Hc'.
  { rewrite Hb. rewrite <- app_assoc. simpl. by apply compareLength_of_space. }
  split; [|congruence].
  unfold typed_of at 1. rewrite Hc'. rewrite Hb at 1. rewrite <- app_assoc.
  unfold strlen. rewrite Nat2Z.id. by rewrite take_app_length.
Qed.

Lemma matches_app_space ci b p m :
  nonul (b ++ p) -> SPACE ∈ b ->
  matches ci b m = true -> matches ci (b ++ p) m = true.
Proof.
  intros Hbp Hin Hm. destruct (typed_of_app_space b p Hin) as [Ht Hc].
  assert (nonul b) as Hb by (by apply nonul_app in Hbp as [? _]).
  apply matches_iff in Hm; [|done]. apply matches_iff; [done|].
  by rewrite Ht, Hc.
Qed.

Lemma compareLength_of_app_le x y : compareLength_of (x ++ SPACE :: y) <= strlen x.
Proof.
  unfold compareLength_of. induction x as [|c x IH]; simpl.
  - done.
  - destruct (Z.eqb_spec c SPACE).
    + unfold strlen. simpl. lia.
    + destruct (strchr (x ++ SPACE :: y) SPACE) as [i|] eqn:E; simpl.
      * unfold strlen in *. simpl. lia.
      * apply strchr_None in E. exfalso. apply E.
        apply elem_of_app. right. left.
Qed.

(** A line that agrees with a name on a stretch reaching at least to the end
    of its command part matches the name. *)
Lemma matches_of_agreement ci l m j :
  nonul l -> (Z.to_nat (compareLength_of l) <= j)%nat ->
  fold_case ci (take j l) = fold_case ci (take j (command m)) ->
  matches ci l m = true.
Proof.
  intros Hl Hj Hf. apply matches_iff; [done|]. unfold typed_of.
  replace (take (Z.to_nat (compareLength_of l)) l)
    with (take (Z.to_nat (compareLength_of l)) (take j l))
    by (rewrite take_take; f_equal; lia).
  rewrite fold_case_take, Hf, <- fold_case_take, take_take.
  do 2 f_equal. lia.
Qed.

(** The rewritten line matches its command. *)
Lemma matches_canonical ci m a :
  nonul (command m ++ SPACE :: a) ->
  matches ci (command m ++ SPACE :: a) m = true.
Proof.
  intros Hn. apply (matches_of_agreement _ _ _ (length (command m))); [done| |].
  - pose proof (compareLength_of_app_le (command m) a).
    pose proof (compareLength_of_bounds (command m ++ SPACE :: a)).
    unfold strlen in *. lia.
  - rewrite take_app_length. by rewrite take_ge.
Qed.

(** The completed line matches its command. *)
Lemma matches_completed ci b m :
  nonul (b ++ drop (length b) (command m)) ->
  SPACE ∉ b -> (length b <= length (command m))%nat ->
  matches ci b m = true ->
  matches ci (b ++ drop (length b) (command m)) m = true.
Proof.
  intros Hn Hs Hlen Hm.
  assert (nonul b) as Hb by (by apply nonul_app in Hn as [? _]).
  apply matches_iff in Hm; [|done].
  unfold typed_of in Hm. rewrite compareLength_of_nospace in Hm by done.
  unfold strlen in Hm. rewrite Nat2Z.id in Hm. rewrite take_ge in Hm by lia.
  apply (matches_of_agreement _ _ _ (length (command m))); [done| |].
  - pose proof (compareLength_of_bounds (b ++ drop (length b) (command m))) as Hc.
    unfold strlen in Hc. rewrite length_app, length_drop in Hc. lia.
  - rewrite !take_ge by (rewrite ?length_app, ?length_drop; lia).
    rewrite fold_case_app, Hm, <- fold_case_app. by rewrite take_drop.
Qed.

(** ** Reading the history *)

Lemma read_history_entry i s e s' :
  0 <= i * bufferSize (cfg s) ->
  read_history i s = Ok e s' <-> entry s i = Some e /\ s' = s.
Proof.
  intros Hi. unfold read_history, entry.
  assert (cstr_at (beforeHistory s ++ historyBuffer s)
            (strlen (beforeHistory s) + i * bufferSize (cfg s))
          = cstr_at (historyBuffer s) (i * bufferSize (cfg s))) as ->.
  { unfold cstr_at, strlen.
    destruct (Z.leb_spec 0 (Z.of_nat (length (beforeHistory s)) + i * bufferSize (cfg s))); [|lia].
    destruct (Z.leb_spec 0 (i * bufferSize (cfg s))); [|lia].
    replace (Z.to_nat (Z.of_nat (length (beforeHistory s)) + i * bufferSize (cfg s)))
      with (length (beforeHistory s) + Z.to_nat (i * bufferSize (cfg s)))%nat by lia.
    by rewrite drop_app_add. }
  destruct (cstr_at (historyBuffer s) (i * bufferSize (cfg s))); split.
  - by intros [= <- <-].
  - by intros [[= <-] <-].
  - done.
  - by intros [? _].
Qed.

Lemma write_history_Ok i t s u s' :
  write_history i t s = Ok u s' <->
  exists m, store_cstr (historyBuffer s) (i * bufferSize (cfg s)) t = Some m /\
            s' = set_historyBuffer m s.
Proof.
  unfold write_history.
  destruct (store_cstr (historyBuffer s) (i * bufferSize (cfg s)) t) as [m|]; split.
  - intros [= <-]. by exists m.
  - intros (m' & [= <-] & ->). by destruct u.
  - done.
  - by intros (? & ? & _).
Qed.

(** ** The invariant *)

(** The invariant looks at these statics only. *)
Lemma Inv_ext s s' :
  head s' = head s -> buffer s' = buffer s ->
  historyBuffer s' = historyBuffer s -> historyCount s' = historyCount s ->
  keycount s' = keycount s -> whereInHistory s' = whereInHistory s ->
  bufferSize (cfg s') = bufferSize (cfg s) ->
  caseinsensitive (cfg s') = caseinsensitive (cfg s) ->
  Inv s -> Inv s'.
Proof.
  intros Hh Hb Hhb Hc Hk Hw Hs Hci [I1 I2 I3 I4 I5].
  split; unfold hist_ok, line, entry, prefix_ok in *;
    rewrite ?Hh, ?Hb, ?Hhb, ?Hc, ?Hk, ?Hw, ?Hs, ?Hci; done.
Qed.

Lemma Inv_untouched s s' : untouched s s' -> Inv s -> Inv s'.
Proof.
  intros (?&?&?&?&?&?&?&?&?&?&?&?&?&?&?&?&?&?). by apply Inv_ext.
Qed.

Lemma Inv_bufferSize_pos s : Inv s -> 0 < bufferSize (cfg s).
Proof.
  intros [I1 (b & Hl & _) _ _ _]. apply cstr_at_bound in Hl.
  pose proof (strlen_nonneg b). lia.
Qed.

(** Installing a line that is empty or matches, with its length as
    [keycount], keeps the invariant. *)
Lemma Inv_set_line s buf b :
  Inv s -> length buf = length (buffer s) ->
  cstr_at buf 0 = Some b -> prefix_ok s b ->
  Inv (set_keycount (strlen b) (set_buffer buf s)).
Proof.
  intros [I1 I2 I3 I4 I5] Hlen Hb Hp. split; simpl; try done.
  - by rewrite Hlen.
  - by exists b.
Qed.

Lemma store_cstr_bound m i t m' :
  store_cstr m i t = Some m' -> 0 <= i /\ i + strlen t + 1 <= Z.of_nat (length m).
Proof.
  unfold store_cstr.
  destruct (Z.leb_spec 0 i); [|done].
  destruct (Z.leb_spec (i + strlen t + 1) (Z.of_nat (length m))); done.
Qed.

Lemma Inv_set_whereInHistory s w :
  Inv s -> 0 <= w <= historyCount s -> Inv (set_whereInHistory w s).
Proof. intros [I1 I2 I3 I4 I5] Hw. by split. Qed.

(** *** Recall by the arrow keys *)

Lemma Inv_recall s i u s' :
  Inv s -> 0 <= i < historyCount s ->
  recall i s = Ok u s' ->
  Inv s' /\ whereInHistory s' = whereInHistory s /\ historyCount s' = historyCount s.
Proof.
  intros HI Hi H. unfold recall in H.
  pose proof (Inv_bufferSize_pos _ HI) as Hbs.
  mget H.
  mbind H as ? s1 E1. rewrite EraseChars_spec in E1. injection E1 as _ <-.
  mbind H as e s2 E2. apply read_history_entry in E2 as [He ->]; [|simpl; nia].
  mbind H as ? s3 E3. apply write_buffer_Ok in E3 as (buf & Hst & ->).
  mbind H as p s4 E4. apply read_buffer_Ok in E4 as [Hp ->].
  mbind H as ? s5 E5. rewrite EchoString_spec in E5. injection E5 as _ <-.
  mbind H as b s6 E6. apply read_buffer_Ok in E6 as [Hb ->].
  mstep H. simpl in *.
  change (entry s i = Some e) in He.
  assert (nonul e) as Hne by (by eapply cstr_at_nonul).
  pose proof (cstr_at_store_same _ _ _ _ Hst Hne) as Hrd.
  rewrite Hrd in Hp, Hb. injection Hp as <-. injection Hb as <-.
  apply store_cstr_bound in Hst as Hbd.
  pose proof (store_cstr_length _ _ _ _ Hst) as Hlen.
  assert (strlen e < bufferSize (cfg s)) as Hfit.
  { destruct HI as [I1 _ _ _ _]. lia. }
  split; [|done].
  eapply Inv_ext; [..|apply (Inv_set_line s buf e HI Hlen Hrd)]; try reflexivity.
  destruct HI as [_ _ _ _ I5]. by eapply I5.
Qed.

Lemma Inv_ProcessComplexSequence c s c' s' :
  Inv s -> ProcessComplexSequence c s = Ok c' s' -> Inv s'.
Proof.
  intros HI H. unfold ProcessComplexSequence in H.
  mget H.
  mbind H as ? s1 E1. mbind H as ? s2 E2. mstep E2. mstep H.
  assert (Inv s1) as HI1; [|by eapply Inv_ext; [..|exact HI1]].
  pose proof (inv_where _ HI) as Hw.
  destruct ((c =? 66) || (c =? 80)).
  { mbind E1 as ? s2 E2. mstep E1. unfold when in E2.
    destruct (negb (historyCount s =? 0) && (whereInHistory s <? historyCount s)) eqn:Ec;
      [|by mstep E2].
    apply andb_prop in Ec as [_ Hlt]. apply Z.ltb_lt in Hlt.
    mbind E2 as ? s3 E3. mstep E2.
    apply Inv_recall in E3 as (HI3 & Hw3 & Hc3); [|done|lia].
    apply Inv_set_whereInHistory; [done|lia]. }
  destruct ((c =? 65) || (c =? 72)); [|by mstep E1].
  destruct (negb (historyCount s =? 0)).
  - mbind E1 as ? s2 E2. mstep E2.
    destruct (Z.leb_spec 0 (whereInHistory s - 1)).
    + mbind E1 as ? s3 E3. mstep E1.
      apply Inv_recall in E3 as (HI3 & _ & _); [done| |simpl; lia].
      apply Inv_set_whereInHistory; [done|lia].
    + mbind E1 as ? s3 E3. mstep E3. mstep E1.
      apply (Inv_set_whereInHistory s 0); [done|lia].
  - mbind E1 as ? s3 E3. mstep E3. mstep E1.
    apply (Inv_set_whereInHistory s 0); [done|lia].
Qed.

(** ** Writes into the history block *)

(** A string shorter than a slot, written at the head of slot [k], leaves
    the strings of the other slots as they are. *)
Lemma entry_write_other s k t m i e :
  0 < bufferSize (cfg s) ->
  store_cstr (historyBuffer s) (k * bufferSize (cfg s)) t = Some m ->
  strlen t < bufferSize (cfg s) -> strlen e < bufferSize (cfg s) ->
  i <> k ->
  entry s i = Some e <-> entry (set_historyBuffer m s) i = Some e.
Proof.
  intros Hbs Hst Ht He Hik. unfold entry. simpl.
  apply (cstr_at_store_other _ _ _ _ _ _ Hst).
  pose proof (strlen_nonneg t). pose proof (strlen_nonneg e).
  destruct (Z.lt_ge_cases i k); [left|right]; nia.
Qed.

Lemma entry_write_same s k t m :
  store_cstr (historyBuffer s) (k * bufferSize (cfg s)) t = Some m ->
  nonul t ->
  entry (set_historyBuffer m s) k = Some t.
Proof. intros Hst Ht. unfold entry. simpl. by eapply cstr_at_store_same. Qed.

Lemma hist_ok_write s k t m hi :
  0 < bufferSize (cfg s) -> hist_ok s hi -> 0 <= k <= hi ->
  store_cstr (historyBuffer s) (k * bufferSize (cfg s)) t = Some m ->
  strlen t < bufferSize (cfg s) -> nonul t -> prefix_ok s t ->
  hist_ok (set_historyBuffer m s) (Z.max hi (k + 1)).
Proof.
  intros Hbs Hok Hk Hst Ht Hn Hp i e Hi He Hfit. simpl in Hfit.
  change (prefix_ok s e).
  destruct (decide (i = k)) as [->|Hik].
  - rewrite (entry_write_same _ _ _ _ Hst Hn) in He. by injection He as <-.
  - apply (entry_write_other s k t m i e) in He; [|done..].
    apply (Hok i e); [lia|done..].
Qed.

Lemma hist_ok_mono s hi hi' : hist_ok s hi -> hi' <= hi -> hist_ok s hi'.
Proof. intros H Hle i e Hi. apply H. lia. Qed.

(** The loop that moves the entries down keeps them well formed, and
    touches nothing but the history block. *)
Lemma hist_ok_shift n : forall i s u s' hi,
  0 < bufferSize (cfg s) -> 0 <= i -> i + Z.of_nat n < hi ->
  hist_ok s hi ->
  history_shift n i s = Ok u s' ->
  exists m, s' = set_historyBuffer m s /\ hist_ok s' hi.
Proof.
  induction n as [|n IH]; intros i s u s' hi Hbs Hi Hn Hok H; simpl in H.
  - unfold ret in H. injection H as _ <-.
    exists (historyBuffer s). split; [by destruct s|done].
  - mget H.
    mbind H as e s1 E1. apply read_history_entry in E1 as [He ->]; [|nia].
    mbind H as ? s2 E2.
    destruct (Z.leb_spec (strlen e + 1) (bufferSize (cfg s))) as [Hfit|]; [|by mstep E2].
    apply write_history_Ok in E2 as (m & Hst & ->).
    assert (prefix_ok s e) as Hp by (apply (Hok (i + 1) e); [lia|done|lia]).
    assert (nonul e) as Hne by (by eapply cstr_at_nonul).
    pose proof (hist_ok_write s i e m hi Hbs Hok ltac:(lia) Hst ltac:(lia) Hne Hp) as Hok'.
    replace (Z.max hi (i + 1)) with hi in Hok' by lia.
    apply (IH (i + 1) _ _ _ hi) in H; [|simpl; (done || lia)..].
    destruct H as (m' & -> & Hok''). exists m'. split; [done|].
    exact Hok''.
Qed.

(** The entry of a line into the history keeps the entries well formed and
    the navigation index in range. *)
Lemma history_enter_ok s u s' b :
  Z.of_nat (length (buffer s)) = bufferSize (cfg s) ->
  line s = Some b -> prefix_ok s b ->
  0 <= historyCount s -> hist_ok s (historyCount s) ->
  0 <= whereInHistory s <= historyCount s ->
  history_enter s = Ok u s' ->
  head s' = head s /\ buffer s' = buffer s /\ cfg s' = cfg s /\
  keycount s' = keycount s /\
  0 <= historyCount s' /\ hist_ok s' (historyCount s') /\
  0 <= whereInHistory s' <= historyCount s'.
Proof.
  intros Hsz Hl Hp Hc Hok Hw H. unfold history_enter in H.
  assert (0 < bufferSize (cfg s)) as Hbs.
  { apply cstr_at_bound in Hl. pose proof (strlen_nonneg b). lia. }
  assert (strlen b < bufferSize (cfg s)) as Hfit.
  { apply cstr_at_bound in Hl. lia. }
  assert (nonul b) as Hnb by (by eapply cstr_at_nonul).
  mget H.
  mbind H as b0 s1 E1. apply read_buffer_Ok in E1 as [_ ->].
  mbind H as last s2 E2. apply read_history_Ok in E2 as ->.
  unfold when in H.
  destruct (negb (mystrnicmp b0 last (length last) =? 0)); [|by mstep H].
  mbind H as ? s3 E3.
  assert (exists m c, s3 = set_historyCount c (set_historyBuffer m s) /\
            historyCount s - 1 <= c <= historyCount s /\
            hist_ok s3 (historyCount s)) as (m & c & -> & Hcc & Hok3).
  { destruct (Z.eqb_spec (historyCount s) (historyDepth s)) as [Hfull|_].
    - mbind E3 as ? s4 E4. unfold modify in E4. injection E4 as _ <-.
      destruct (decide (historyCount s = 0)) as [Hz|Hnz].
      + rewrite Hz in E3. simpl in E3. unfold ret in E3. injection E3 as _ <-.
        exists (historyBuffer s), (historyCount s - 1).
        split; [by destruct s; simpl in *; subst|]. split; [lia|].
        rewrite Hz. intros i e Hi. lia.
      + apply (hist_ok_shift _ _ _ _ _ (historyCount s)) in E3; [|simpl; (done || lia)..].
        destruct E3 as (m & -> & Hok3).
        exists m, (historyCount s - 1). split; [done|]. split; [lia|done].
    - unfold ret in E3. injection E3 as _ <-.
      exists (historyBuffer s), (historyCount s).
      split; [by destruct s|]. split; [lia|done]. }
  mget H.
  mbind H as ln s4 E4. apply read_buffer_Ok in E4 as [Hln ->].
  simpl in Hln. change (line s = Some ln) in Hln. rewrite Hl in Hln. injection Hln as <-.
  mbind H as ? s5 E5. apply write_history_Ok in E5 as (m' & Hst & ->).
  mbind H as ? s6 E6. unfold modify in E6. injection E6 as _ <-.
  unfold modify in H. injection H as _ <-.
  simpl in *.
  apply store_cstr_bound in Hst as Hbd.
  assert (0 <= c) as Hc0 by nia.
  pose proof (hist_ok_write (set_historyBuffer m s) c b m' (historyCount s) Hbs Hok3
                ltac:(lia) Hst Hfit Hnb Hp) as Hok'.
  repeat split; try done; try lia.
  eapply hist_ok_mono; [exact Hok'|]. lia.
Qed.

(** ** The invariant through ProcessStandardSequence *)

Lemma prefix_ok_ext s s' b :
  head s' = head s -> caseinsensitive (cfg s') = caseinsensitive (cfg s) ->
  prefix_ok s b -> prefix_ok s' b.
Proof. unfold prefix_ok. intros -> ->. done. Qed.

Lemma prefix_ok_take s b k :
  nonul b -> (k <= length b)%nat -> prefix_ok s b -> prefix_ok s (take k b).
Proof.
  intros Hb Hk [->|(m & Hm & Hmatch)].
  - left. apply take_nil.
  - right. exists m. split; [done|]. by apply matches_take.
Qed.

(** Cutting the line at [k] and setting [keycount] to [k]. *)
Lemma Inv_truncate s b k m :
  Inv s -> line s = Some b -> 0 <= k <= strlen b ->
  poke (buffer s) k 0 = Some m ->
  Inv (set_keycount k (set_buffer m s)).
Proof.
  intros HI Hl Hk Hp.
  pose proof (line_truncate _ _ _ _ Hl Hk Hp) as Hl'.
  pose proof (poke_length _ _ _ _ Hp) as Hlen.
  assert (nonul b) as Hb by (by eapply cstr_at_nonul).
  assert (k = strlen (take (Z.to_nat k) b)) as Hkk.
  { unfold strlen in *. rewrite length_take. lia. }
  rewrite Hkk at 1.
  apply Inv_set_line; [done..|].
  apply prefix_ok_take; [done|unfold strlen in *; lia|].
  destruct HI as [_ (b' & Hl2 & _ & Hp') _ _ _].
  rewrite Hl in Hl2. by injection Hl2 as <-.
Qed.

Lemma Inv_line s b : Inv s -> line s = Some b -> keycount s = strlen b /\ prefix_ok s b.
Proof.
  intros [_ (b' & Hl & Hk & Hp) _ _ _] Hl'. rewrite Hl' in Hl. by injection Hl as <-.
Qed.

Lemma myisprint_nonzero c : myisprint c = true -> c <> 0.
Proof. unfold myisprint. intros H ->. done. Qed.

(** The default case: a printable character is kept only when the longer
    line still matches. *)
Lemma Inv_insert c s u s' : Inv s -> insert c s = Ok u s' -> Inv s'.
Proof.
  intros HI H. unfold insert in H. mget H.
  destruct (myisprint c && (keycount s <? bufferSize (cfg s))) eqn:Ec.
  2:{ unfold putch, modify in H. injection H as _ <-. by eapply Inv_ext; [..|exact HI]. }
  apply andb_prop in Ec as [Hpr _]. apply myisprint_nonzero in Hpr.
  destruct (inv_line _ HI) as (b & Hl & Hk & Hp).
  mbind H as ? s1 E1. apply poke_buffer_Ok in E1 as (m1 & Hp1 & ->).
  mbind H as ? s2 E2. unfold modify in E2. injection E2 as _ <-.
  mbind H as ? s3 E3. apply poke_buffer_Ok in E3 as (m2 & Hp2 & ->).
  simpl in Hp2. rewrite Hk in Hp1, Hp2.
  pose proof (line_append _ _ _ _ _ Hl Hpr Hp1 Hp2) as Hl2.
  mbind H as found s4 E4.
  rewrite (CommandMatches_false _ (b ++ [c])) in E4 by exact Hl2.
  injection E4 as <- <-.
  assert ((strlen (b ++ [c]) =? 0) = false) as Hnz.
  { apply Z.eqb_neq. rewrite strlen_app. pose proof (strlen_nonneg b).
    unfold strlen at 2. simpl. lia. }
  rewrite Hnz in H.
  pose proof (poke_length _ _ _ _ Hp1) as Hlen1.
  pose proof (poke_length _ _ _ _ Hp2) as Hlen2.
  destruct (Z.eqb_spec (foundCount (scan (set_buffer m2 (set_keycount (keycount s + 1)
              (set_buffer m1 s))) (b ++ [c]))) 0) as [Hz|Hz]; simpl negb in H; cbv iota in H.
  - (* no command matches: the character is taken back *)
    mbind H as ? s5 E5. unfold modify in E5. injection E5 as _ <-.
    mbind H as ? s6 E6. apply poke_buffer_Ok in E6 as (m3 & Hp3 & ->).
    unfold putch, modify in H. injection H as _ <-. simpl in Hp3.
    assert (cstr_at m3 0 = Some b) as Hl3.
    { rewrite Hk in Hp3.
      pose proof (line_truncate (set_buffer m2 s) (b ++ [c]) (strlen b) m3 Hl2) as Ht.
      rewrite Ht; [|rewrite strlen_app; pose proof (strlen_nonneg b);
                     pose proof (strlen_nonneg [c]); lia|exact Hp3].
      unfold strlen. rewrite Nat2Z.id. by rewrite take_app_length. }
    pose proof (poke_length _ _ _ _ Hp3) as Hlen3.
    eapply Inv_ext; [..|apply (Inv_set_line s m3 b HI)]; try reflexivity.
    + simpl. done.
    + congruence.
    + done.
    + done.
  - (* some command matches *)
    unfold putch, modify in H. injection H as _ <-.
    apply scan_nonzero in Hz. simpl in Hz.
    eapply Inv_ext; [..|apply (Inv_set_line s m2 (b ++ [c]) HI)]; try reflexivity.
    + simpl. rewrite Hk, strlen_app. done.
    + congruence.
    + done.
    + by right.
Qed.

(** The tab key: the completed line still matches the one command found. *)
Lemma Inv_complete s u s' : Inv s -> complete s = Ok u s' -> Inv s'.
Proof.
  intros HI H. unfold complete in H.
  destruct (inv_line _ HI) as (b & Hl & Hk & Hp).
  mbind H as found s1 E1. rewrite (CommandMatches_false _ b Hl) in E1.
  injection E1 as <- <-.
  destruct (Z.eqb_spec (strlen b) 0) as [Hz|Hnz]; simpl in H.
  { unfold ret in H. by injection H as _ <-. }
  destruct (Z.eqb_spec (foundCount (scan s b)) 1) as [H1|H1].
  2:{ unfold ret in H. by injection H as _ <-. }
  destruct (scan_one _ _ H1) as (m & Hh & Hs). rewrite Hs in H. simpl in H.
  assert (m ∈ head s /\ matches (caseinsensitive (cfg s)) b m = true) as [Hin Hm].
  { apply hits_elem. rewrite Hh. left. }
  mbind H as b0 s2 E2. apply read_buffer_Ok in E2 as [Hb0 ->].
  change (line s = Some b0) in Hb0. rewrite Hl in Hb0. injection Hb0 as <-.
  destruct (compareLength_of b <? strlen (command m)).
  2:{ unfold ret in H. by injection H as _ <-. }
  destruct (Z.leb_spec (strlen b) (strlen (command m))) as [Hle|]; [|done].
  mbind H as ? s3 E3. apply write_buffer_Ok in E3 as (buf & Hst & ->).
  mbind H as b' s4 E4. apply read_buffer_Ok in E4 as [Hb' ->].
  mbind H as ? s5 E5. unfold modify in E5. injection E5 as _ <-.
  rewrite EchoString_spec in H. injection H as _ <-.
  simpl in Hb'.
  assert (nonul b) as Hnb by (by eapply cstr_at_nonul).
  assert (nonul (command m)) as Hnm by (by apply (inv_names _ HI)).
  set (p := drop (Z.to_nat (strlen b)) (command m)) in *.
  assert (nonul p) as Hnp by (unfold nonul in *; by apply Forall_drop).
  pose proof (line_extend _ _ _ _ Hl Hnp Hst) as Hl'.
  rewrite Hl' in Hb'. injection Hb' as <-.
  pose proof (store_cstr_length _ _ _ _ Hst) as Hlen.
  eapply Inv_ext; [..|apply (Inv_set_line s buf (b ++ p) HI Hlen Hl')]; try reflexivity.
  right. exists m. split; [done|].
  assert (nonul (b ++ p)) as Hnbp by (by apply nonul_app).
  destruct (decide (SPACE ∈ b)) as [Hsp|Hsp].
  - by apply matches_app_space.
  - unfold p, strlen. rewrite Nat2Z.id.
    apply matches_completed; [|done|unfold strlen in Hle; lia|done].
    unfold p, strlen in Hnbp. by rewrite Nat2Z.id in Hnbp.
Qed.

(** The line a successful CommandMatches leaves for a command that is the
    only match still matches that command. *)
Lemma CommandMatches_true_line s b f s' :
  Inv s -> line s = Some b -> b <> [] ->
  CommandMatches true s = Ok f s' ->
  foundCount f = 1 ->
  exists m prm b',
    menu f = Some m /\ params f = Some prm /\
    line s' = Some b' /\ prm = params_of b' /\
    m ∈ head s /\ matches (caseinsensitive (cfg s)) b' m = true /\
    untouched (set_buffer (buffer s') s) s' /\
    length (buffer s') = length (buffer s).
Proof.
  intros HI Hl Hne H H1.
  assert (nonul b) as Hnb by (by eapply cstr_at_nonul).
  apply (CommandMatches_true_Ok _ b) in H as [(-> & -> & _)|H]; [| |done..].
  - destruct (scan_one _ _ H1) as (m & Hh & Hs).
    assert (m ∈ head s /\ matches (caseinsensitive (cfg s)) b m = true) as [Hin Hm].
    { apply hits_elem. rewrite Hh. left. }
    exists m, (params_of b), b. rewrite Hs. simpl.
    repeat split; try done. exists []. by rewrite app_nil_r.
  - destruct H as (m & buf & p & Hs & Hr & Hfit & Hst & Hp & -> & ->).
    assert (hits (caseinsensitive (cfg s)) b (head s) = [m]) as Hh.
    { destruct (scan_one s b) as (m' & Hh & Hs'); [by rewrite Hs|].
      rewrite Hs in Hs'. by injection Hs' as ->. }
    assert (m ∈ head s /\ matches (caseinsensitive (cfg s)) b m = true) as [Hin Hm].
    { apply hits_elem. rewrite Hh. left. }
    assert (nonul (canonical m b)) as Hnc.
    { unfold canonical. apply nonul_app. split; [by apply (inv_names _ HI)|].
      apply nonul_cons. split; [done|]. unfold args_of, nonul in *. by apply Forall_drop. }
    rewrite (cstr_at_store_same _ _ _ _ Hst Hnc) in Hp. injection Hp as <-.
    exists m, (params_of (canonical m b)), (canonical m b). simpl.
    split; [done|]. split; [done|].
    split; [unfold line; simpl; by eapply cstr_at_store_same|].
    split; [done|]. split; [done|].
    split; [by apply matches_canonical|].
    split; [|by eapply store_cstr_length].
    unfold untouched. simpl. repeat split. by eexists.
Qed.

(** The carriage return. *)
Lemma Inv_submit s r s' : Inv s -> submit s = Ok r s' -> Inv s'.
Proof.
  intros HI H. unfold submit in H.
  destruct (inv_line _ HI) as (b & Hl & Hk & Hp).
  mbind H as b0 s0 E0. apply read_buffer_Ok in E0 as [Hb0 ->].
  change (line s = Some b0) in Hb0. rewrite Hl in Hb0. injection Hb0 as <-.
  mbind H as val s1 E1.
  mbind H as ? s2 E2. unfold modify in E2. injection E2 as _ <-.
  mbind H as ? s3 E3. apply poke_buffer_Ok in E3 as (m3 & Hp3 & ->).
  mbind H as ? s4 E4. unfold modify in E4. injection E4 as _ <-.
  unfold ret in H. injection H as _ <-. simpl in Hp3.
  (* what the branch before the clean-up leaves *)
  assert (exists b1, line s1 = Some b1 /\
            length (buffer s1) = length (buffer s) /\
            head s1 = head s /\
            bufferSize (cfg s1) = bufferSize (cfg s) /\
            caseinsensitive (cfg s1) = caseinsensitive (cfg s) /\
            hist_ok s1 (historyCount s1) /\
            0 <= whereInHistory s1 <= historyCount s1) as
    (b1 & Hl1 & Hlen1 & Hh1 & Hbs1 & Hci1 & Hok1 & Hw1).
  { destruct (Z.eqb_spec (strlen b) 0) as [Hz|Hnz]; simpl in E1.
    { mbind E1 as ? s5 E5. unfold puts, modify in E5. injection E5 as _ <-.
      unfold ret in E1. injection E1 as _ <-.
      exists b. destruct HI. done. }
    assert (b <> []) as Hne by (intros ->; done).
    mbind E1 as found s5 E5.
    destruct (Z.eqb_spec (foundCount found) 1) as [H1|H1].
    - destruct (CommandMatches_true_line _ _ _ _ HI Hl Hne E5 H1)
        as (m & prm & b' & Hmenu & Hprm & Hl5 & -> & Hin & Hm & Hu5 & Hlen5).
      rewrite Hmenu, Hprm in E1.
      mbind E1 as p s6 E6. apply read_buffer_Ok in E6 as [_ ->].
      mbind E1 as val' s7 E7. apply call_untouched in E7.
      mbind E1 as ? s8 E8. unfold ret in E1. injection E1 as _ <-.
      destruct Hu5 as (Hh5&_&Hhb5&_&Hc5&_&_&_&_&Hwh5&_&Hbs5&Hci5&_).
      destruct E7 as (Hh7&Hb7&Hhb7&_&Hc7&_&_&_&_&Hwh7&_&Hbs7&Hci7&_).
      simpl in *.
      assert (head s7 = head s) as Hh by congruence.
      assert (buffer s7 = buffer s5) as Hb by congruence.
      assert (historyBuffer s7 = historyBuffer s) as Hhb by congruence.
      assert (historyCount s7 = historyCount s) as Hc by congruence.
      assert (whereInHistory s7 = whereInHistory s) as Hwh by congruence.
      assert (bufferSize (cfg s7) = bufferSize (cfg s)) as Hbs by congruence.
      assert (caseinsensitive (cfg s7) = caseinsensitive (cfg s)) as Hci by congruence.
      clear Hh5 Hhb5 Hc5 Hwh5 Hbs5 Hci5 Hh7 Hb7 Hhb7 Hc7 Hwh7 Hbs7 Hci7.
      apply history_enter_ok with (b := b') in E8.
      + destruct E8 as (Hh8 & Hb8 & Hcfg8 & _ & _ & Hok8 & Hw8).
        exists b'. unfold line. rewrite Hb8, Hb. split; [exact Hl5|].
        rewrite Hh8, Hcfg8, Hh, Hbs, Hci. done.
      + rewrite Hb, Hbs. rewrite Hlen5. apply (inv_size _ HI).
      + unfold line. by rewrite Hb.
      + right. exists m. rewrite Hh, Hci. done.
      + rewrite Hc. pose proof (inv_where _ HI). lia.
      + intros i e Hi He Hfit. unfold entry, prefix_ok in *.
        rewrite ?Hhb, ?Hbs, ?Hh, ?Hci, ?Hc in *. by eapply (inv_hist _ HI).
      + rewrite Hwh, Hc. apply (inv_where _ HI).
    - (* nothing runs: a message at most *)
      assert (exists o, s1 = set_output (output s5 ++ o) s5) as (o & ->).
      { destruct (1 <? foundCount found).
        - mbind E1 as ? s6 E6. unfold puts, modify in E6. injection E6 as _ <-.
          unfold ret in E1. injection E1 as _ <-. by eexists.
        - destruct (foundCount found =? 0).
          + mbind E1 as ? s6 E6. unfold puts, modify in E6. injection E6 as _ <-.
            unfold ret in E1. injection E1 as _ <-. by eexists.
          + unfold ret in E1. injection E1 as _ <-. exists [].
            rewrite app_nil_r. by destruct s5. }
      apply (CommandMatches_true_Ok _ b) in E5 as [(-> & -> & _)|E5]; [| |done..].
      + exists b. destruct HI. done.
      + destruct E5 as (m & buf & p & Hs & _ & _ & _ & _ & _ & ->). done. }
  (* the clean-up *)
  assert (cstr_at m3 0 = Some []) as Hl3.
  { pose proof (line_truncate s1 b1 0 m3 Hl1) as Ht. simpl in Ht.
    rewrite Ht; [by rewrite take_0|pose proof (strlen_nonneg b1); lia|done]. }
  pose proof (poke_length _ _ _ _ Hp3) as Hlen3.
  split; simpl.
  - rewrite Hlen3, Hlen1, Hbs1. apply (inv_size _ HI).
  - exists []. split; [exact Hl3|]. split; [done|]. by left.
  - rewrite Hh1. apply (inv_names _ HI).
  - done.
  - intros i e Hi He Hfit. unfold entry, prefix_ok in *. simpl in *.
    by eapply Hok1.
Qed.

Lemma Inv_ProcessStandardSequence c s r s' :
  Inv s -> ProcessStandardSequence c s = Ok r s' -> Inv s'.
Proof.
  intros HI H. unfold ProcessStandardSequence in H.
  destruct (inv_line _ HI) as (b & Hl & Hk & Hp).
  destruct (c =? 0).
  { unfold ret in H. by injection H as _ <-. }
  destruct (c =? 91).
  { mbind H as ? s1 E1. unfold modify in E1. injection E1 as _ <-.
    unfold ret in H. injection H as _ <-. by eapply Inv_ext; [..|exact HI]. }
  destruct (c =? 224).
  { mbind H as ? s1 E1. unfold modify in E1. injection E1 as _ <-.
    unfold ret in H. injection H as _ <-. by eapply Inv_ext; [..|exact HI]. }
  destruct (c =? TAB).
  { mbind H as ? s1 E1. unfold ret in H. injection H as _ <-.
    by eapply Inv_complete. }
  destruct (c =? ESC).
  { mget H.
    mbind H as ? s1 E1. rewrite EraseChars_spec in E1. injection E1 as _ <-.
    mbind H as ? s2 E2. unfold modify in E2. injection E2 as _ <-.
    mbind H as ? s3 E3. apply poke_buffer_Ok in E3 as (m & Hpk & ->).
    unfold ret in H. injection H as _ <-. simpl in Hpk.
    eapply Inv_ext; [..|apply (Inv_truncate s b 0 m HI Hl)]; try reflexivity; [|done].
    pose proof (strlen_nonneg b). lia. }
  destruct (c =? BS).
  { mget H. mbind H as ? s1 E1. unfold ret in H. injection H as _ <-.
    destruct (Z.eqb_spec (keycount s) 0) as [Hz|Hnz]; simpl in E1.
    - unfold putch, modify in E1. injection E1 as _ <-. by eapply Inv_ext; [..|exact HI].
    - mbind E1 as ? s2 E2. unfold modify in E2. injection E2 as _ <-.
      mbind E1 as ? s3 E3. apply poke_buffer_Ok in E3 as (m & Hpk & ->).
      rewrite EraseChars_spec in E1. injection E1 as _ <-. simpl in Hpk.
      eapply Inv_ext; [..|apply (Inv_truncate s b (keycount s - 1) m HI Hl)];
        try reflexivity; [|done].
      pose proof (strlen_nonneg b). lia. }
  destruct ((c =? CR) || (c =? LF)).
  { by eapply Inv_submit. }
  mbind H as ? s1 E1. unfold ret in H. injection H as _ <-.
  by eapply Inv_insert.
Qed.

(** The invariant holds after every call of CommandProcessor_Run that stays
    within defined behaviour. *)
Lemma Inv_Run key s r s' : Inv s -> CommandProcessor_Run key s = Ok r s' -> Inv s'.
Proof.
  intros HI H. unfold CommandProcessor_Run in H.
  mget H.
  mbind H as ? s1 E1.
  assert (Inv s1) as HI1.
  { unfold when in E1. destruct (showSignOnBanner (cfg s)).
    - mbind E1 as ? s2 E2. unfold modify in E1. injection E1 as _ <-.
      destruct (SignOnBanner (cfg s)) as [m|]; [|done].
      mbind E2 as ? s3 E3. unfold ret in E2. injection E2 as _ <-.
      apply call_untouched in E3.
      eapply Inv_ext; [..|apply (Inv_untouched _ _ E3)]; try reflexivity.
      by eapply Inv_ext; [..|exact HI].
    - unfold ret in E1. by injection E1 as _ <-. }
  clear HI E1. mget H.
  mbind H as ? s2 E2.
  assert (Inv s2) as HI2.
  { unfold when in E2. destruct (showPrompt s1 && negb (echo (cfg s1) =? 0)).
    - mbind E2 as ? s3 E3. unfold putch, modify in E3. injection E3 as _ <-.
      unfold modify in E2. injection E2 as _ <-. by eapply Inv_ext; [..|exact HI1].
    - unfold ret in E2. by injection E2 as _ <-. }
  clear HI1 E2.
  mbind H as ? s3 E3. unfold ret in H. injection H as _ <-.
  destruct key as [c|].
  - mget E3. mbind E3 as c' s4 E4. mbind E3 as ? s5 E5.
    unfold ret in E3. injection E3 as _ <-.
    apply Inv_ProcessStandardSequence in E5; [done|].
    destruct (leadinChar s2).
    + by eapply Inv_ProcessComplexSequence.
    + unfold ret in E4. by injection E4 as _ <-.
  - unfold ret in E3. by injection E3 as _ <-.
Qed.

(** ** Registration and initialisation establish the invariant *)

Lemma Add_frame m temp s r s' :
  CommandProcessor_Add m temp s = Ok r s' ->
  buffer s' = buffer s /\ historyBuffer s' = historyBuffer s /\
  historyCount s' = historyCount s /\ keycount s' = keycount s /\
  whereInHistory s' = whereInHistory s /\ cfg s' = cfg s /\
  beforeHistory s' = beforeHistory s /\ historyDepth s' = historyDepth s /\
  (forall x, x ∈ head s' <-> (r = addok /\ x = m) \/ x ∈ head s).
Proof.
  unfold CommandProcessor_Add. intros H. mget H.
  mbind H as ? s1 E1.
  assert (s1 = set_longestCommand (longestCommand s1) s) as Hs1.
  { unfold when in E1. destruct (_ <? _).
    - unfold modify in E1. by injection E1 as _ <-.
    - unfold ret in E1. injection E1 as _ <-. by destruct s. }
  clear E1. destruct temp; simpl in H.
  2:{ unfold ret in H. injection H as <- <-. rewrite Hs1. simpl.
      repeat split; try done; [by right|]. by intros [[[=] _]|?]. }
  destruct (head s) as [|m0 l] eqn:Eh.
  { mbind H as ? s2 E2. unfold modify in E2. injection E2 as _ <-.
    unfold ret in H. injection H as <- <-. rewrite Hs1. simpl.
    repeat split; try done.
    - intros Hx. apply list_elem_of_singleton in Hx. by left.
    - intros [[_ ->]|Hx]; [apply list_elem_of_singleton; done|by apply elem_of_nil in Hx]. }
  destruct (add_search (command m) (m0 :: l) 0 0) as [prev ptr].
  destruct (prev =? 0)%nat.
  - mbind H as ? s2 E2. unfold modify in E2. injection E2 as _ <-.
    unfold ret in H. injection H as <- <-. rewrite Hs1. simpl.
    repeat split; try done.
    + intros Hx. apply elem_of_cons in Hx as [->|Hx]; [by left|by right].
    + intros [[_ ->]|Hx]; apply elem_of_cons; [by left|by right].
  - mbind H as ? s2 E2. unfold modify in E2. injection E2 as _ <-.
    unfold ret in H. injection H as <- <-. rewrite Hs1. simpl.
    repeat split; try done.
    + intros Hx. apply elem_of_app in Hx as [Hx|Hx].
      * right. rewrite <- (take_drop ptr (m0 :: l)). apply elem_of_app. by left.
      * apply elem_of_cons in Hx as [->|Hx]; [by left|right].
        rewrite <- (take_drop ptr (m0 :: l)). apply elem_of_app. by right.
    + intros [[_ ->]|Hx]; apply elem_of_app.
      * right. left.
      * rewrite <- (take_drop ptr (m0 :: l)) in Hx.
        apply elem_of_app in Hx as [Hx|Hx]; [by left|right]. by right.
Qed.

Lemma prefix_ok_mono s s' b :
  (forall x, x ∈ head s -> x ∈ head s') ->
  caseinsensitive (cfg s') = caseinsensitive (cfg s) ->
  prefix_ok s b -> prefix_ok s' b.
Proof.
  intros Hsub Hci [->|(m & Hm & Hmatch)]; [by left|].
  right. exists m. rewrite Hci. auto.
Qed.

(** A command may be registered at any time. *)
Lemma Inv_Add m temp s r s' :
  Inv s -> nonul (command m) ->
  CommandProcessor_Add m temp s = Ok r s' -> Inv s'.
Proof.
  intros [I1 (b & Hl & Hk & Hp) I3 I4 I5] Hn H.
  apply Add_frame in H as (Hb & Hhb & Hc & Hkc & Hw & Hcfg & _ & _ & Hh).
  assert (forall x, x ∈ head s -> x ∈ head s') as Hsub by (intros; apply Hh; by right).
  split.
  - by rewrite Hb, Hcfg.
  - exists b. unfold line. rewrite Hb, Hkc. split; [done|]. split; [done|].
    eapply prefix_ok_mono; [done|by rewrite Hcfg|done].
  - intros x Hx. apply Hh in Hx as [[_ ->]|Hx]; [done|by apply I3].
  - by rewrite Hw, Hc.
  - intros i e Hi He Hfit. unfold entry in He. rewrite Hhb, Hcfg in He.
    rewrite Hcfg in Hfit. rewrite Hc in Hi.
    eapply prefix_ok_mono; [done|by rewrite Hcfg|]. by eapply I5.
Qed.

Lemma Inv_session keys : forall s u s',
  Inv s -> session keys s = Ok u s' -> Inv s'.
Proof.
  induction keys as [|k keys IH]; intros s u s' HI H; simpl in H.
  - unfold ret in H. by injection H as _ <-.
  - mbind H as ? s1 E1. apply Inv_Run in E1; [|done]. by eapply IH.
Qed.

Lemma Fresh_Inv s : Fresh s -> Inv s.
Proof.
  intros (Hsz & Hl & Hk & Hw & Hc & Hn). split; try done.
  - exists []. split; [done|]. split; [done|]. by left.
  - lia.
  - intros i e Hi. lia.
Qed.

Lemma Fresh_Add m temp s r s' :
  Fresh s -> nonul (command m) ->
  CommandProcessor_Add m temp s = Ok r s' -> Fresh s'.
Proof.
  intros (Hsz & Hl & Hk & Hw & Hc & Hn) Hm H.
  apply Add_frame in H as (Hb & Hhb & Hc' & Hkc & Hw' & Hcfg & _ & _ & Hh).
  unfold Fresh, line. rewrite Hb, Hcfg, Hkc, Hw', Hc'.
  repeat split; try done.
  intros x Hx. apply Hh in Hx as [[_ ->]|Hx]; [done|by apply Hn].
Qed.

Lemma builtin_names_nonul :
  nonul (command QuestionMenu) /\ nonul (command HelpMenu) /\
  nonul (command HistoryMenu) /\ nonul (command EchoMenu) /\
  nonul (command ExitMenu).
Proof. repeat split; repeat constructor; done. Qed.

(** A successful Init on the statics of program start establishes the
    invariant, provided the fresh line buffer starts with a zero byte (Init
    itself never writes to it). *)
Lemma Inv_Init banner config maxCmdLen numInHistory links jb jh before r s :
  CommandProcessor_Init banner config maxCmdLen numInHistory links
    (Some jb) (Some jh) before statics = Ok r s ->
  jb 0%nat = 0 ->
  (forall m, banner = Some m -> nonul (command m)) ->
  Fresh s.
Proof.
  intros H Hj Hban. unfold CommandProcessor_Init in H.
  destruct builtin_names_nonul as (Nq & Nh & Nhi & Ne & Nx).
  mbind H as ? s1 E1.
  assert (keycount s1 = 0 /\ whereInHistory s1 = 0 /\ historyCount s1 = 0 /\
          forall m, m ∈ head s1 -> nonul (command m)) as (Hk & Hw & Hc & Hn).
  { destruct banner as [b|].
    - mbind E1 as ? s2 E2. unfold modify in E1. injection E1 as _ <-. simpl.
      apply Add_frame in E2 as (_ & _ & Hc & Hk & Hw & _ & _ & _ & Hh).
      rewrite Hc, Hk, Hw. repeat split; try done.
      intros m Hm. apply Hh in Hm as [[_ ->]|Hm]; [by apply Hban|].
      by apply elem_of_nil in Hm.
    - unfold ret in E1. injection E1 as _ <-. repeat split; try done.
      intros m Hm. by apply elem_of_nil in Hm. }
  clear E1.
  set (n := if maxCmdLen <? 6 then 6 else maxCmdLen) in *.
  assert (6 <= n) as Hn6 by (unfold n; destruct (Z.ltb_spec maxCmdLen 6); lia).
  mbind H as ? s2 E2. unfold modify in E2. injection E2 as _ <-.
  mbind H as ? s3 E3. unfold modify in E3. injection E3 as _ <-.
  mbind H as nh sh Eh. apply int_mul_Ok in Eh as (-> & -> & _).
  mbind H as ? s4 E4. unfold modify in E4. injection E4 as _ <-.
  mbind H as ? s5 E5. unfold modify in E5. injection E5 as _ <-.
  mbind H as ? s6 E6. unfold modify in E6. injection E6 as _ <-.
  rewrite !bool_decide_eq_true_2 in H by (by eexists).
  change (true && true) with true in H. cbv iota in H.
  match type of H with bind _ _ ?s0 = _ => assert (Fresh s0) as HF end.
  { unfold Fresh, line. simpl. rewrite Hk, Hw, Hc. repeat split; try done.
    - unfold fresh_block. rewrite length_fmap, length_seq. lia.
    - unfold fresh_block. destruct (Z.to_nat n) as [|k] eqn:En; [lia|].
      simpl. by rewrite Hj. }
  mbind H as ? s7 E7.
  assert (Fresh s7) as HF7.
  { unfold when in E7. destruct (flag config CFG_ENABLE_SYSTEM).
    - mbind E7 as ? t1 A1. apply Fresh_Add in A1; [|done..].
      mbind E7 as ? t2 A2. apply Fresh_Add in A2; [|done..].
      mbind E7 as ? t3 A3. apply Fresh_Add in A3; [|done..].
      mbind E7 as ? t4 A4. apply Fresh_Add in A4; [|done..].
      unfold ret in E7. by injection E7 as _ <-.
    - unfold ret in E7. by injection E7 as _ <-. }
  mbind H as ? s8 E8.
  assert (Fresh s8) as HF8.
  { unfold when in E8. destruct (flag config CFG_ENABLE_TERMINATE).
    - mbind E8 as ? t1 A1. apply Fresh_Add in A1; [|done..].
      unfold ret in E8. by injection E8 as _ <-.
    - unfold ret in E8. by injection E8 as _ <-. }
  mbind H as ? s9 E9. unfold modify in E9. injection E9 as _ <-.
  unfold ret in H. injection H as _ <-.
  destruct HF8 as (Hsz & Hl & Hk8 & Hw8 & Hc8 & Hn8).
  unfold Fresh, line. simpl. repeat split; done.
Qed.

Lemma Fresh_boot : Fresh boot.
Proof.
  apply (Inv_Init None (CFG_ENABLE_SYSTEM + CFG_ENABLE_TERMINATE) 10 2 (fun _ => true)
           zeros zeros (replicate 10 (chr "z")) initok); [|done|done].
  vm_compute. reflexivity.
Qed.

(** ** A full line buffer *)

(** A full buffer rejects the character with the bell and stays as it is. *)
Lemma insert_full_bell c s :
  bufferSize (cfg s) <= keycount s ->
  insert c s = Ok tt (set_output (output s ++ [Putch BELL]) s).
Proof.
  intros H. unfold insert, bind, get.
  destruct (Z.ltb_spec (keycount s) (bufferSize (cfg s))); [lia|].
  by rewrite andb_false_r.
Qed.

(** ** The history outside the entry of a line *)

(** Runs a computation known to end in [Ok] down to its primitive steps. *)
Ltac mauto :=
  repeat match goal with
  | H : bind _ _ _ = Ok _ _ |- _ => apply bind_Ok in H; destruct H as (? & ? & ? & H)
  | H : ret _ _ = Ok _ _ |- _ => unfold ret in H; injection H as ? ?; subst
  | H : get _ = Ok _ _ |- _ => unfold get in H; injection H as ? ?; subst
  | H : modify _ _ = Ok _ _ |- _ => unfold modify in H; injection H as ? ?; subst
  | H : putch _ _ = Ok _ _ |- _ => unfold putch, modify in H; injection H as ? ?; subst
  | H : puts _ _ = Ok _ _ |- _ => unfold puts, modify in H; injection H as ? ?; subst
  | H : fault _ _ = Ok _ _ |- _ => discriminate H
  | H : Fault _ = Ok _ _ |- _ => discriminate H
  | H : int_mul _ _ _ = Ok _ _ |- _ => apply int_mul_Ok in H as (-> & -> & ?)
  | H : when ?b _ _ = Ok _ _ |- _ => unfold when in H; destruct b eqn:?
  | H : read_buffer _ _ = Ok _ _ |- _ => apply read_buffer_Ok in H as [? ->]
  | H : poke_buffer _ _ _ = Ok _ _ |- _ => apply poke_buffer_Ok in H as (? & ? & ->)
  | H : write_buffer _ _ _ = Ok _ _ |- _ => apply write_buffer_Ok in H as (? & ? & ->)
  | H : write_alternate _ _ = Ok _ _ |- _ => apply write_alternate_Ok in H as [? ->]
  | H : EraseChars _ _ = Ok _ _ |- _ => rewrite EraseChars_spec in H; injection H as ? ?; subst
  | H : EchoString _ _ = Ok _ _ |- _ => rewrite EchoString_spec in H; injection H as ? ?; subst
  | H : read_history _ _ = Ok _ _ |- _ => apply read_history_Ok in H as ->
  | H : write_history _ _ _ = Ok _ _ |- _ => apply write_history_Ok in H as (? & ? & ->)
  | H : (if ?b then _ else _) _ = Ok _ _ |- _ => destruct b eqn:?
  | H : match ?x with Some _ => _ | None => _ end _ = Ok _ _ |- _ => destruct x eqn:?
  end.

Lemma hist_same_refl s : hist_same s s.
Proof. by unfold hist_same. Qed.

Lemma hist_same_trans s1 s2 s3 : hist_same s1 s2 -> hist_same s2 s3 -> hist_same s1 s3.
Proof. unfold hist_same. intros (?&?&?&?&?) (?&?&?&?&?). repeat split; congruence. Qed.

Lemma untouched_hist_same s s' : untouched s s' -> hist_same s s'.
Proof. intros (?&?&?&?&?&?&?&?&?&?&?&?&?). by unfold hist_same. Qed.

Lemma CommandMatches_hist_same exec s f s' :
  CommandMatches exec s = Ok f s' ->
  hist_same s s' /\ whereInHistory s' = whereInHistory s /\ calls s' = calls s.
Proof. unfold CommandMatches, hist_same. intros H. mauto; simpl; done. Qed.

Lemma recall_hist_same i s u s' :
  recall i s = Ok u s' ->
  hist_same s s' /\ whereInHistory s' = whereInHistory s /\ calls s' = calls s.
Proof. unfold recall, hist_same. intros H. mauto; simpl; done. Qed.

Lemma ProcessComplexSequence_hist_same c s c' s' :
  ProcessComplexSequence c s = Ok c' s' -> hist_same s s' /\ calls s' = calls s.
Proof.
  unfold ProcessComplexSequence. intros H. mauto;
    repeat match goal with
    | H : recall _ _ = Ok _ _ |- _ => apply recall_hist_same in H as ((?&?&?&?&?) & ? & ?)
    end; unfold hist_same; simpl in *; done.
Qed.

Lemma complete_hist_same s u s' :
  complete s = Ok u s' ->
  hist_same s s' /\ whereInHistory s' = whereInHistory s /\ calls s' = calls s.
Proof.
  unfold complete. intros H. mauto;
    repeat match goal with
    | H : CommandMatches _ _ = Ok _ _ |- _ =>
      apply CommandMatches_hist_same in H as ((?&?&?&?&?) & ? & ?)
    end; unfold hist_same; simpl in *; done.
Qed.

Lemma insert_hist_same c s u s' :
  insert c s = Ok u s' ->
  hist_same s s' /\ whereInHistory s' = whereInHistory s /\ calls s' = calls s.
Proof.
  unfold insert. intros H. mauto;
    repeat match goal with
    | H : CommandMatches _ _ = Ok _ _ |- _ =>
      apply CommandMatches_hist_same in H as ((?&?&?&?&?) & ? & ?)
    end; unfold hist_same; simpl in *; done.
Qed.

(** ** The entry of a line into the history *)

Lemma history_shift_frame n : forall i s u s',
  history_shift n i s = Ok u s' -> exists m, s' = set_historyBuffer m s.
Proof.
  induction n as [|n IH]; intros i s u s' H; simpl in H.
  - unfold ret in H. injection H as _ <-. exists (historyBuffer s). by destruct s.
  - mget H. mbind H as e s1 E1. apply read_history_Ok in E1 as ->.
    mbind H as ? s2 E2.
    destruct (strlen e + 1 <=? bufferSize (cfg s)); [|done].
    apply write_history_Ok in E2 as (m & _ & ->).
    apply IH in H as (m' & ->). by exists m'.
Qed.

(** What the entry of a line does to the counters: nothing at all when the
    line is taken for a repeat; otherwise the count grows by one unless the
    history was full, and the navigation index is left on the entry just
    written, one below the count. *)
Lemma history_enter_counters s u s' :
  history_enter s = Ok u s' ->
  s' = s \/
  (whereInHistory s' = historyCount s' - 1 /\
   (historyCount s' = historyCount s + 1 /\ historyCount s <> historyDepth s \/
    historyCount s' = historyCount s /\ historyCount s = historyDepth s)) /\
  historyDepth s' = historyDepth s /\ head s' = head s /\ buffer s' = buffer s /\
  cfg s' = cfg s /\ keycount s' = keycount s /\ calls s' = calls s /\
  output s' = output s /\ beforeHistory s' = beforeHistory s.
Proof.
  unfold history_enter. intros H.
  mget H. mbind H as b s1 E1. apply read_buffer_Ok in E1 as [_ ->].
  mbind H as last s2 E2. apply read_history_Ok in E2 as ->.
  unfold when in H.
  destruct (negb (mystrnicmp b last (length last) =? 0)).
  2:{ unfold ret in H. injection H as _ <-. by left. }
  right. mbind H as ? s3 E3.
  destruct (Z.eqb_spec (historyCount s) (historyDepth s)) as [Hfull|Hnf].
  - mbind E3 as ? s4 E4. unfold modify in E4. injection E4 as _ <-.
    apply history_shift_frame in E3 as (m & ->).
    mauto. simpl.
    repeat split; try done; try lia.
  - unfold ret in E3. injection E3 as _ <-.
    mauto. simpl.
    repeat split; try done; try lia.
Qed.

(** A line taken for a repeat of the newest entry is not entered. *)
Lemma history_enter_repeat s b last :
  line s = Some b ->
  read_history (historyCount s - 1) s = Ok last s ->
  mystrnicmp b last (length last) = 0 ->
  history_enter s = Ok tt s.
Proof.
  intros Hl Hr Hz. unfold history_enter.
  rewrite (bind_Ok_l get _ s s s eq_refl).
  rewrite (bind_Ok_l _ _ _ _ _ (read_buffer_line _ _ Hl)).
  rewrite (bind_Ok_l _ _ _ _ _ Hr).
  by rewrite Hz.
Qed.

(** ** The bound of the history *)

Lemma submit_history s r s' :
  submit s = Ok r s' ->
  historyDepth s' = historyDepth s /\
  (historyCount s' = historyCount s \/
   historyCount s' = historyCount s + 1 /\ historyCount s <> historyDepth s).
Proof.
  unfold submit. intros H.
  mbind H as b s0 E0. apply read_buffer_Ok in E0 as [_ ->].
  mbind H as val s1 E1.
  assert (historyDepth s1 = historyDepth s /\
          (historyCount s1 = historyCount s \/
           historyCount s1 = historyCount s + 1 /\ historyCount s <> historyDepth s)) as Hs1.
  { destruct (negb (strlen b =? 0)); [|mauto; simpl; auto].
    mbind E1 as found s2 E2.
    apply CommandMatches_hist_same in E2 as ((_ & Hc2 & Hd2 & _) & _).
    destruct (foundCount found =? 1); [|mauto; simpl; auto].
    destruct (menu found) as [cbk|]; [|done].
    destruct (params found) as [prm|]; [|done].
    mbind E1 as p s3 E3. apply read_buffer_Ok in E3 as [_ ->].
    mbind E1 as val' s4 E4. apply call_untouched in E4.
    apply untouched_hist_same in E4 as (_ & Hc4 & Hd4 & _). simpl in Hc4, Hd4.
    mbind E1 as ? s5 E5. unfold ret in E1. injection E1 as _ <-.
    apply history_enter_counters in E5 as [->|((_ & Hc5) & Hd5 & _)].
    - split; [congruence|]. left. congruence.
    - split; [congruence|]. rewrite Hd4, Hd2, Hc4, Hc2 in *. lia. }
  clear E1. mauto; simpl; done.
Qed.

Lemma ProcessStandardSequence_history c s r s' :
  ProcessStandardSequence c s = Ok r s' ->
  historyDepth s' = historyDepth s /\
  (historyCount s' = historyCount s \/
   historyCount s' = historyCount s + 1 /\ historyCount s <> historyDepth s).
Proof.
  unfold ProcessStandardSequence. intros H.
  destruct (c =? 0); [mauto; auto|].
  destruct (c =? 91); [mauto; auto|].
  destruct (c =? 224); [mauto; auto|].
  destruct (c =? TAB).
  { mbind H as ? s1 E1. unfold ret in H. injection H as _ <-.
    apply complete_hist_same in E1 as ((_ & ? & ? & _) & _). auto. }
  destruct (c =? ESC); [mauto; simpl; auto|].
  destruct (c =? BS); [mauto; simpl; auto|].
  destruct ((c =? CR) || (c =? LF)); [by eapply submit_history|].
  mbind H as ? s1 E1. unfold ret in H. injection H as _ <-.
  apply insert_hist_same in E1 as ((_ & ? & ? & _) & _). auto.
Qed.

Lemma Run_history key s r s' :
  CommandProcessor_Run key s = Ok r s' ->
  historyDepth s' = historyDepth s /\
  (historyCount s' = historyCount s \/
   historyCount s' = historyCount s + 1 /\ historyCount s <> historyDepth s).
Proof.
  unfold CommandProcessor_Run. intros H.
  mget H. mbind H as ? s1 E1.
  assert (historyDepth s1 = historyDepth s /\ historyCount s1 = historyCount s) as [Hd1 Hc1].
  { unfold when in E1. destruct (showSignOnBanner (cfg s)); [|mauto; done].
    mbind E1 as ? s2 E2. unfold modify in E1. injection E1 as _ <-.
    destruct (SignOnBanner (cfg s)) as [m|]; [|done].
    mbind E2 as ? s3 E3. unfold ret in E2. injection E2 as _ <-.
    apply call_untouched, untouched_hist_same in E3 as (_ & ? & ? & _). done. }
  clear E1. mget H. mbind H as ? s2 E2.
  assert (historyDepth s2 = historyDepth s /\ historyCount s2 = historyCount s) as [Hd2 Hc2].
  { mauto; simpl; done. }
  clear E2 Hd1 Hc1.
  mbind H as ? s3 E3. unfold ret in H. injection H as _ <-.
  destruct key as [c|]; [|mauto; auto].
  mget E3. mbind E3 as c' s4 E4. mbind E3 as ? s5 E5.
  unfold ret in E3. injection E3 as _ <-.
  assert (historyDepth s4 = historyDepth s /\ historyCount s4 = historyCount s) as [Hd4 Hc4].
  { destruct (leadinChar s2); [|mauto; done].
    apply ProcessComplexSequence_hist_same in E4 as ((_ & ? & ? & _) & _).
    split; congruence. }
  apply ProcessStandardSequence_history in E5. rewrite Hd4, Hc4 in E5. done.
Qed.

(** The history never holds more than [historyDepth] entries. *)
Lemma Run_count_bound key s r s' :
  0 <= historyCount s <= historyDepth s ->
  CommandProcessor_Run key s = Ok r s' ->
  0 <= historyCount s' <= historyDepth s'.
Proof. intros Hb H. apply Run_history in H as (Hd & Hc). lia. Qed.

(** ** The carriage return on a line with one match *)

(** The stages of a carriage return on a line with exactly one match. *)
Lemma submit_stages s b r s' f s1 :
  line s = Some b -> b <> [] ->
  submit s = Ok r s' ->
  CommandMatches true s = Ok f s1 -> foundCount f = 1 ->
  exists cbk prm p s2 s3 m,
    menu f = Some cbk /\ params f = Some prm /\
    cstr_at (buffer s1) prm = Some p /\
    call cbk p s1 = Ok r s2 /\
    history_enter s2 = Ok tt s3 /\
    poke (buffer s3) 0 0 = Some m /\
    s' = set_showPrompt true (set_buffer m (set_keycount 0 s3)).
Proof.
  intros Hl Hne H Hcm H1. unfold submit in H.
  rewrite (bind_Ok_l _ _ _ _ _ (read_buffer_line _ _ Hl)) in H.
  assert ((strlen b =? 0) = false) as Hz0.
  { apply Z.eqb_neq. intros E. by apply strlen_nil_iff in E. }
  rewrite Hz0 in H. change (negb false) with true in H. cbv iota in H.
  mbind H as val s4 E4. rewrite (bind_Ok_l _ _ _ _ _ Hcm) in E4.
  rewrite H1 in E4. change (1 =? 1) with true in E4. cbv iota in E4.
  destruct (menu f) as [cbk|]; [|done].
  destruct (params f) as [prm|]; [|done].
  mbind E4 as p s5 E5. apply read_buffer_Ok in E5 as [Hp ->].
  mbind E4 as val' s6 E6. mbind E4 as u s7 E7.
  unfold ret in E4. injection E4 as -> ->. destruct u.
  mbind H as ? s8 E8. unfold modify in E8. injection E8 as _ <-.
  mbind H as ? s9 E9. apply poke_buffer_Ok in E9 as (m & Hm & ->).
  mbind H as ? s10 E10. unfold modify in E10. injection E10 as _ <-.
  unfold ret in H. injection H as <- <-.
  exists cbk, prm, p, s6, s4, m. simpl in Hm. done.
Qed.

Lemma submit_calls s b r s' f s1 m p prm :
  line s = Some b -> b <> [] ->
  CommandMatches true s = Ok f s1 -> foundCount f = 1 ->
  menu f = Some m -> params f = Some prm ->
  cstr_at (buffer s1) prm = Some p ->
  submit s = Ok r s' ->
  calls s' = calls s ++ [(command m, p)].
Proof.
  intros Hl Hne Hcm H1 Hm Hprm Hp H.
  destruct (submit_stages _ _ _ _ _ _ Hl Hne H Hcm H1)
    as (cbk & prm' & p' & s2 & s3 & buf & Hm' & Hprm' & Hp' & Hcall & Henter & _ & ->).
  rewrite Hm in Hm'. injection Hm' as <-.
  rewrite Hprm in Hprm'. injection Hprm' as <-.
  rewrite Hp in Hp'. injection Hp' as <-.
  apply CommandMatches_hist_same in Hcm as (_ & _ & Hc1).
  apply call_untouched in Hcall as (_&_&_&_&_&_&_&_&_&_&_&_&_&_&_&Hc2&_).
  simpl in Hc2.
  apply history_enter_counters in Henter as [->|(_&_&_&_&_&_&Hc3&_)]; simpl; congruence.
Qed.

(** ** The rewriting of the line *)

Lemma matches_length ci b m :
  nonul b -> matches ci b m = true ->
  (Z.to_nat (compareLength_of b) <= length (command m))%nat.
Proof.
  intros Hb Hm. apply matches_iff in Hm; [|done].
  apply (f_equal length) in Hm. rewrite !fold_case_length in Hm.
  unfold typed_of in Hm. rewrite !length_take in Hm.
  pose proof (compareLength_of_nat b). lia.
Qed.

(** For the command found, the line is rewritten exactly when the typed
    command part is not the name itself. *)
Lemma rewrite_needed_iff ci b m :
  nonul b -> matches ci b m = true ->
  rewrite_needed b m = true <-> typed_of b <> command m.
Proof.
  intros Hb Hm. pose proof (matches_length _ _ _ Hb Hm) as Hlen.
  pose proof (compareLength_of_nat b) as Hcl.
  pose proof (compareLength_of_bounds b) as Hcb.
  unfold rewrite_needed, strlen.
  destruct (Z.ltb_spec 0 (Z.of_nat (length (command m)) - compareLength_of b)) as [Hlt|Hge];
    simpl.
  - split; [|done]. intros _ He. apply (f_equal length) in He.
    unfold typed_of in He. rewrite length_take in He. lia.
  - rewrite negb_true_iff, Z.eqb_neq.
    rewrite (strncmp_0 _ b (command m)) by done.
    unfold typed_of. rewrite (take_ge (command m)) by lia. done.
Qed.

Lemma filter_filter_impl {A} (P Q : A -> Prop) `{!forall x, Decision (P x)}
    `{!forall x, Decision (Q x)} (l : list A) :
  (forall x, P x -> Q x) -> filter P (filter Q l) = filter P l.
Proof.
  intros HPQ. induction l as [|x l IH]; [done|].
  rewrite !filter_cons. destruct (decide (Q x)) as [HQ|HQ].
  - rewrite filter_cons. by rewrite IH.
  - rewrite decide_False by (intros HP; by apply HQ, HPQ). done.
Qed.

(** CommandMatches with [exec] set leaves a line alone whose command part is
    the name of its one match. *)
Lemma CommandMatches_true_plain t bt m prm :
  line t = Some bt -> bt <> [] ->
  scan t bt = mkFound 1 (Some m) (Some prm) ->
  rewrite_needed bt m = false ->
  CommandMatches true t = Ok (scan t bt) t.
Proof.
  intros Hl Hne Hs Hr. unfold CommandMatches.
  rewrite (bind_Ok_l _ _ _ _ _ (read_buffer_line _ _ Hl)).
  assert ((strlen bt =? 0) = false) as ->.
  { apply Z.eqb_neq. intros E. by apply strlen_nil_iff in E. }
  rewrite (bind_Ok_l get _ t t t eq_refl). fold (scan t bt). rewrite Hs. simpl.
  fold (rewrite_needed bt m). by rewrite Hr.
Qed.

(** The line with the full name in place of the typed command part. *)
Lemma full_name_line b m :
  SPACE ∉ command m ->
  let bt := command m ++ drop (Z.to_nat (compareLength_of b)) b in
  typed_of bt = command m /\ args_of bt = args_of b /\
  compareLength_of bt = strlen (command m).
Proof.
  intros Hsp bt. subst bt.
  destruct (line_parts b) as [(Hn & Ht & Ha)|(Hn & Hb)].
  - rewrite compareLength_of_nospace by done. unfold strlen at 1 2 3.
    rewrite Nat2Z.id, drop_ge by lia. rewrite app_nil_r.
    unfold typed_of, args_of at 1.
    rewrite compareLength_of_nospace, params_of_nospace by done.
    unfold strlen. rewrite Nat2Z.id. rewrite take_ge, drop_ge by lia. by rewrite Ha.
  - set (ty := typed_of b) in *. set (a := args_of b) in *.
    assert (compareLength_of b = strlen ty) as ->.
    { rewrite Hb. by apply compareLength_of_space. }
    assert (drop (Z.to_nat (strlen ty)) b = SPACE :: a) as ->.
    { rewrite Hb at 1. unfold strlen. rewrite Nat2Z.id. by rewrite drop_app_length. }
    unfold typed_of, args_of.
    rewrite compareLength_of_space, params_of_space by done.
    unfold strlen. rewrite Nat2Z.id.
    replace (Z.to_nat (Z.of_nat (length (command m)) + 1)) with (length (command m) + 1)%nat by lia.
    rewrite take_app_length. split; [done|]. split; [|done].
    rewrite drop_app_ge by lia.
    by replace (length (command m) + 1 - length (command m))%nat with 1%nat by lia.
Qed.

(** If the typed part is the only match of [m], the line with the full name
    matches [m] only, too. *)
Lemma full_name_hits ci b m l :
  nonul b -> nonul (command m) -> (SPACE ∉ command m) ->
  hits ci b l = [m] ->
  hits ci (command m ++ drop (Z.to_nat (compareLength_of b)) b) l = [m].
Proof.
  intros Hb Hnm Hsp Hh.
  set (bt := command m ++ drop (Z.to_nat (compareLength_of b)) b).
  destruct (full_name_line b m Hsp) as (Hty & Ha & Hcl). fold bt in Hty, Ha, Hcl.
  assert (nonul bt) as Hbt.
  { apply nonul_app. split; [done|]. unfold nonul in *. by apply Forall_drop. }
  assert (matches ci b m = true) as Hm.
  { assert (m ∈ hits ci b l) as Hin by (rewrite Hh; left). by apply hits_elem in Hin as [_ ?]. }
  pose proof (matches_length _ _ _ Hb Hm) as Hlen.
  assert (forall x, matches ci bt x = true -> matches ci b x = true) as Himp.
  { intros x Hx. apply matches_iff in Hx; [|done]. apply matches_iff in Hm; [|done].
    apply matches_iff; [done|]. rewrite Hm.
    rewrite Hty, Hcl in Hx. unfold strlen in Hx. rewrite Nat2Z.id in Hx.
    apply (f_equal (take (Z.to_nat (compareLength_of b)))) in Hx.
    rewrite <- !fold_case_take in Hx. rewrite take_take in Hx.
    replace (Z.to_nat (compareLength_of b) `min` length (command m))%nat
      with (Z.to_nat (compareLength_of b)) in Hx by lia.
    done. }
  unfold hits in *. rewrite <- (filter_filter_impl _ (fun x => matches ci b x = true)) by done.
  rewrite Hh. rewrite filter_cons. rewrite decide_True; [done|].
  apply matches_iff; [done|]. rewrite Hty, Hcl. unfold strlen.
  by rewrite Nat2Z.id, take_ge.
Qed.

(** ** The history as a queue *)

Lemma entries_spec s es :
  entries s = Some es <->
  length es = Z.to_nat (historyCount s) /\
  forall (i : nat) e, es !! i = Some e -> entry s (Z.of_nat i) = Some e.
Proof.
  unfold entries. rewrite mapM_Some, Forall2_same_length_lookup, length_seq.
  split.
  - intros [Hlen H]. split; [done|]. intros i e He.
    apply (H i i e); [|done]. apply lookup_seq. split; [done|].
    apply lookup_lt_Some in He. lia.
  - intros [Hlen H]. split; [done|]. intros i x e Hx He.
    apply lookup_seq in Hx as [-> _]. by apply H.
Qed.

Lemma store_cstr_Some m i t :
  0 <= i -> i + strlen t + 1 <= Z.of_nat (length m) ->
  exists m', store_cstr m i t = Some m'.
Proof.
  intros Hi Hb. unfold store_cstr.
  destruct (Z.leb_spec 0 i); [|lia].
  destruct (Z.leb_spec (i + strlen t + 1) (Z.of_nat (length m))); [|lia].
  by eexists.
Qed.

(** The loop that moves the entries down, run on entries that end inside
    their slots: it ends, every slot it wrote holds what the next slot
    held, and the strings of the other slots are as before. *)
Lemma history_shift_spec n : forall i s,
  0 < bufferSize (cfg s) -> 0 <= i ->
  (forall j, i < j <= i + Z.of_nat n ->
     exists e, entry s j = Some e /\ strlen e < bufferSize (cfg s)) ->
  exists m,
    history_shift n i s = Ok tt (set_historyBuffer m s) /\
    length m = length (historyBuffer s) /\
    (forall j, i <= j < i + Z.of_nat n -> entry (set_historyBuffer m s) j = entry s (j + 1)) /\
    (forall j e, j < i \/ i + Z.of_nat n <= j -> strlen e < bufferSize (cfg s) ->
       entry s j = Some e <-> entry (set_historyBuffer m s) j = Some e).
Proof.
  induction n as [|n IH]; intros i s Hbs Hi Hent.
  - exists (historyBuffer s). simpl. split; [by destruct s|]. split; [done|].
    split; [intros; lia|]. intros j e _ _. by destruct s.
  - destruct (Hent (i + 1)) as (e & He & Hfit); [lia|].
    assert (nonul e) as Hne by (by eapply cstr_at_nonul).
    assert (read_history (i + 1) s = Ok e s) as Hrd.
    { apply read_history_entry; [nia|done]. }
    destruct (store_cstr_Some (historyBuffer s) (i * bufferSize (cfg s)) e) as (m1 & Hst).
    { nia. }
    { apply cstr_at_bound in He. nia. }
    set (s1 := set_historyBuffer m1 s).
    destruct (IH (i + 1) s1) as (m2 & Hsh & Hlen & Hmoved & Hother).
    { done. }
    { lia. }
    { intros j Hj. destruct (Hent j) as (e' & He' & Hfit'); [lia|].
      exists e'. split; [|done].
      apply (entry_write_other s i e m1 j e'); [done..|lia|done]. }
    exists m2. split; [|split; [|split]].
    + simpl history_shift.
      rewrite (bind_Ok_l get _ s s s eq_refl).
      rewrite (bind_Ok_l _ _ _ _ _ Hrd).
      destruct (Z.leb_spec (strlen e + 1) (bufferSize (cfg s))); [|lia].
      rewrite (bind_Ok_l (write_history i e) _ s tt s1).
      * exact Hsh.
      * unfold write_history. by rewrite Hst.
    + rewrite Hlen. simpl. by eapply store_cstr_length.
    + intros j Hj. destruct (decide (j = i)) as [->|Hji].
      * rewrite He. apply (Hother i e); [lia|done|].
        by eapply entry_write_same.
      * change (entry (set_historyBuffer m2 s1) j = entry s (j + 1)).
        rewrite Hmoved by lia.
        destruct (Hent (j + 1)) as (e' & He' & Hfit'); [lia|].
        rewrite He'. apply (entry_write_other s i e m1 (j + 1) e'); [done..|lia|done].
    + intros j e' Hj Hfit'.
      change (entry s j = Some e' <-> entry (set_historyBuffer m2 s1) j = Some e').
      rewrite <- (Hother j e') by (done || lia).
      apply (entry_write_other s i e m1 j e'); [done..|lia].
Qed.

Lemma tail_length {A} (l : list A) : length (tail l) = (length l - 1)%nat.
Proof. destruct l; simpl; lia. Qed.

(** One line entered into a well-formed history, when the repeat check
    does not take it for a repeat. *)
Lemma history_enter_fifo s b last es :
  hist_wf s ->
  Z.of_nat (length (buffer s)) = bufferSize (cfg s) ->
  line s = Some b -> entries s = Some es ->
  read_history (historyCount s - 1) s = Ok last s ->
  mystrnicmp b last (length last) <> 0 ->
  exists s',
    history_enter s = Ok tt s' /\
    entries s' = Some (fifo (historyDepth s) es b) /\
    hist_wf s' /\ historyDepth s' = historyDepth s /\
    buffer s' = buffer s /\ cfg s' = cfg s.
Proof.
  intros (Hbs & Hsz & Hcnt & Hdep & Hent) Hbsz Hl Hes Hrd Hnz.
  assert (strlen b < bufferSize (cfg s)) as Hfit by (apply cstr_at_bound in Hl; lia).
  assert (nonul b) as Hnb by (by eapply cstr_at_nonul).
  pose proof (strlen_nonneg b) as Hb0.
  apply entries_spec in Hes as [Hlen Hes].
  unfold history_enter, fifo.
  rewrite (bind_Ok_l get _ s s s eq_refl).
  rewrite (bind_Ok_l _ _ _ _ _ (read_buffer_line _ _ Hl)).
  rewrite (bind_Ok_l _ _ _ _ _ Hrd).
  assert (negb (mystrnicmp b last (length last) =? 0) = true) as ->.
  { apply negb_true_iff, Z.eqb_neq. done. }
  unfold when at 1.
  replace (Z.of_nat (length es) =? historyDepth s) with (historyCount s =? historyDepth s)
    by (f_equal; lia).
  destruct (Z.eqb_spec (historyCount s) (historyDepth s)) as [Hfull|Hroom].
  - (* full: the entries move down and the line takes the last slot *)
    unfold when.
    set (s0 := set_historyCount (historyCount s - 1) s).
    destruct (history_shift_spec (Z.to_nat (historyCount s - 1)) 0 s0)
      as (m & Hsh & Hmlen & Hmoved & Hother); [done|lia| |].
    { intros j Hj. apply (Hent j). lia. }
    set (s1 := set_historyBuffer m s0) in *.
    destruct (store_cstr_Some m ((historyCount s - 1) * bufferSize (cfg s)) b) as (m' & Hst).
    { nia. } { rewrite Hmlen. simpl. nia. }
    eexists. split.
    + rewrite (bind_Ok_l (bind (modify _) _) _ s tt s1).
      2:{ unfold bind at 1, modify. exact Hsh. }
      rewrite (bind_Ok_l get _ s1 s1 s1 eq_refl).
      rewrite (bind_Ok_l (read_buffer 0) _ s1 b s1) by (by apply read_buffer_line).
      rewrite (bind_Ok_l (write_history _ _) _ s1 tt (set_historyBuffer m' s1)).
      2:{ unfold write_history. simpl. by rewrite Hst. }
      rewrite (bind_Ok_l (modify _) _ _ tt _ eq_refl). reflexivity.
    + assert (forall j e, 0 <= j < historyCount s - 1 -> entry s (j + 1) = Some e ->
                entry (set_historyBuffer m' s1) j = Some e) as Hold.
      { intros j e Hj He. destruct (Hent (j + 1)) as (e' & He' & Hfit'); [lia|].
        rewrite He in He'. injection He' as <-.
        apply (entry_write_other s1 (historyCount s - 1) b m' j e); [done..|lia|].
        rewrite Hmoved by lia. exact He. }
      assert (entry (set_historyBuffer m' s1) (historyCount s - 1) = Some b) as Hnew.
      { by apply (entry_write_same s1). }
      split; [|split; [|done]].
      * apply entries_spec. simpl. split.
        { rewrite length_app, tail_length. simpl. lia. }
        intros i e Hi.
        destruct (decide (i < length (tail es))%nat) as [Hlt|Hge].
        -- rewrite lookup_app_l in Hi by done. rewrite lookup_tail in Hi.
           rewrite tail_length in Hlt.
           apply (Hold (Z.of_nat i) e); [lia|].
           replace (Z.of_nat i + 1) with (Z.of_nat (S i)) by lia. by apply Hes.
        -- rewrite lookup_app_r in Hi by lia.
           rewrite tail_length in *.
           destruct (i - (length es - 1))%nat as [|k] eqn:Ek; [|done].
           injection Hi as <-.
           replace (Z.of_nat i) with (historyCount s - 1) by lia. exact Hnew.
      * unfold hist_wf. simpl.
        split; [done|]. split; [|split; [lia|split; [done|]]].
        { rewrite (store_cstr_length _ _ _ _ Hst), Hmlen. done. }
        intros j Hj. destruct (decide (j = historyCount s - 1)) as [->|Hne].
        -- exists b. done.
        -- destruct (Hent (j + 1)) as (e & He & Hfe); [lia|].
           exists e. split; [|done]. apply Hold; [lia|done].
  - (* room: the line takes the next slot *)
    unfold when, ret.
    destruct (store_cstr_Some (historyBuffer s) (historyCount s * bufferSize (cfg s)) b)
      as (m' & Hst).
    { nia. } { nia. }
    eexists. split.
    + rewrite (bind_Ok_l (fun s => Ok tt s) _ s tt s eq_refl).
      rewrite (bind_Ok_l get _ s s s eq_refl).
      rewrite (bind_Ok_l _ _ _ _ _ (read_buffer_line _ _ Hl)).
      rewrite (bind_Ok_l (write_history _ _) _ s tt (set_historyBuffer m' s)).
      2:{ unfold write_history. by rewrite Hst. }
      rewrite (bind_Ok_l (modify _) _ _ tt _ eq_refl). reflexivity.
    + assert (forall j e, 0 <= j < historyCount s -> entry s j = Some e ->
                entry (set_historyBuffer m' s) j = Some e) as Hold.
      { intros j e Hj He. destruct (Hent j) as (e' & He' & Hfit'); [lia|].
        rewrite He in He'. injection He' as <-.
        by apply (entry_write_other s (historyCount s) b m' j e); [..|lia|]. }
      assert (entry (set_historyBuffer m' s) (historyCount s) = Some b) as Hnew.
      { by apply (entry_write_same s). }
      split; [|split; [|done]].
      * apply entries_spec. simpl. split.
        { rewrite length_app. simpl. lia. }
        intros i e Hi.
        destruct (decide (i < length es)%nat) as [Hlt|Hge].
        -- rewrite lookup_app_l in Hi by done.
           apply (Hold (Z.of_nat i) e); [lia|]. by apply Hes.
        -- rewrite lookup_app_r in Hi by lia.
           destruct (i - length es)%nat as [|k] eqn:Ek; [|done].
           injection Hi as <-.
           replace (Z.of_nat i) with (historyCount s) by lia. exact Hnew.
      * unfold hist_wf. simpl.
        split; [done|]. split; [|split; [lia|split; [done|]]].
        { rewrite (store_cstr_length _ _ _ _ Hst). done. }
        intros j Hj. destruct (decide (j = historyCount s)) as [->|Hne].
        -- exists b. done.
        -- destruct (Hent j) as (e & He & Hfe); [lia|].
           exists e. split; [|done]. apply Hold; [lia|done].
Qed.

Lemma hist_wf_same s s' : hist_same s s' -> hist_wf s -> hist_wf s'.
Proof.
  intros (Hhb & Hc & Hd & _ & Hbs) (H1 & H2 & H3 & H4 & H5).
  unfold hist_wf, entry. rewrite Hhb, Hc, Hd, Hbs. done.
Qed.

Lemma entries_same s s' : hist_same s s' -> entries s' = entries s.
Proof.
  intros (Hhb & Hc & _ & _ & Hbs). unfold entries, entry. by rewrite Hhb, Hc, Hbs.
Qed.

Lemma fmap_mytolower_length (a b : list Z) :
  mytolower <$> a = mytolower <$> b -> length a = length b.
Proof. intros H. apply (f_equal length) in H. by rewrite !length_fmap in H. Qed.

(** ** Two facts used throughout *)

Lemma Run_returns_runok key s r s' :
  CommandProcessor_Run key s = Ok r s' -> r = runok.
Proof.
  unfold CommandProcessor_Run. intros H.
  repeat (mstep H; try clear E).
  reflexivity.
Qed.

Lemma poke_line_start s b :
  line s = Some b ->
  exists m, poke (buffer s) 0 0 = Some m /\ cstr_at m 0 = Some [].
Proof.
  intros Hl. assert (Hl' := Hl). apply line_block in Hl' as (Hb & rest & Hbuf).
  destruct (poke_truncate b rest 0) as (rest' & Hp).
  { pose proof (strlen_nonneg b). lia. }
  rewrite <- Hbuf in Hp. eexists. split; [exact Hp|].
  rewrite (line_truncate s b 0 _ Hl); [by rewrite take_0| |exact Hp].
  pose proof (strlen_nonneg b). lia.
Qed.

(** * Properties of the code, function by function *)

(** ** The keys that edit the line *)

(** A printable character is none of the bytes that ProcessStandardSequence
    treats on their own, the opening bracket apart. *)
Lemma printable_is_default c :
  myisprint c = true -> c <> 0x5B ->
  ProcessStandardSequence c = (insert c ;; ret runok).
Proof.
  intros Hp Hb. unfold myisprint in Hp. apply andb_prop in Hp as [H1 H2].
  apply Z.leb_le in H1, H2. unfold ProcessStandardSequence, TAB, ESC, BS, CR, LF.
  repeat match goal with
  | |- context [?x =? ?y] => destruct (Z.eqb_spec x y); [lia|]
  end.
  reflexivity.
Qed.

(** A step forward: the first computation of a sequence ends in [Ok]. *)
Ltac mok := apply bind_Ok; eexists _, _; split.

Lemma poke_buffer_fwd s i v m :
  poke (buffer s) i v = Some m -> poke_buffer i v s = Ok tt (set_buffer m s).
Proof. intros H. unfold poke_buffer. by rewrite H. Qed.

Lemma write_buffer_fwd s i t m :
  store_cstr (buffer s) i t = Some m -> write_buffer i t s = Ok tt (set_buffer m s).
Proof. intros H. unfold write_buffer. by rewrite H. Qed.

Lemma read_buffer_fwd s i t :
  cstr_at (buffer s) i = Some t -> read_buffer i s = Ok t s.
Proof. intros H. unfold read_buffer. by rewrite H. Qed.

(** The line buffer as a block: the line, its terminator, and the rest. *)
Lemma line_room s b :
  Z.of_nat (length (buffer s)) = bufferSize (cfg s) ->
  line s = Some b -> strlen b + 1 < bufferSize (cfg s) ->
  exists x rest, buffer s = b ++ 0 :: x :: rest.
Proof.
  intros Hsz Hl Hroom. apply line_block in Hl as (_ & rest & Hb).
  rewrite Hb, length_app in Hsz. simpl in Hsz. unfold strlen in Hroom.
  destruct rest as [|x rest]; [simpl in Hsz; lia|]. by exists x, rest.
Qed.

(** X1: a printable character (other than the opening bracket), typed while
    at least two bytes of the line buffer are free, is appended to the line
    and echoed when the extended line matches at least one registered
    command, and is refused with the bell, the line staying as it was, when
    it matches none.  Registry, configuration, history and callbacks are
    not involved. *)
Theorem X1_printable_key_taken_iff_a_command_matches c s b :
  Z.of_nat (length (buffer s)) = bufferSize (cfg s) ->
  line s = Some b -> keycount s = strlen b ->
  keycount s + 1 < bufferSize (cfg s) ->
  myisprint c = true -> c <> 0x5B ->
  exists s',
    ProcessStandardSequence c s = Ok runok s' /\
    head s' = head s /\ cfg s' = cfg s /\ hist_same s s' /\
    whereInHistory s' = whereInHistory s /\ calls s' = calls s /\
    match hits (caseinsensitive (cfg s)) (b ++ [c]) (head s) with
    | [] => line s' = Some b /\ keycount s' = keycount s /\
            output s' = output s ++ [Putch BELL]
    | _ :: _ => line s' = Some (b ++ [c]) /\ keycount s' = keycount s + 1 /\
                output s' = output s ++ [Putch c]
    end.
Proof.
  intros Hsz Hl Hk Hroom Hpr Hbr.
  pose proof (myisprint_nonzero c Hpr) as Hc0.
  destruct (line_room s b Hsz Hl ltac:(lia)) as (x & rest & Hb).
  pose proof (proj1 (line_block s b) Hl) as (Hnb & _).
  assert (nonul (b ++ [c])) as Hnbc.
  { apply nonul_app. split; [done|]. by repeat constructor. }
  assert ((keycount s <? bufferSize (cfg s)) = true) as Hlt by (apply Z.ltb_lt; lia).
  assert ((strlen (b ++ [c]) =? 0) = false) as Hnz.
  { apply Z.eqb_neq. rewrite strlen_app. pose proof (strlen_nonneg b).
    unfold strlen at 2. simpl. lia. }
  set (s2 := set_buffer ((b ++ [c]) ++ 0 :: rest)
               (set_keycount (keycount s + 1) (set_buffer (b ++ c :: x :: rest) s))).
  assert (forall A (k : M A),
            (poke_buffer (keycount s) c ;;
             modify (set_keycount (keycount s + 1)) ;;
             poke_buffer (keycount s + 1) 0 ;; k) s = k s2) as Hrun.
  { intros A k.
    assert (poke_buffer (keycount s) c s = Ok tt (set_buffer (b ++ c :: x :: rest) s)) as E1.
    { apply poke_buffer_fwd. rewrite Hb, Hk. apply poke_app. }
    rewrite (bind_Ok_l _ _ _ _ _ E1).
    rewrite (bind_Ok_l (modify _) _ _ tt _ eq_refl).
    assert (poke_buffer (keycount s + 1) 0
              (set_keycount (keycount s + 1) (set_buffer (b ++ c :: x :: rest) s))
            = Ok tt s2) as E3.
    { apply poke_buffer_fwd. simpl buffer.
      replace (b ++ c :: x :: rest) with ((b ++ [c]) ++ x :: rest) by by rewrite <- app_assoc.
      rewrite Hk. replace (strlen b + 1) with (strlen (b ++ [c])) by (rewrite strlen_app; reflexivity).
      apply poke_app. }
    by rewrite (bind_Ok_l _ _ _ _ _ E3). }
  assert (line s2 = Some (b ++ [c])) as Hl2.
  { apply line_block. split; [done|]. by exists rest. }
  pose proof (CommandMatches_false s2 (b ++ [c]) Hl2) as Hcm.
  rewrite Hnz, scan_hits in Hcm. cbv zeta in Hcm.
  change (head s2) with (head s) in Hcm.
  change (cfg s2) with (cfg s) in Hcm.
  rewrite (printable_is_default c Hpr Hbr).
  destruct (hits (caseinsensitive (cfg s)) (b ++ [c]) (head s)) as [|m h] eqn:Eh.
  - eexists. split.
    + mok; [|reflexivity]. unfold insert. mok; [reflexivity|].
      cbv beta. rewrite Hpr, Hlt. change (true && true) with true. cbv iota.
      rewrite Hrun.
      mok. { exact Hcm. }
      simpl foundCount. simpl negb. cbv iota.
      mok. { reflexivity. }
      mok. { apply poke_buffer_fwd. simpl buffer.
             rewrite <- app_assoc. simpl app. rewrite Hk. apply poke_app. }
      reflexivity.
    + simpl. repeat split; try done.
      apply line_block. split; [done|]. by eexists.
  - eexists. split.
    + mok; [|reflexivity]. unfold insert. mok; [reflexivity|].
      cbv beta. rewrite Hpr, Hlt. change (true && true) with true. cbv iota.
      rewrite Hrun.
      mok. { exact Hcm. }
      simpl foundCount.
      replace (Z.of_nat (length (m :: h)) =? 0) with false
        by (symmetry; apply Z.eqb_neq; simpl; lia).
      reflexivity.
    + simpl. repeat split; done.
Qed.

Lemma X1_witness :
  exists s',
    ProcessStandardSequence (chr "H") boot = Ok runok s' /\
    head s' = head boot /\ cfg s' = cfg boot /\ hist_same boot s' /\
    whereInHistory s' = whereInHistory boot /\ calls s' = calls boot /\
    match hits (caseinsensitive (cfg boot)) ([] ++ [chr "H"]) (head boot) with
    | [] => line s' = Some [] /\ keycount s' = keycount boot /\
            output s' = output boot ++ [Putch BELL]
    | _ :: _ => line s' = Some ([] ++ [chr "H"]) /\ keycount s' = keycount boot + 1 /\
                output s' = output boot ++ [Putch (chr "H")]
    end.
Proof.
  apply (X1_printable_key_taken_iff_a_command_matches (chr "H") boot []).
  - vm_compute. reflexivity.
  - vm_compute. reflexivity.
  - vm_compute. reflexivity.
  - vm_compute. reflexivity.
  - vm_compute. reflexivity.
  - vm_compute. discriminate.
Defined.

(** ** CommandProcessor_Run when nothing is due before the key *)

Lemma Run_quiet c s :
  quiet s ->
  CommandProcessor_Run (Some c) s =
  (c' <- (if leadinChar s then ProcessComplexSequence c else ret c) ;;
   ProcessStandardSequence c' ;; ret runok) s.
Proof.
  intros [Hb Hp]. unfold CommandProcessor_Run, bind, get, when, ret.
  rewrite Hb, Hp.
  destruct (leadinChar s).
  - destruct (ProcessComplexSequence c s) as [c' s1|u]; [|reflexivity].
    destruct (ProcessStandardSequence c' s1); reflexivity.
  - destruct (ProcessStandardSequence c s); reflexivity.
Qed.

(** ** Backspace and escape *)

(** X2: the backspace key takes the last character off the line and
    erases it on the terminal; on an empty line it sends the bell and
    changes nothing else. *)
Theorem X2_backspace_takes_the_last_character s b :
  line s = Some b -> keycount s = strlen b ->
  exists s',
    ProcessStandardSequence BS s = Ok runok s' /\
    line s' = Some (removelast b) /\ keycount s' = strlen (removelast b) /\
    output s' = output s ++ match b with [] => [Putch BELL] | _ :: _ => erased 1 end /\
    head s' = head s /\ cfg s' = cfg s /\ hist_same s s' /\
    whereInHistory s' = whereInHistory s /\ calls s' = calls s.
Proof.
  intros Hl Hk.
  assert (ProcessStandardSequence BS s =
          (s0 <- get ;;
           (if negb (keycount s0 =? 0) then
              modify (set_keycount (keycount s0 - 1)) ;;
              poke_buffer (keycount s0 - 1) 0 ;; EraseChars 1
            else putch BELL) ;; ret runok) s) as -> by reflexivity.
  destruct b as [|x b'] using rev_ind.
  - eexists. split.
    + mok; [reflexivity|]. cbv beta. rewrite Hk. simpl negb. cbv iota.
      mok; [reflexivity|]. reflexivity.
    + simpl. repeat split; done.
  - clear IHb'.
    pose proof (proj1 (line_block _ _) Hl) as (Hnb & rest & Hb).
    rewrite strlen_app in Hk. change (strlen [x]) with 1 in Hk.
    pose proof (strlen_nonneg b').
    assert ((keycount s =? 0) = false) as Hnz by (apply Z.eqb_neq; lia).
    rewrite removelast_last.
    assert (poke (buffer s) (keycount s - 1) 0 = Some (b' ++ 0 :: 0 :: rest)) as Hp.
    { rewrite Hb, <- app_assoc. simpl app.
      replace (keycount s - 1) with (strlen b') by lia. apply poke_app. }
    eexists. split.
    + mok; [reflexivity|]. cbv beta. rewrite Hnz. simpl negb. cbv iota.
      mok; [|reflexivity].
      mok; [reflexivity|]. mok; [by apply poke_buffer_fwd|].
      apply EraseChars_spec.
    + simpl. split; [|split; [lia|]].
      * apply line_block. apply nonul_app in Hnb as [Hnb _]. split; [done|]. by eexists.
      * destruct (b' ++ [x]) eqn:E; [by destruct b'|]. repeat split; done.
Qed.

Lemma X2_witness :
  exists s',
    ProcessStandardSequence BS he_typed = Ok runok s' /\
    line s' = Some (removelast (lit "He 12")) /\
    keycount s' = strlen (removelast (lit "He 12")) /\
    output s' = output he_typed
                ++ match lit "He 12" with [] => [Putch BELL] | _ :: _ => erased 1 end /\
    head s' = head he_typed /\ cfg s' = cfg he_typed /\ hist_same he_typed s' /\
    whereInHistory s' = whereInHistory he_typed /\ calls s' = calls he_typed.
Proof.
  apply (X2_backspace_takes_the_last_character he_typed (lit "He 12")).
  - vm_compute. reflexivity.
  - vm_compute. reflexivity.
Defined.

Lemma escape_run s x rest :
  buffer s = x :: rest ->
  ProcessStandardSequence ESC s =
  Ok runok (set_buffer (0 :: rest)
             (set_keycount 0
                (set_output (output s ++ erased (Z.to_nat (keycount s))) s))).
Proof.
  intros Hb.
  assert (ProcessStandardSequence ESC s =
          (s0 <- get ;; EraseChars (keycount s0) ;; modify (set_keycount 0) ;;
           poke_buffer 0 0 ;; ret runok) s) as -> by reflexivity.
  unfold bind at 1. unfold get at 1.
  rewrite (bind_Ok_l _ _ _ _ _ (EraseChars_spec _ _)).
  rewrite (bind_Ok_l (modify _) _ _ tt _ eq_refl).
  erewrite (bind_Ok_l (poke_buffer 0 0)); [reflexivity|].
  apply poke_buffer_fwd. simpl buffer. rewrite Hb. reflexivity.
Qed.

(** X3: the escape key, and likewise an up arrow when there is no older
    entry to recall (an empty history, or the navigation index at the
    oldest entry), erases the typed characters on the terminal and empties
    the line; the up arrow also puts the navigation index at 0. *)
Theorem X3_escape_and_exhausted_up_arrow_clear_the_line c s :
  quiet s -> buffer s <> [] ->
  (leadinChar s = false /\ c = ESC) \/
  (leadinChar s = true /\ arrow_up c = true /\
   (historyCount s = 0 \/ whereInHistory s <= 0)) ->
  exists s',
    CommandProcessor_Run (Some c) s = Ok runok s' /\
    line s' = Some [] /\ keycount s' = 0 /\
    output s' = output s ++ erased (Z.to_nat (keycount s)) /\
    leadinChar s' = false /\
    whereInHistory s' = (if leadinChar s then 0 else whereInHistory s) /\
    head s' = head s /\ cfg s' = cfg s /\ hist_same s s' /\ calls s' = calls s.
Proof.
  intros Hq Hb Hc. rewrite (Run_quiet c s Hq).
  destruct (buffer s) as [|x rest] eqn:Eb; [done|]. clear Hb.
  destruct Hc as [(Hlead & ->)|(Hlead & Hup & Hno)]; rewrite Hlead.
  - eexists. split.
    + mok; [reflexivity|]. mok; [by apply (escape_run s x rest)|]. reflexivity.
    + simpl. rewrite Hlead. repeat split; done.
  - assert (ProcessComplexSequence c s = Ok ESC (set_leadinChar false (set_whereInHistory 0
              (if negb (historyCount s =? 0)
               then set_whereInHistory (whereInHistory s - 1) s else s)))) as Hpcs.
    { unfold ProcessComplexSequence. unfold arrow_up in Hup.
      unfold bind at 1. unfold get at 1.
      assert (((c =? 66) || (c =? 80)) = false) as ->.
      { apply orb_true_iff in Hup as [H|H]; apply Z.eqb_eq in H; subst c; reflexivity. }
      rewrite Hup.
      destruct (Z.eqb_spec (historyCount s) 0) as [Hz|Hz]; simpl negb; cbv iota.
      - reflexivity.
      - destruct Hno as [?|Hw]; [done|].
        unfold bind at 1. unfold bind at 1. unfold modify at 1.
        destruct (Z.leb_spec 0 (whereInHistory s - 1)); [lia|]. reflexivity. }
    eexists. split.
    + mok; [exact Hpcs|]. mok; [|reflexivity].
      apply (escape_run _ x rest). by destruct (negb (historyCount s =? 0)).
    + destruct (negb (historyCount s =? 0)); simpl; repeat split; done.
Qed.

Lemma X3_witness :
  exists s',
    CommandProcessor_Run (Some ESC) he_typed = Ok runok s' /\
    line s' = Some [] /\ keycount s' = 0 /\
    output s' = output he_typed ++ erased (Z.to_nat (keycount he_typed)) /\
    leadinChar s' = false /\
    whereInHistory s' = (if leadinChar he_typed then 0 else whereInHistory he_typed) /\
    head s' = head he_typed /\ cfg s' = cfg he_typed /\ hist_same he_typed s' /\
    calls s' = calls he_typed.
Proof.
  apply (X3_escape_and_exhausted_up_arrow_clear_the_line ESC he_typed).
  - split; vm_compute; reflexivity.
  - vm_compute. discriminate.
  - left. split; vm_compute; reflexivity.
Defined.

(** X4: an escape sequence whose final byte is not one of the four arrow
    codes is ignored altogether: after the lead-in byte (0x5B or 0xE0) and
    that byte, the statics are exactly what they were, and nothing was
    sent to the terminal.  In particular the byte after a lead-in is never
    taken as a character of the line or as a carriage return. *)
Theorem X4_unknown_sequence_is_ignored lead c s :
  quiet s -> leadinChar s = false ->
  lead = 0x5B \/ lead = 0xE0 ->
  arrow_up c = false -> arrow_down c = false ->
  session [lead; c] s = Ok tt s.
Proof.
  intros Hq Hl Hlead Hup Hdn.
  assert (CommandProcessor_Run (Some lead) s = Ok runok (set_leadinChar true s)) as E1.
  { rewrite (Run_quiet lead s Hq), Hl. destruct Hlead as [-> | ->]; reflexivity. }
  assert (quiet (set_leadinChar true s)) as Hq' by exact Hq.
  assert (CommandProcessor_Run (Some c) (set_leadinChar true s) = Ok runok s) as E2.
  { rewrite (Run_quiet c _ Hq'). simpl leadinChar. cbv iota.
    unfold ProcessComplexSequence. unfold bind at 1. unfold bind at 1. unfold get at 1.
    unfold arrow_up in Hup. unfold arrow_down in Hdn. rewrite Hup, Hdn.
    unfold bind, ret, modify. simpl. destruct s. simpl in Hl. by rewrite Hl. }
  unfold session. rewrite (bind_Ok_l _ _ _ _ _ E1), (bind_Ok_l _ _ _ _ _ E2). reflexivity.
Qed.

Lemma X4_witness : session [0xE0; chr "K"] he_typed = Ok tt he_typed.
Proof.
  apply (X4_unknown_sequence_is_ignored 0xE0 (chr "K") he_typed).
  - split; vm_compute; reflexivity.
  - vm_compute. reflexivity.
  - by right.
  - vm_compute. reflexivity.
  - vm_compute. reflexivity.
Defined.

(** ** The arrow keys *)

Lemma recall_run i s e :
  0 <= i -> 0 <= bufferSize (cfg s) ->
  entry s i = Some e ->
  strlen e + 1 <= Z.of_nat (length (buffer s)) ->
  exists m,
    store_cstr (buffer s) 0 e = Some m /\
    cstr_at m 0 = Some e /\
    recall i s =
    Ok tt (set_keycount (strlen e)
             (set_output (output s ++ erased (Z.to_nat (keycount s)) ++ echoed e)
                (set_buffer m s))).
Proof.
  intros Hi Hsz He Hfit.
  destruct (store_cstr_Some (buffer s) 0 e ltac:(lia) ltac:(lia)) as (m & Hm).
  pose proof (cstr_at_nonul _ _ _ He) as Hne.
  pose proof (cstr_at_store_same _ _ _ _ Hm Hne) as Hl.
  exists m. split; [done|]. split; [done|].
  unfold recall. unfold bind at 1. unfold get at 1.
  rewrite (bind_Ok_l _ _ _ _ _ (EraseChars_spec _ _)).
  set (s1 := set_output _ s).
  assert (read_history i s1 = Ok e s1) as E2.
  { apply read_history_entry; [simpl; nia|]. done. }
  rewrite (bind_Ok_l _ _ _ _ _ E2).
  rewrite (bind_Ok_l _ _ _ _ _ (write_buffer_fwd s1 0 e m Hm)).
  rewrite (bind_Ok_l _ _ _ _ _ (read_buffer_fwd (set_buffer m s1) 0 e Hl)).
  rewrite (bind_Ok_l _ _ _ _ _ (EchoString_spec _ _)).
  erewrite (bind_Ok_l (read_buffer 0)); cycle 1.
  { apply read_buffer_fwd. exact Hl. }
  unfold modify. subst s1. simpl. by rewrite <- app_assoc.
Qed.

(** X5: after a lead-in byte, a down arrow with the navigation index below
    the count recalls the entry at the index and then advances the index; an
    up arrow with an older entry left steps the index back and recalls the
    entry there.  The recalled entry replaces the line: the typed characters
    are erased on the terminal, the entry is printed, and the line and its
    length are those of the entry. *)
Theorem X5_arrow_keys_recall_an_entry c s i e :
  quiet s -> leadinChar s = true ->
  Z.of_nat (length (buffer s)) = bufferSize (cfg s) ->
  (arrow_down c = true /\ i = whereInHistory s /\ 0 <= i < historyCount s) \/
  (arrow_up c = true /\ i = whereInHistory s - 1 /\ 0 <= i /\ historyCount s <> 0) ->
  entry s i = Some e -> strlen e < bufferSize (cfg s) ->
  exists s',
    CommandProcessor_Run (Some c) s = Ok runok s' /\
    line s' = Some e /\ keycount s' = strlen e /\
    output s' = output s ++ erased (Z.to_nat (keycount s)) ++ echoed e /\
    whereInHistory s' = (if arrow_down c then i + 1 else i) /\
    leadinChar s' = false /\
    head s' = head s /\ cfg s' = cfg s /\ hist_same s s' /\ calls s' = calls s.
Proof.
  intros Hq Hlead Hsz Hc He Hfit. rewrite (Run_quiet c s Hq), Hlead.
  assert (0 <= i) as Hi by (destruct Hc as [(_ & _ & ?)|(_ & _ & ? & _)]; lia).
  destruct (recall_run i s e Hi ltac:(lia) He ltac:(lia)) as (m & Hm & Hl & Hrc).
  destruct Hc as [(Hdn & -> & Hlt)|(Hup & -> & _ & Hnz)].
  - assert ((negb (historyCount s =? 0) && (whereInHistory s <? historyCount s)) = true) as Hcond.
    { apply andb_true_iff. split; [apply negb_true_iff, Z.eqb_neq; lia|apply Z.ltb_lt; lia]. }
    eexists. split.
    + mok.
      { unfold ProcessComplexSequence.
        mok; [reflexivity|]. cbv beta. unfold arrow_down in Hdn. rewrite Hdn, Hcond.
        mok.
        { mok. { mok; [exact Hrc|]. reflexivity. } reflexivity. }
        reflexivity. }
      reflexivity.
    + rewrite Hdn. simpl. repeat split; done.
  - assert (arrow_down c = false) as Hdn.
    { unfold arrow_up in Hup. unfold arrow_down.
      apply orb_true_iff in Hup as [H|H]; apply Z.eqb_eq in H; subst c; reflexivity. }
    destruct (recall_run (whereInHistory s - 1) (set_whereInHistory (whereInHistory s - 1) s) e
                Hi ltac:(simpl; lia) He ltac:(simpl; lia)) as (m' & Hm' & _ & Hrc').
    simpl in Hm'. rewrite Hm in Hm'. injection Hm' as <-.
    eexists. split.
    + mok.
      { unfold ProcessComplexSequence.
        mok; [reflexivity|]. cbv beta. unfold arrow_down in Hdn. unfold arrow_up in Hup.
        rewrite Hdn, Hup.
        replace (negb (historyCount s =? 0)) with true
          by (symmetry; apply negb_true_iff, Z.eqb_neq; lia).
        mok.
        { mok; [reflexivity|].
          replace (0 <=? whereInHistory s - 1) with true by (symmetry; apply Z.leb_le; lia).
          mok; [|reflexivity]. exact Hrc'. }
        reflexivity. }
      reflexivity.
    + rewrite Hdn. simpl. repeat split; done.
Qed.

Lemma X5_witness :
  exists s',
    CommandProcessor_Run (Some 0x50) help_leadin = Ok runok s' /\
    line s' = Some (lit "Help") /\ keycount s' = strlen (lit "Help") /\
    output s' = output help_leadin ++ erased (Z.to_nat (keycount help_leadin))
                ++ echoed (lit "Help") /\
    whereInHistory s' = (if arrow_down 0x50 then 0 + 1 else 0) /\
    leadinChar s' = false /\
    head s' = head help_leadin /\ cfg s' = cfg help_leadin /\
    hist_same help_leadin s' /\ calls s' = calls help_leadin.
Proof.
  apply (X5_arrow_keys_recall_an_entry 0x50 help_leadin 0 (lit "Help")).
  - split; vm_compute; reflexivity.
  - vm_compute. reflexivity.
  - vm_compute. reflexivity.
  - left. split; [vm_compute; reflexivity|]. split; [vm_compute; reflexivity|].
    vm_compute. split; [discriminate|reflexivity].
  - vm_compute. reflexivity.
  - vm_compute. reflexivity.
Defined.

(** ** Bytes that are neither printable nor handled *)

(** X28: a byte that is not printable and is none of the bytes handled on
    their own (zero, the two lead-in bytes, tab, escape, backspace, carriage
    return, line feed) only sends the bell: the delete byte 0x7F, for one,
    is not taken as a backspace.  The statics stay as they are. *)
Theorem X28_other_bytes_ring_the_bell c s :
  myisprint c = false ->
  c <> 0 -> c <> 0xE0 -> c <> TAB -> c <> ESC -> c <> BS -> c <> CR -> c <> LF ->
  ProcessStandardSequence c s = Ok runok (set_output (output s ++ [Putch BELL]) s).
Proof.
  intros Hp H0 HE Ht Hes Hbs Hcr Hlf.
  assert (c <> 0x5B) as Hbr by (intros ->; discriminate Hp).
  unfold ProcessStandardSequence.
  repeat match goal with
  | |- context [?x =? ?y] => destruct (Z.eqb_spec x y); [done|]
  end.
  simpl orb. cbv iota. unfold insert, bind, get. rewrite Hp. reflexivity.
Qed.

Lemma X28_witness :
  ProcessStandardSequence 0x7F he_typed
  = Ok runok (set_output (output he_typed ++ [Putch BELL]) he_typed).
Proof.
  apply (X28_other_bytes_ring_the_bell 0x7F he_typed); [reflexivity|discriminate..].
Defined.

(** ** mystrcat and the tab key *)

Lemma mystrcat_seek_cstr m : forall i d,
  cstr m = Some d -> mystrcat_seek m i = Some (i + strlen d).
Proof.
  induction m as [|c m IH]; intros i d H; simpl in H; [done|].
  simpl. destruct (c =? 0).
  - injection H as <-. f_equal. unfold strlen. simpl. lia.
  - destruct (cstr m) as [t|] eqn:E; [|done]. simpl in H. injection H as <-.
    rewrite (IH (i + 1) t eq_refl). f_equal. unfold strlen. simpl length. lia.
Qed.

Lemma poke_insert m i v :
  0 <= i < Z.of_nat (length m) ->
  poke m i v = Some (take (Z.to_nat i) m ++ v :: drop (S (Z.to_nat i)) m).
Proof.
  intros H. unfold poke.
  destruct (Z.leb_spec 0 i); [|lia]. destruct (Z.ltb_spec i (Z.of_nat (length m))); [|lia].
  simpl. f_equal. apply insert_take_drop. lia.
Qed.

Lemma poke_outside m i v : Z.of_nat (length m) <= i -> poke m i v = None.
Proof.
  intros H. unfold poke. destruct (Z.ltb_spec i (Z.of_nat (length m))); [lia|].
  by rewrite andb_false_r.
Qed.

Lemma mystrcat_copy_store src : forall m i,
  0 <= i -> mystrcat_copy m i src = store_cstr m i src.
Proof.
  induction src as [|c src IH]; intros m i Hi; simpl.
  - unfold store_cstr. change (strlen []) with 0.
    destruct (Z.leb_spec 0 i); [|lia].
    destruct (Z.leb_spec (i + 0 + 1) (Z.of_nat (length m))); simpl.
    + rewrite poke_insert by lia.
      by replace (Z.to_nat (i + 0 + 1)) with (S (Z.to_nat i)) by lia.
    + apply poke_outside. lia.
  - unfold store_cstr. destruct (Z.leb_spec 0 i); [|lia].
    assert (strlen (c :: src) = strlen src + 1) as Hs by (unfold strlen; simpl length; lia).
    pose proof (strlen_nonneg src) as Hn.
    destruct (Z.ltb_spec i (Z.of_nat (length m))) as [Hlt|Hge].
    + rewrite poke_insert by lia. rewrite IH by lia. unfold store_cstr.
      destruct (Z.leb_spec 0 (i + 1)); [|lia].
      assert (length (take (Z.to_nat i) m ++ c :: drop (S (Z.to_nat i)) m) = length m) as Hlen.
      { rewrite length_app, length_take. simpl. rewrite length_drop. lia. }
      rewrite Hlen, Hs.
      replace (i + 1 + strlen src + 1) with (i + (strlen src + 1) + 1) by lia.
      destruct (Z.leb_spec (i + (strlen src + 1) + 1) (Z.of_nat (length m))); simpl; [|done].
      f_equal.
      replace (Z.to_nat (i + 1)) with (length (take (Z.to_nat i) m ++ [c]))
        by (rewrite length_app, length_take; simpl; lia).
      replace (take (Z.to_nat i) m ++ c :: drop (S (Z.to_nat i)) m)
        with ((take (Z.to_nat i) m ++ [c]) ++ drop (S (Z.to_nat i)) m)
        by by rewrite <- app_assoc.
      rewrite take_app_length.
      rewrite drop_app_ge by (rewrite length_app, length_take; simpl; unfold strlen in *; lia).
      rewrite drop_drop, <- app_assoc. simpl. do 3 f_equal.
      do 2 f_equal. rewrite length_app, length_take. simpl. unfold strlen in *. lia.
    + rewrite poke_outside by lia. rewrite Hs.
      destruct (Z.leb_spec (i + (strlen src + 1) + 1) (Z.of_nat (length m))); [lia|done].
Qed.

Lemma mystrcat_store m d src :
  cstr_at m 0 = Some d -> mystrcat m src = store_cstr m (strlen d) src.
Proof.
  intros H. unfold cstr_at in H. simpl in H. rewrite drop_0 in H.
  unfold mystrcat. rewrite (mystrcat_seek_cstr m 0 d H). simpl.
  apply mystrcat_copy_store. apply strlen_nonneg.
Qed.

(** X6: mystrcat, on a block that holds the string [d] at its start, puts
    the string [d] followed by the source there when the block has room for
    both and the terminator; the size of the block and its bytes behind the
    new terminator stay as they were.  When the block has no room, mystrcat
    writes past its end. *)
Theorem X6_mystrcat_appends_or_overruns m d src :
  cstr_at m 0 = Some d -> nonul src ->
  if strlen d + strlen src + 1 <=? Z.of_nat (length m)
  then exists m',
         mystrcat m src = Some m' /\
         cstr_at m' 0 = Some (d ++ src) /\
         length m' = length m /\
         drop (length d + length src + 1) m' = drop (length d + length src + 1) m
  else mystrcat m src = None.
Proof.
  intros Hd Hsrc. rewrite (mystrcat_store m d src Hd).
  pose proof (strlen_nonneg d) as Hn.
  destruct (Z.leb_spec (strlen d + strlen src + 1) (Z.of_nat (length m))) as [Hfit|Hno].
  - destruct (store_cstr_Some m (strlen d) src Hn Hfit) as (m' & Hm').
    exists m'. split; [done|].
    pose proof (proj1 (cstr_at_Some _ _ _) Hd) as (_ & Hnd & pre & rest & Hm & Hpre).
    apply strlen_nil_iff in Hpre. subst pre. simpl in Hm.
    unfold store_cstr in Hm'.
    destruct ((0 <=? strlen d) && (strlen d + strlen src + 1 <=? Z.of_nat (length m)));
      [|done].
    injection Hm' as <-.
    assert (take (Z.to_nat (strlen d)) m = d) as Ht.
    { rewrite Hm. unfold strlen. rewrite Nat2Z.id. by rewrite take_app_length. }
    rewrite Ht. split; [|split].
    + rewrite app_assoc. apply (cstr_at_app [] (d ++ src)). by apply nonul_app.
    + rewrite !length_app. simpl. rewrite length_drop. unfold strlen in *. lia.
    + replace (d ++ src ++ 0 :: drop (Z.to_nat (strlen d + strlen src + 1)) m)
        with ((d ++ src ++ [0]) ++ drop (Z.to_nat (strlen d + strlen src + 1)) m)
        by (rewrite <- !app_assoc; reflexivity).
      rewrite drop_app_length'; [|rewrite !length_app; simpl; lia].
      f_equal. unfold strlen. lia.
  - unfold store_cstr. destruct (Z.leb_spec (strlen d + strlen src + 1) (Z.of_nat (length m)));
      [lia|]. by rewrite andb_false_r.
Qed.

Lemma X6_witness :
  if strlen (lit "He") + strlen (lit "lp") + 1 <=? Z.of_nat (length (lit "He" ++ [0; 7; 7; 7]))
  then exists m',
         mystrcat (lit "He" ++ [0; 7; 7; 7]) (lit "lp") = Some m' /\
         cstr_at m' 0 = Some (lit "He" ++ lit "lp") /\
         length m' = length (lit "He" ++ [0; 7; 7; 7]) /\
         drop (length (lit "He") + length (lit "lp") + 1) m'
         = drop (length (lit "He") + length (lit "lp") + 1) (lit "He" ++ [0; 7; 7; 7])
  else mystrcat (lit "He" ++ [0; 7; 7; 7]) (lit "lp") = None.
Proof.
  apply (X6_mystrcat_appends_or_overruns (lit "He" ++ [0; 7; 7; 7]) (lit "He") (lit "lp")).
  - vm_compute. reflexivity.
  - repeat constructor; discriminate.
Defined.

Lemma tab_is_complete s : ProcessStandardSequence TAB s = (complete ;; ret runok) s.
Proof. reflexivity. Qed.

(** CommandMatches without the wish to execute, on a non-empty line with
    exactly one matching command. *)
Lemma CommandMatches_false_one s b m :
  line s = Some b -> b <> [] ->
  hits (caseinsensitive (cfg s)) b (head s) = [m] ->
  CommandMatches false s = Ok (mkFound 1 (Some m) (Some (params_of b))) s.
Proof.
  intros Hl Hb Hh. rewrite (CommandMatches_false s b Hl).
  assert ((strlen b =? 0) = false) as ->.
  { apply Z.eqb_neq. intros H. by apply strlen_nil_iff in H. }
  rewrite scan_hits, Hh. reflexivity.
Qed.

(** X7: the tab key, on a line that exactly one command matches and whose
    command part is shorter than that command's name, appends to the line
    (by mystrcat) what the name has beyond the length of the line.  When
    the name is shorter than the line buffer, the appended text is printed
    and the line then has the length of the name; on a line without a space
    under the case-sensitive rule the line becomes the name.  When the name
    is as long as the line buffer or longer, the append writes beyond the
    end of the line buffer: the name is copied without any test of its
    length. *)
Theorem X7_tab_completes_the_name s b m :
  Z.of_nat (length (buffer s)) = bufferSize (cfg s) ->
  line s = Some b -> b <> [] ->
  hits (caseinsensitive (cfg s)) b (head s) = [m] ->
  nonul (command m) ->
  compareLength_of b < strlen (command m) ->
  strlen b <= strlen (command m) ->
  (bufferSize (cfg s) <= strlen (command m) ->
   ProcessStandardSequence TAB s = Fault (BadWrite BufferBlk (strlen b))) /\
  (strlen (command m) < bufferSize (cfg s) ->
   exists s',
    ProcessStandardSequence TAB s = Ok runok s' /\
    line s' = Some (b ++ drop (length b) (command m)) /\
    keycount s' = strlen (command m) /\
    output s' = output s ++ echoed (drop (length b) (command m)) /\
    mystrcat (buffer s) (drop (length b) (command m)) = Some (buffer s') /\
    (SPACE ∉ b -> caseinsensitive (cfg s) = false ->
     b ++ drop (length b) (command m) = command m) /\
    head s' = head s /\ cfg s' = cfg s /\ hist_same s s' /\
    whereInHistory s' = whereInHistory s /\ calls s' = calls s).
Proof.
  intros Hsz Hl Hb Hh Hnm Hn Hle.
  set (p := drop (length b) (command m)).
  assert (nonul p) as Hnp.
  { unfold p, nonul. apply Forall_drop. exact Hnm. }
  assert (strlen b + strlen p = strlen (command m)) as Hlen.
  { unfold p, strlen in *. rewrite length_drop. lia. }
  pose proof (strlen_nonneg b) as Hb0.
  split; intros Hfit.
  { rewrite tab_is_complete. apply bind_Fault_l. unfold complete.
    rewrite (bind_Ok_l _ _ _ _ _ (CommandMatches_false_one s b m Hl Hb Hh)).
    cbv beta. cbn [foundCount menu]. change (1 =? 1) with true. cbv iota.
    rewrite (bind_Ok_l _ _ _ _ _ (read_buffer_line s b Hl)).
    replace (compareLength_of b <? strlen (command m)) with true
      by (symmetry; apply Z.ltb_lt; lia).
    replace (strlen b <=? strlen (command m)) with true by (symmetry; apply Z.leb_le; lia).
    replace (Z.to_nat (strlen b)) with (length b) by (unfold strlen; lia).
    fold p. apply bind_Fault_l. unfold write_buffer, store_cstr.
    replace (strlen b + strlen p + 1 <=? Z.of_nat (length (buffer s))) with false
      by (symmetry; apply Z.leb_gt; lia).
    by rewrite andb_false_r. }
  destruct (store_cstr_Some (buffer s) (strlen b) p Hb0 ltac:(lia)) as (buf & Hst).
  pose proof (line_extend s b p buf Hl Hnp Hst) as Hl'.
  exists (set_output (output s ++ echoed p) (set_keycount (strlen (b ++ p)) (set_buffer buf s))).
  split.
  - rewrite tab_is_complete. mok; [|reflexivity]. unfold complete.
    mok; [exact (CommandMatches_false_one s b m Hl Hb Hh)|]. simpl foundCount. simpl menu.
    change (1 =? 1) with true. cbv iota.
    mok; [exact (read_buffer_line s b Hl)|]. cbv beta zeta.
    replace (compareLength_of b <? strlen (command m)) with true
      by (symmetry; apply Z.ltb_lt; lia).
    replace (strlen b <=? strlen (command m)) with true by (symmetry; apply Z.leb_le; lia).
    replace (Z.to_nat (strlen b)) with (length b) by (unfold strlen; lia).
    fold p.
    mok; [exact (write_buffer_fwd s (strlen b) p buf Hst)|].
    mok; [apply read_buffer_fwd; exact Hl'|].
    mok; [reflexivity|].
    exact (EchoString_spec p (set_keycount (strlen (b ++ p)) (set_buffer buf s))).
  - simpl. split; [exact Hl'|]. split; [rewrite strlen_app; lia|]. split; [done|].
    split; [by rewrite (mystrcat_store (buffer s) b p Hl)|].
    split; [|repeat split; done].
    intros Hsp Hci.
    assert (m ∈ hits (caseinsensitive (cfg s)) b (head s)) as Hin
      by (rewrite Hh; apply list_elem_of_singleton; reflexivity).
    apply hits_elem in Hin as [_ Hm]. rewrite Hci in Hm.
    pose proof (proj1 (line_block _ _) Hl) as (Hnb & _).
    apply matches_iff in Hm; [|done]. unfold fold_case in Hm.
    destruct (line_parts b) as [(_ & Ht & _)|(_ & Hsp')].
    + rewrite Ht, (compareLength_of_nospace b Hsp) in Hm.
      unfold strlen in Hm. rewrite Nat2Z.id in Hm.
      unfold p. rewrite Hm at 1. apply take_drop.
    + exfalso. apply Hsp. rewrite Hsp'. apply elem_of_app. right. left.
Qed.

Lemma X7_witness :
  ProcessStandardSequence TAB (state_of (session (lit "H") boot6))
  = Fault (BadWrite BufferBlk (strlen (lit "H"))) /\
  exists s',
    ProcessStandardSequence TAB (state_of (session (lit "Hi") boot)) = Ok runok s' /\
    line s' = Some (lit "Hi" ++ drop (length (lit "Hi")) (command HistoryMenu)) /\
    keycount s' = strlen (command HistoryMenu) /\
    output s' = output (state_of (session (lit "Hi") boot))
                ++ echoed (drop (length (lit "Hi")) (command HistoryMenu)) /\
    mystrcat (buffer (state_of (session (lit "Hi") boot)))
      (drop (length (lit "Hi")) (command HistoryMenu)) = Some (buffer s') /\
    (SPACE ∉ lit "Hi" -> caseinsensitive (cfg (state_of (session (lit "Hi") boot))) = false ->
     lit "Hi" ++ drop (length (lit "Hi")) (command HistoryMenu) = command HistoryMenu) /\
    head s' = head (state_of (session (lit "Hi") boot)) /\
    cfg s' = cfg (state_of (session (lit "Hi") boot)) /\
    hist_same (state_of (session (lit "Hi") boot)) s' /\
    whereInHistory s' = whereInHistory (state_of (session (lit "Hi") boot)) /\
    calls s' = calls (state_of (session (lit "Hi") boot)).
Proof.
  split.
  - apply (X7_tab_completes_the_name (state_of (session (lit "H") boot6)) (lit "H")
             (user_cmd "History6")).
    + vm_compute. reflexivity.
    + vm_compute. reflexivity.
    + discriminate.
    + vm_compute. reflexivity.
    + repeat constructor; discriminate.
    + vm_compute. reflexivity.
    + vm_compute. discriminate.
    + vm_compute. discriminate.
  - apply (X7_tab_completes_the_name (state_of (session (lit "Hi") boot)) (lit "Hi") HistoryMenu).
    + vm_compute. reflexivity.
    + vm_compute. reflexivity.
    + discriminate.
    + vm_compute. reflexivity.
    + repeat constructor; discriminate.
    + vm_compute. reflexivity.
    + vm_compute. discriminate.
    + vm_compute. reflexivity.
Defined.

(** X8: the tab key changes nothing and prints nothing (not even the bell)
    on an empty line, on a line that no command or more than one command
    matches, and on a line whose command part is already as long as the
    name of the one matching command. *)
Theorem X8_tab_without_effect s b :
  line s = Some b ->
  b = [] \/
  length (hits (caseinsensitive (cfg s)) b (head s)) <> 1%nat \/
  (exists m, hits (caseinsensitive (cfg s)) b (head s) = [m] /\
             strlen (command m) <= compareLength_of b) ->
  ProcessStandardSequence TAB s = Ok runok s.
Proof.
  intros Hl Hc. rewrite tab_is_complete.
  enough (complete s = Ok tt s) as E by (unfold bind; by rewrite E).
  pose proof (CommandMatches_false s b Hl) as Hcm. unfold complete.
  destruct (Z.eqb_spec (strlen b) 0) as [Hz|Hz].
  { by rewrite (bind_Ok_l _ _ _ _ _ Hcm). }
  rewrite scan_hits in Hcm. cbv zeta in Hcm. rewrite (bind_Ok_l _ _ _ _ _ Hcm).
  destruct Hc as [->|[Hne|(m & Hh & Hlen)]]; [done| |].
  - cbv beta. cbn [foundCount menu].
    replace (Z.of_nat (length (hits (caseinsensitive (cfg s)) b (head s))) =? 1) with false
      by (symmetry; apply Z.eqb_neq; lia).
    reflexivity.
  - rewrite Hh. cbv beta. cbn [foundCount menu length last]. change (Z.of_nat 1 =? 1) with true. cbv iota.
    rewrite (bind_Ok_l _ _ _ _ _ (read_buffer_line s b Hl)).
    replace (compareLength_of b <? strlen (command m)) with false
      by (symmetry; apply Z.ltb_ge; lia).
    reflexivity.
Qed.

Lemma X8_witness : ProcessStandardSequence TAB go_typed = Ok runok go_typed.
Proof.
  apply (X8_tab_without_effect go_typed (lit "Go")).
  - vm_compute. reflexivity.
  - right. left. vm_compute. discriminate.
Defined.

(** X9: the tab key on a line that is longer than the name of the one
    command it matches, while its command part is shorter than that name
    (a prefix of the name followed by parameters), takes [name + strlen
    (line)] as the text to append: a read behind the terminator of the
    name. *)
Theorem X9_tab_reads_behind_the_name s b m :
  line s = Some b ->
  hits (caseinsensitive (cfg s)) b (head s) = [m] ->
  compareLength_of b < strlen (command m) ->
  strlen (command m) < strlen b ->
  ProcessStandardSequence TAB s = Fault (BadRead CommandBlk (strlen b)).
Proof.
  intros Hl Hh Hn Hlong. rewrite tab_is_complete.
  assert (b <> []) as Hb.
  { intros ->. pose proof (strlen_nonneg (command m)). change (strlen []) with 0 in Hlong. lia. }
  enough (complete s = Fault (BadRead CommandBlk (strlen b))) as E
    by (unfold bind; by rewrite E).
  unfold complete.
  rewrite (bind_Ok_l _ _ _ _ _ (CommandMatches_false_one s b m Hl Hb Hh)).
  cbv beta. cbn [foundCount menu]. change (1 =? 1) with true. cbv iota.
  rewrite (bind_Ok_l _ _ _ _ _ (read_buffer_line s b Hl)).
  replace (compareLength_of b <? strlen (command m)) with true
    by (symmetry; apply Z.ltb_lt; lia).
  replace (strlen b <=? strlen (command m)) with false by (symmetry; apply Z.leb_gt; lia).
  reflexivity.
Qed.

Lemma X9_witness :
  ProcessStandardSequence TAB he_typed = Fault (BadRead CommandBlk (strlen (lit "He 12"))).
Proof.
  apply (X9_tab_reads_behind_the_name he_typed (lit "He 12") HelpMenu).
  - vm_compute. reflexivity.
  - vm_compute. reflexivity.
  - vm_compute. reflexivity.
  - vm_compute. reflexivity.
Defined.

(** ** CommandMatches and the carriage return without a unique match *)

Lemma CommandMatches_count exec s b :
  line s = Some b ->
  exec = false \/ length (hits (caseinsensitive (cfg s)) b (head s)) <> 1%nat ->
  CommandMatches exec s =
  Ok (match b with
      | [] => mkFound 0 None None
      | _ :: _ =>
        let h := hits (caseinsensitive (cfg s)) b (head s) in
        mkFound (Z.of_nat (length h)) (last h)
                (match h with [] => None | _ :: _ => Some (params_of b) end)
      end) s.
Proof.
  intros Hl Hc.
  assert (CommandMatches false s =
          Ok (match b with
              | [] => mkFound 0 None None
              | _ :: _ =>
                let h := hits (caseinsensitive (cfg s)) b (head s) in
                mkFound (Z.of_nat (length h)) (last h)
                        (match h with [] => None | _ :: _ => Some (params_of b) end)
              end) s) as Hf.
  { rewrite (CommandMatches_false s b Hl). destruct b as [|x b]; [reflexivity|].
    replace (strlen (x :: b) =? 0) with false
      by (symmetry; apply Z.eqb_neq; unfold strlen; simpl length; lia).
    by rewrite scan_hits. }
  destruct exec; [|exact Hf]. destruct Hc as [?|Hne]; [done|]. clear Hf.
  unfold CommandMatches.
  rewrite (bind_Ok_l _ _ _ _ _ (read_buffer_line s b Hl)).
  destruct b as [|x b]; [reflexivity|].
  replace (strlen (x :: b) =? 0) with false
    by (symmetry; apply Z.eqb_neq; unfold strlen; simpl length; lia).
  unfold bind at 1. unfold get at 1.
  fold (scan s (x :: b)). rewrite scan_hits. cbv zeta. cbn [menu foundCount].
  replace (Z.of_nat (length (hits (caseinsensitive (cfg s)) (x :: b) (head s))) =? 1) with false
    by (symmetry; apply Z.eqb_neq; lia).
  by destruct (last (hits (caseinsensitive (cfg s)) (x :: b) (head s))).
Qed.

(** X10: CommandMatches returns the number of registered commands that the
    line matches, hands back the last of them in registry order and the
    offset of the parameters, and on an empty line returns 0 without
    looking at the registry.  Called to validate, or when the line matches
    no command or several, it changes none of the statics and prints
    nothing.  A command is matched when its name and the line agree, under
    the configured case rule, on as many characters as the line has before
    its first space. *)
Theorem X10_CommandMatches_counts_the_matching_commands exec s b :
  line s = Some b ->
  exec = false \/ length (hits (caseinsensitive (cfg s)) b (head s)) <> 1%nat ->
  CommandMatches exec s =
  Ok (match b with
      | [] => mkFound 0 None None
      | _ :: _ =>
        let h := hits (caseinsensitive (cfg s)) b (head s) in
        mkFound (Z.of_nat (length h)) (last h)
                (match h with [] => None | _ :: _ => Some (params_of b) end)
      end) s /\
  forall m, m ∈ hits (caseinsensitive (cfg s)) b (head s) <->
    m ∈ head s /\
    fold_case (caseinsensitive (cfg s)) (typed_of b)
    = fold_case (caseinsensitive (cfg s))
        (take (Z.to_nat (compareLength_of b)) (command m)).
Proof.
  intros Hl Hc. split; [exact (CommandMatches_count exec s b Hl Hc)|].
  intros m. rewrite hits_elem.
  pose proof (proj1 (line_block _ _) Hl) as (Hnb & _).
  by rewrite (matches_iff _ b m Hnb).
Qed.

Lemma X10_witness :
  CommandMatches true go_typed =
  Ok (match lit "Go" with
      | [] => mkFound 0 None None
      | _ :: _ =>
        let h := hits (caseinsensitive (cfg go_typed)) (lit "Go") (head go_typed) in
        mkFound (Z.of_nat (length h)) (last h)
                (match h with [] => None | _ :: _ => Some (params_of (lit "Go")) end)
      end) go_typed /\
  forall m, m ∈ hits (caseinsensitive (cfg go_typed)) (lit "Go") (head go_typed) <->
    m ∈ head go_typed /\
    fold_case (caseinsensitive (cfg go_typed)) (typed_of (lit "Go"))
    = fold_case (caseinsensitive (cfg go_typed))
        (take (Z.to_nat (compareLength_of (lit "Go"))) (command m)).
Proof.
  apply (X10_CommandMatches_counts_the_matching_commands true go_typed (lit "Go")).
  - vm_compute. reflexivity.
  - right. vm_compute. discriminate.
Defined.

Lemma return_is_submit c : c = CR \/ c = LF -> ProcessStandardSequence c = submit.
Proof. by intros [-> | ->]. Qed.

(** X11: a carriage return or line feed on an empty line prints an empty
    line; on a line that no command matches it prints the huh message, and
    on a line that several commands match the non-unique message.  In all
    three cases no callback runs, the history and the navigation index stay
    as they are, the line is emptied and the prompt is due again. *)
Theorem X11_return_without_a_unique_match c s b :
  c = CR \/ c = LF ->
  line s = Some b ->
  b = [] \/ length (hits (caseinsensitive (cfg s)) b (head s)) <> 1%nat ->
  exists s',
    ProcessStandardSequence c s = Ok runok s' /\
    output s' = output s ++
      [Puts (match b with
             | [] => []
             | _ :: _ => match hits (caseinsensitive (cfg s)) b (head s) with
                         | [] => HUH
                         | _ :: _ => NON_UNIQUE
                         end
             end)] /\
    line s' = Some [] /\ keycount s' = 0 /\ showPrompt s' = true /\
    calls s' = calls s /\ hist_same s s' /\ whereInHistory s' = whereInHistory s /\
    head s' = head s /\ cfg s' = cfg s.
Proof.
  intros Hc Hl Hno. rewrite (return_is_submit c Hc).
  destruct (poke_line_start s b Hl) as (buf & Hpk & Hl').
  assert (forall msg, (exists s1, s1 = set_output (output s ++ [Puts msg]) s /\
             (modify (set_keycount 0) ;; poke_buffer 0 0 ;; modify (set_showPrompt true) ;;
              ret runok) s1
             = Ok runok (set_showPrompt true (set_buffer buf (set_keycount 0 s1))))) as Htail.
  { intros msg. eexists. split; [reflexivity|].
    mok; [reflexivity|]. mok; [by apply poke_buffer_fwd|]. reflexivity. }
  unfold submit. rewrite (bind_Ok_l _ _ _ _ _ (read_buffer_line s b Hl)).
  destruct b as [|x b].
  - destruct (Htail []) as (s1 & -> & Ht).
    eexists. split; [mok; [reflexivity|exact Ht]|]. simpl. repeat split; done.
  - destruct Hno as [?|Hne]; [done|].
    replace (strlen (x :: b) =? 0) with false
      by (symmetry; apply Z.eqb_neq; unfold strlen; simpl length; lia).
    simpl negb. cbv iota.
    pose proof (CommandMatches_count true s (x :: b) Hl (or_intror Hne)) as Hcm. cbv zeta in Hcm.
    destruct (hits (caseinsensitive (cfg s)) (x :: b) (head s)) as [|m1 [|m2 h]] eqn:Eh.
    + destruct (Htail HUH) as (s1 & -> & Ht).
      eexists. split.
      * mok; [|exact Ht]. mok; [exact Hcm|]. reflexivity.
      * simpl. repeat split; done.
    + done.
    + destruct (Htail NON_UNIQUE) as (s1 & -> & Ht).
      eexists. split.
      * mok; [|exact Ht]. mok; [exact Hcm|]. cbn [foundCount].
        replace (Z.of_nat (length (m1 :: m2 :: h)) =? 1) with false
          by (symmetry; apply Z.eqb_neq; simpl length; lia).
        replace (1 <? Z.of_nat (length (m1 :: m2 :: h))) with true
          by (symmetry; apply Z.ltb_lt; simpl length; lia).
        reflexivity.
      * simpl. repeat split; done.
Qed.

Lemma X11_witness :
  exists s',
    ProcessStandardSequence CR go_typed = Ok runok s' /\
    output s' = output go_typed ++
      [Puts (match lit "Go" with
             | [] => []
             | _ :: _ => match hits (caseinsensitive (cfg go_typed)) (lit "Go") (head go_typed) with
                         | [] => HUH
                         | _ :: _ => NON_UNIQUE
                         end
             end)] /\
    line s' = Some [] /\ keycount s' = 0 /\ showPrompt s' = true /\
    calls s' = calls go_typed /\ hist_same go_typed s' /\
    whereInHistory s' = whereInHistory go_typed /\
    head s' = head go_typed /\ cfg s' = cfg go_typed.
Proof.
  apply (X11_return_without_a_unique_match CR go_typed (lit "Go")).
  - by left.
  - vm_compute. reflexivity.
  - right. vm_compute. discriminate.
Defined.

(** ** The registry *)

Lemma add_search_passed name : forall rest prev ptr,
  add_search name rest prev ptr =
  match passed name rest with
  | O => (prev, ptr)
  | S k => ((ptr + k)%nat, (ptr + S k)%nat)
  end.
Proof.
  induction rest as [|x rest IH]; intros prev ptr; simpl; [done|].
  destruct (mystrnicmp (command x) name (length name) <? 0); [|done].
  rewrite IH. destruct (passed name rest) as [|k].
  - f_equal; lia.
  - f_equal; lia.
Qed.

(** X12: a successful Add puts the new command in front of the registry
    when the search passes no link or exactly one, and otherwise behind the
    links it passes (the leading commands whose names compare below the new
    name); the commands already registered keep their order, and
    [longestCommand] becomes the larger of its value and the length of the
    new name.  Nothing else changes. *)
Theorem X12_Add_inserts_at_the_searched_position m s :
  CommandProcessor_Add m true s =
  Ok addok
    (set_head (let n := passed (command m) (head s) in
               if (n <=? 1)%nat then m :: head s
               else take n (head s) ++ m :: drop n (head s))
       (if longestCommand s <? strlen (command m)
        then set_longestCommand (strlen (command m)) s else s)).
Proof.
  unfold CommandProcessor_Add. unfold bind at 1. unfold get at 1.
  unfold bind at 1.
  assert (when (longestCommand s <? strlen (command m))
            (modify (set_longestCommand (strlen (command m)))) s
          = Ok tt (if longestCommand s <? strlen (command m)
                   then set_longestCommand (strlen (command m)) s else s)) as ->.
  { by destruct (longestCommand s <? strlen (command m)). }
  simpl negb. cbv iota. cbv zeta.
  destruct (head s) as [|x rest] eqn:Eh.
  - simpl passed. simpl Nat.leb. cbv iota. reflexivity.
  - rewrite add_search_passed.
    destruct (passed (command m) (x :: rest)) as [|[|k]] eqn:Ep; reflexivity.
Qed.

(** *** Only Add changes the registry *)

Lemma registry_same_refl s : registry_same s s.
Proof. by unfold registry_same. Qed.

Lemma registry_same_trans s1 s2 s3 :
  registry_same s1 s2 -> registry_same s2 s3 -> registry_same s1 s3.
Proof. unfold registry_same. intros [? ?] [? ?]. split; congruence. Qed.

Lemma untouched_registry_same s s' : untouched s s' -> registry_same s s'.
Proof. intros (?&?&?&?&?&?&?&?). by unfold registry_same. Qed.

Lemma CommandMatches_registry_same exec s f s' :
  CommandMatches exec s = Ok f s' -> registry_same s s'.
Proof. unfold CommandMatches, registry_same. intros H. mauto; simpl; done. Qed.

Lemma recall_registry_same i s u s' : recall i s = Ok u s' -> registry_same s s'.
Proof. unfold recall, registry_same. intros H. mauto; simpl; done. Qed.

Lemma ProcessComplexSequence_registry_same c s c' s' :
  ProcessComplexSequence c s = Ok c' s' -> registry_same s s'.
Proof.
  unfold ProcessComplexSequence. intros H. mauto;
    repeat match goal with
    | H : recall _ _ = Ok _ _ |- _ => apply recall_registry_same in H as [? ?]
    end; unfold registry_same; simpl in *; done.
Qed.

Lemma complete_registry_same s u s' : complete s = Ok u s' -> registry_same s s'.
Proof.
  unfold complete. intros H. mauto;
    repeat match goal with
    | H : CommandMatches _ _ = Ok _ _ |- _ => apply CommandMatches_registry_same in H as [? ?]
    end; unfold registry_same; simpl in *; done.
Qed.

Lemma insert_registry_same c s u s' : insert c s = Ok u s' -> registry_same s s'.
Proof.
  unfold insert. intros H. mauto;
    repeat match goal with
    | H : CommandMatches _ _ = Ok _ _ |- _ => apply CommandMatches_registry_same in H as [? ?]
    end; unfold registry_same; simpl in *; done.
Qed.

Lemma call_registry_same m p s r s' : call m p s = Ok r s' -> registry_same s s'.
Proof.
  intros H. apply call_untouched in H. apply untouched_registry_same in H.
  exact H.
Qed.

Lemma history_enter_registry_same s u s' :
  history_enter s = Ok u s' -> registry_same s s'.
Proof.
  unfold history_enter. intros H. mauto;
    repeat match goal with
    | H : history_shift _ _ _ = Ok _ _ |- _ => apply history_shift_frame in H as (? & ->)
    end; unfold registry_same; simpl in *; done.
Qed.

Lemma submit_registry_same s r s' : submit s = Ok r s' -> registry_same s s'.
Proof.
  unfold submit. intros H. mauto;
    repeat match goal with
    | H : CommandMatches _ _ = Ok _ _ |- _ => apply CommandMatches_registry_same in H as [? ?]
    | H : call _ _ _ = Ok _ _ |- _ => apply call_registry_same in H as [? ?]
    | H : history_enter _ = Ok _ _ |- _ => apply history_enter_registry_same in H as [? ?]
    end; unfold registry_same; simpl in *; split; congruence.
Qed.

Lemma ProcessStandardSequence_registry_same c s r s' :
  ProcessStandardSequence c s = Ok r s' -> registry_same s s'.
Proof.
  unfold ProcessStandardSequence. intros H.
  repeat match type of H with
  | (if ?b then _ else _) _ = _ => destruct b eqn:?
  end.
  7: { by apply submit_registry_same in H. }
  all: mauto;
    repeat match goal with
    | H : complete _ = Ok _ _ |- _ => apply complete_registry_same in H as [? ?]
    | H : insert _ _ = Ok _ _ |- _ => apply insert_registry_same in H as [? ?]
    end; unfold registry_same; simpl in *; try done; split; congruence.
Qed.

Lemma Run_registry_same key s r s' :
  CommandProcessor_Run key s = Ok r s' -> registry_same s s'.
Proof.
  unfold CommandProcessor_Run. intros H. destruct key; mauto;
    repeat match goal with
    | H : call _ _ _ = Ok _ _ |- _ => apply call_registry_same in H as [? ?]
    | H : ProcessComplexSequence _ _ = Ok _ _ |- _ =>
      apply ProcessComplexSequence_registry_same in H as [? ?]
    | H : ProcessStandardSequence _ _ = Ok _ _ |- _ =>
      apply ProcessStandardSequence_registry_same in H as [? ?]
    end; unfold registry_same; simpl in *; try done; split; congruence.
Qed.

(** *** The length of the longest name *)

Lemma Add_longestCommand m temp s r s' :
  CommandProcessor_Add m temp s = Ok r s' ->
  longestCommand s' = Z.max (longestCommand s) (strlen (command m)).
Proof.
  unfold CommandProcessor_Add. intros H.
  apply bind_Ok in H as (s0 & s1 & E0 & H). unfold get in E0. injection E0 as <- <-.
  apply bind_Ok in H as (u & s2 & E1 & H).
  assert (longestCommand s2 = Z.max (longestCommand s) (strlen (command m)) /\
          head s2 = head s) as [Hl Hh].
  { unfold when in E1. destruct (Z.ltb_spec (longestCommand s) (strlen (command m))).
    - unfold modify in E1. injection E1 as _ <-. simpl. split; [lia|done].
    - unfold ret in E1. injection E1 as _ <-. split; [lia|done]. }
  destruct (negb temp); [unfold ret in H; by injection H as _ <-|].
  destruct (head s); [|destruct (add_search _ _ _ _) as [prev ptr]; destruct (prev =? 0)%nat];
    mauto; simpl; done.
Qed.

Lemma Add_longest_ok m temp s r s' :
  longest_ok s -> CommandProcessor_Add m temp s = Ok r s' -> longest_ok s'.
Proof.
  intros Hok H. pose proof (Add_longestCommand _ _ _ _ _ H) as Hl.
  apply Add_frame in H as (_ & _ & _ & _ & _ & _ & _ & _ & Hh).
  unfold longest_ok in *. rewrite Forall_forall in *. intros x Hx.
  apply Hh in Hx as [[_ ->]|Hx]; [lia|]. specialize (Hok x Hx). lia.
Qed.

Lemma longest_ok_ext s s' : registry_same s s' -> longest_ok s -> longest_ok s'.
Proof. intros [Hh Hl]. unfold longest_ok. by rewrite Hh, Hl. Qed.

Lemma Init_longest_ok banner config maxCmdLen numInHistory links mbuf mhist before s r s' :
  longest_ok s ->
  CommandProcessor_Init banner config maxCmdLen numInHistory links mbuf mhist before s
  = Ok r s' ->
  longest_ok s'.
Proof.
  intros Hok H. unfold CommandProcessor_Init in H.
  apply bind_Ok in H as (u & s1 & E1 & H).
  assert (longest_ok s1) as Hok1.
  { clear H. destruct banner as [b|].
    - mauto. match goal with
      | H : CommandProcessor_Add _ _ _ = Ok _ _ |- _ => apply (Add_longest_ok _ _ _ _ _ Hok) in H
      end. done.
    - unfold ret in E1. by injection E1 as _ <-. }
  clear E1 Hok.
  do 2 (apply bind_Ok in H as (? & ? & E & H); unfold modify in E; injection E as _ <-).
  apply bind_Ok in H as (? & ? & E & H). apply int_mul_Ok in E as (-> & -> & _).
  do 3 (apply bind_Ok in H as (? & ? & E & H); unfold modify in E; injection E as _ <-).
  match type of H with
  | (if _ then _ else _) ?st = _ => assert (longest_ok st) as Hok2 by exact Hok1
  end.
  clear Hok1.
  destruct (bool_decide (is_Some mbuf) && bool_decide (is_Some mhist));
    [|unfold ret in H; by injection H as _ <-].
  apply bind_Ok in H as (? & s3 & E3 & H).
  assert (longest_ok s3) as Hok3.
  { unfold when in E3. destruct (flag config CFG_ENABLE_SYSTEM).
    - do 4 (apply bind_Ok in E3 as (? & ? & E & E3);
            apply (Add_longest_ok _ _ _ _ _ Hok2) in E; clear Hok2; rename E into Hok2).
      unfold ret in E3. by injection E3 as _ <-.
    - unfold ret in E3. by injection E3 as _ <-. }
  apply bind_Ok in H as (? & s4 & E4 & H).
  assert (longest_ok s4) as Hok4.
  { unfold when in E4. destruct (flag config CFG_ENABLE_TERMINATE).
    - apply bind_Ok in E4 as (? & ? & E & E4).
      apply (Add_longest_ok _ _ _ _ _ Hok3) in E.
      unfold ret in E4. by injection E4 as _ <-.
    - unfold ret in E4. by injection E4 as _ <-. }
  mauto; exact Hok4.
Qed.

(** X13: in all statics that a host program can bring about from those of
    the C file by Init, Add (successful or not) and Run, no registered name
    is longer than [longestCommand], the width that Help pads the names
    to.  Run changes neither the registry nor [longestCommand]. *)
Theorem X13_longestCommand_bounds_the_names s :
  reachable s ->
  longest_ok s /\
  forall key r s', CommandProcessor_Run key s = Ok r s' ->
    head s' = head s /\ longestCommand s' = longestCommand s.
Proof.
  intros Hr. split; [|intros key r s' H; by apply Run_registry_same in H].
  induction Hr as [|s ? ? ? ? ? ? ? ? r s' _ IH H|s m temp r s' _ IH H|s key r s' _ IH H].
  - constructor.
  - by eapply Init_longest_ok.
  - by eapply Add_longest_ok.
  - apply Run_registry_same in H. by eapply longest_ok_ext.
Qed.

Lemma X13_witness :
  longest_ok boot /\
  forall key r s', CommandProcessor_Run key boot = Ok r s' ->
    head s' = head boot /\ longestCommand s' = longestCommand boot.
Proof.
  apply (X13_longestCommand_bounds_the_names boot).
  apply (reach_Init statics None (CFG_ENABLE_SYSTEM + CFG_ENABLE_TERMINATE) 10 2
           (fun _ => true) (Some zeros) (Some zeros) (replicate 10 (chr "z")) initok boot
           reach_statics).
  vm_compute. reflexivity.
Defined.

(** ** The built-in commands *)

Lemma Help_loop_run l : forall s,
  Help_loop l s =
  if forallb (fun m => implb (help_shown m) (strlen (help_line (longestCommand s) m) <? 100)) l
  then Ok tt (set_output
                (output s ++ (Puts <$> (help_line (longestCommand s)
                                <$> filter (fun m => help_shown m = true) l))) s)
  else Fault (BadWrite SprintfBlk 100).
Proof.
  induction l as [|m l IH]; intros s.
  - simpl. unfold ret. rewrite app_nil_r. by destruct s.
  - cbn [Help_loop forallb]. unfold bind at 1. unfold get at 1.
    unfold bind at 1. rewrite filter_cons.
    destruct (help_shown m) eqn:Esh.
    + rewrite decide_True by done. unfold help_shown in Esh.
      destruct (vis m); [done|]. simpl in Esh. rewrite Esh.
      unfold when at 1. unfold when at 1. simpl implb.
      unfold bind at 1. unfold sprintf100 at 1. fold (help_line (longestCommand s) m).
      replace (strlen (help_line (longestCommand s) m) + 1 <=? 100)
        with (strlen (help_line (longestCommand s) m) <? 100)
        by (destruct (Z.ltb_spec (strlen (help_line (longestCommand s) m)) 100);
            symmetry; [apply Z.leb_le|apply Z.leb_gt]; lia).
      destruct (strlen (help_line (longestCommand s) m) <? 100); [|reflexivity].
      simpl andb. unfold puts at 1. unfold modify at 1. rewrite IH. simpl longestCommand.
      destruct (forallb _ l); [|reflexivity].
      simpl. rewrite <- app_assoc. reflexivity.
    + rewrite decide_False by done. simpl implb. simpl andb.
      assert (when match vis m with visible => true | invisible => false end
                (when (strlen (command m) + strlen (helptext m) + 5 <? 100)
                   (line <- sprintf100 (lit " " ++ pad_right (longestCommand s) (command m)
                                          ++ lit ": " ++ helptext m) ;;
                    puts line)) s = Ok tt s) as ->.
      { unfold help_shown in Esh. destruct (vis m); [reflexivity|].
        simpl in Esh. by rewrite Esh. }
      by rewrite IH.
Qed.

(** X14: Help prints a line break, then, in registry order, one line for
    every visible command whose name and help text together are shorter
    than 95 characters (a space, the name padded on the right to the width
    [longestCommand], a colon and a space, the help text), then an empty
    line, and returns runok; it changes nothing but the output.  This holds
    when every line so formatted is shorter than the 100 bytes of Help's
    local buffer. *)
Theorem X14_Help_lists_the_visible_commands p s :
  Forall (fun m => help_shown m = true ->
                   strlen (help_line (longestCommand s) m) < 100) (head s) ->
  Help p s =
  Ok runok
    (set_output
       (output s ++ [Puts CRLF]
        ++ (Puts <$> (help_line (longestCommand s)
              <$> filter (fun m => help_shown m = true) (head s)))
        ++ [Puts []]) s).
Proof.
  intros Hfit. unfold Help. unfold bind at 1. unfold get at 1.
  unfold bind at 1. unfold puts at 1. unfold modify at 1.
  unfold bind at 1. rewrite Help_loop_run. simpl longestCommand. simpl head.
  assert (forallb (fun m => implb (help_shown m)
                     (strlen (help_line (longestCommand s) m) <? 100)) (head s) = true) as ->.
  { apply forallb_forall. intros m Hm. rewrite Forall_forall in Hfit.
    destruct (help_shown m) eqn:E; [|done]. simpl.
    apply Z.ltb_lt, Hfit; [|done]. by apply list_elem_of_In. }
  unfold bind, puts, modify, ret. simpl. rewrite <- !app_assoc. reflexivity.
Qed.

Lemma X14_witness :
  Help [] boot =
  Ok runok
    (set_output
       (output boot ++ [Puts CRLF]
        ++ (Puts <$> (help_line (longestCommand boot)
              <$> filter (fun m => help_shown m = true) (head boot)))
        ++ [Puts []]) boot).
Proof.
  apply (X14_Help_lists_the_visible_commands [] boot).
  apply Forall_forall. intros m Hm _.
  assert (head boot = [ExitMenu; EchoMenu; HelpMenu; QuestionMenu; HistoryMenu]) as E
    by (vm_compute; reflexivity).
  rewrite E in Hm.
  repeat (apply elem_of_cons in Hm as [->|Hm]; [vm_compute; reflexivity|]).
  by apply elem_of_nil in Hm.
Defined.

(** X15: Help tests the length of the name and of the help text before it
    formats a command, but formats the name padded to [longestCommand].
    When a visible command passes the test and its formatted line has 100
    characters or more, Help writes past the end of its local buffer of 100
    bytes. *)
Theorem X15_Help_overruns_its_buffer p s m :
  m ∈ head s -> help_shown m = true ->
  100 <= strlen (help_line (longestCommand s) m) ->
  Help p s = Fault (BadWrite SprintfBlk 100).
Proof.
  intros Hin Hsh Hlong. unfold Help. unfold bind at 1. unfold get at 1.
  unfold bind at 1. unfold puts at 1. unfold modify at 1.
  unfold bind at 1. rewrite Help_loop_run. simpl longestCommand. simpl head.
  assert (forallb (fun m => implb (help_shown m)
                     (strlen (help_line (longestCommand s) m) <? 100)) (head s) = false) as ->.
  { apply not_true_is_false. intros Hall. rewrite forallb_forall in Hall.
    specialize (Hall m (proj1 (list_elem_of_In _ _) Hin)). rewrite Hsh in Hall. simpl in Hall.
    apply Z.ltb_lt in Hall. lia. }
  reflexivity.
Qed.

Lemma X15_witness : Help [] boot_wide = Fault (BadWrite SprintfBlk 100).
Proof.
  apply (X15_Help_overruns_its_buffer [] boot_wide wide_help).
  - assert (head boot_wide = head boot ++ [wide_help]) as -> by (vm_compute; reflexivity).
    apply elem_of_app. right. left.
  - vm_compute. reflexivity.
  - vm_compute. discriminate.
Defined.

Lemma mystrnicmp_eqb l r n :
  (mystrnicmp l r n =? 0) = (mystrnicmp_loop n l r =? 0).
Proof.
  unfold mystrnicmp.
  destruct (Z.ltb_spec (mystrnicmp_loop n l r) (-1)).
  - symmetry. apply Z.eqb_neq. lia.
  - destruct (Z.ltb_spec 1 (mystrnicmp_loop n l r)); [|done].
    symmetry. apply Z.eqb_neq. lia.
Qed.

Lemma sub_eqb x y : (x - y =? 0) = (x =? y).
Proof. destruct (Z.eqb_spec x y); [apply Z.eqb_eq|apply Z.eqb_neq]; lia. Qed.

Ltac echo_simp :=
  repeat (progress (cbn [mystrnicmp_loop deref hd tail Nat.eqb negb andb orb];
                    try change (mytolower 111) with 111;
                    try change (mytolower 110) with 110;
                    try change (mytolower 102) with 102;
                    rewrite ?Z.eqb_refl, ?sub_eqb, ?andb_true_r, ?andb_false_r;
                    repeat match goal with
                    | H : (_ =? _) = _ |- _ => rewrite H
                    end)).

(** X16: Echo sets the echo setting as its two tests of the argument say
    (see [echo_arg]), then prints the resulting setting, and returns runok;
    it changes nothing else.  Without an argument it only prints the
    setting. *)
Theorem X16_Echo_switches_and_reports p s :
  nonul p ->
  exists s',
    Echo p s = Ok runok s' /\
    echo (cfg s') = echo_arg p (echo (cfg s)) /\
    output s' = output s ++
      [Puts (CRLF ++ (if echo (cfg s') =? 0 then lit "Echo is off" else lit "Echo is on"))] /\
    untouched s (set_output (output s) s').
Proof.
  intros Hn. unfold Echo.
  destruct (echo (cfg s) =? 0) eqn:Ee.
  all: destruct p as [|a t]; [|apply nonul_cons in Hn as [Ha Ht];
         assert ((a =? 0) = false) as Ha0 by (by apply Z.eqb_neq);
         destruct t as [|b t]; [|apply nonul_cons in Ht as [Hb Ht];
           assert ((b =? 0) = false) as Hb0 by (by apply Z.eqb_neq);
           destruct t as [|c t]; [|apply nonul_cons in Ht as [Hc Ht];
             assert ((c =? 0) = false) as Hc0 by (by apply Z.eqb_neq)]]].
  all: unfold echo_arg.
  all: change (lit "on") with [111; 110]; change (lit "off") with [111; 102; 102].
  all: rewrite ?mystrnicmp_eqb; unfold deref; cbn [hd].
  all: change (chr "o") with 111; change (chr "0") with 48; change (chr "1") with 49;
       change (chr "f") with 102; change (chr "n") with 110.
  all: echo_simp.
  all: try destruct (a =? 48) eqn:?; try destruct (a =? 49) eqn:?;
       try destruct (mytolower a =? 111) eqn:?.
  all: echo_simp.
  all: try destruct (mytolower b =? 110) eqn:?.
  all: try destruct (mytolower b =? 102) eqn:?.
  all: echo_simp.
  all: try destruct (mytolower c =? 102) eqn:?.
  all: echo_simp.
  all: eexists; (split;
         [lazy beta iota zeta delta [bind when get ret modify CommandProcessor_Echo negb orb
                                      andb puts];
          cbn [cfg echo set_cfg set_echo];
          rewrite ?Ee; try change (1 =? 0) with false; try change (0 =? 0) with true;
          lazy beta iota; reflexivity|]).
  all: cbn [cfg echo output set_output set_cfg set_echo negb orb andb]; rewrite ?Ee.
  all: try change (1 =? 0) with false; try change (0 =? 0) with true; cbv iota.
  all: split; [reflexivity|]; split; [reflexivity|].
  all: unfold untouched; cbn; repeat split; exists []; by rewrite app_nil_r.
Qed.

Lemma X16_witness :
  exists s',
    Echo (lit "ON") boot = Ok runok s' /\
    echo (cfg s') = echo_arg (lit "ON") (echo (cfg boot)) /\
    output s' = output boot ++
      [Puts (CRLF ++ (if echo (cfg s') =? 0 then lit "Echo is off" else lit "Echo is on"))] /\
    untouched boot (set_output (output boot) s').
Proof.
  apply (X16_Echo_switches_and_reports (lit "ON") boot).
  repeat constructor; discriminate.
Defined.

(** ** Initialisation *)





Lemma Init_buffer banner config maxCmdLen numInHistory links mbuf mhist before s r s' :
  CommandProcessor_Init banner config maxCmdLen numInHistory links mbuf mhist before s
  = Ok r s' ->
  buffer s' = malloc mbuf (Z.max maxCmdLen 6) /\ keycount s' = keycount s.
Proof.
  unfold CommandProcessor_Init. intros H.
  assert ((if maxCmdLen <? 6 then 6 else maxCmdLen) = Z.max maxCmdLen 6) as E
    by (destruct (Z.ltb_spec maxCmdLen 6); lia).
  rewrite E in H. clear E.
  destruct banner; mauto;
    repeat match goal with
    | H : CommandProcessor_Add _ _ _ = Ok _ _ |- _ =>
      apply Add_frame in H as (? & _ & _ & ? & _ & _ & _ & _ & _)
    end; simpl in *; split; congruence.
Qed.

Lemma cstr_no_terminator m : Forall (fun c => c <> 0) m -> cstr m = None.
Proof.
  induction 1 as [|c m Hc _ IH]; [done|]. simpl.
  destruct (Z.eqb_spec c 0); [done|]. by rewrite IH.
Qed.

(** X18: Init does not write to the line buffer it allocates.  When the
    block that malloc returned holds no zero byte, a carriage return, line
    feed or tab as the first key after Init makes the processor read the
    line beyond the end of the block. *)
Theorem X18_first_key_reads_the_unwritten_buffer
    banner config maxCmdLen numInHistory links jb mhist before s r s' c :
  CommandProcessor_Init banner config maxCmdLen numInHistory links (Some jb) mhist before s
  = Ok r s' ->
  (forall i, jb i <> 0) ->
  c = CR \/ c = LF \/ c = TAB ->
  ProcessStandardSequence c s' = Fault (BadRead BufferBlk 0).
Proof.
  intros H Hj Hc. apply Init_buffer in H as [Hb _].
  assert (read_buffer 0 s' = Fault (BadRead BufferBlk 0)) as Hrd.
  { unfold read_buffer, cstr_at. simpl. rewrite drop_0, Hb.
    rewrite cstr_no_terminator; [done|].
    unfold malloc, fresh_block. apply Forall_fmap, Forall_forall. intros i _. apply Hj. }
  destruct Hc as [-> | [-> | ->]].
  - change (ProcessStandardSequence CR) with submit. unfold submit.
    by rewrite (bind_Fault_l _ _ _ _ Hrd).
  - change (ProcessStandardSequence LF) with submit. unfold submit.
    by rewrite (bind_Fault_l _ _ _ _ Hrd).
  - change (ProcessStandardSequence TAB) with (complete ;; ret runok).
    unfold complete, CommandMatches.
    by rewrite (bind_Fault_l _ _ _ _ (bind_Fault_l _ _ _ _ (bind_Fault_l _ _ _ _ Hrd))).
Qed.

Lemma X18_witness :
  ProcessStandardSequence CR
    (state_of (CommandProcessor_Init None CFG_ENABLE_SYSTEM 10 2 (fun _ => true)
                 (Some (fun _ => chr "z")) (Some zeros) [] statics))
  = Fault (BadRead BufferBlk 0).
Proof.
  apply (X18_first_key_reads_the_unwritten_buffer None CFG_ENABLE_SYSTEM 10 2 (fun _ => true)
           (fun _ => chr "z") (Some zeros) [] statics initok _ CR).
  - vm_compute. reflexivity.
  - intros _. discriminate.
  - by left.
Defined.

(** ** The history *)

(** X19: with a history of depth 0, a carriage return or line feed that
    executes a command, and whose line the repeat check does not take for a
    repeat, copies the line to [historyBuffer - cfg.bufferSize], in front of
    the history block: the count equals the depth, is lowered to -1, and
    the line is stored in slot -1.  (Shown for a line that is the full name
    of a command of the host program, with or without parameters.) *)
Theorem X19_history_of_depth_zero_is_overrun c s b m f last :
  c = CR \/ c = LF ->
  historyDepth s = 0 -> historyCount s = 0 -> 0 < bufferSize (cfg s) ->
  line s = Some b -> b <> [] ->
  hits (caseinsensitive (cfg s)) b (head s) = [m] ->
  rewrite_needed b m = false ->
  callback m = User_cb f ->
  read_history (-1) s = Ok last s ->
  mystrnicmp b last (length last) <> 0 ->
  ProcessStandardSequence c s = Fault (BadWrite HistoryBlk (- bufferSize (cfg s))).
Proof.
  intros Hc Hd Hn Hsz Hl Hb Hh Hrw Hcb Hlast Hrep.
  rewrite (return_is_submit c Hc). unfold submit.
  rewrite (bind_Ok_l _ _ _ _ _ (read_buffer_line s b Hl)).
  assert (negb (strlen b =? 0) = true) as ->.
  { apply negb_true_iff, Z.eqb_neq. intros H. by apply strlen_nil_iff in H. }
  assert (scan s b = mkFound 1 (Some m) (Some (params_of b))) as Hscan
    by (by rewrite scan_hits, Hh).
  pose proof (CommandMatches_true_plain s b m _ Hl Hb Hscan Hrw) as Hcm.
  rewrite Hscan in Hcm.
  apply bind_Fault_l. rewrite (bind_Ok_l _ _ _ _ _ Hcm). cbn [foundCount menu params].
  change (1 =? 1) with true. cbv iota.
  rewrite (bind_Ok_l _ _ _ _ _ (read_buffer_args s b Hl)).
  set (s1 := set_calls (calls s ++ [(command m, args_of b)]) s).
  assert (call m (args_of b) s = Ok (f (args_of b)) s1) as Hcall.
  { unfold call. rewrite (bind_Ok_l (modify _) _ _ tt _ eq_refl). by rewrite Hcb. }
  rewrite (bind_Ok_l _ _ _ _ _ Hcall).
  apply bind_Fault_l. unfold history_enter.
  unfold bind at 1. unfold get at 1.
  rewrite (bind_Ok_l _ _ _ _ _ (read_buffer_line s1 b Hl)).
  change (historyCount s1) with (historyCount s). change (historyDepth s1) with (historyDepth s).
  rewrite Hn, Hd.
  assert (read_history (0 - 1) s1 = Ok last s1) as Hlast1.
  { unfold read_history in *. simpl beforeHistory. simpl historyBuffer. simpl cfg.
    change (0 - 1) with (-1).
    destruct (cstr_at _ _); [|done]. by injection Hlast as ->. }
  rewrite (bind_Ok_l _ _ _ _ _ Hlast1).
  assert (negb (mystrnicmp b last (length last) =? 0) = true) as ->
    by (by apply negb_true_iff, Z.eqb_neq).
  unfold when. change (0 =? 0) with true. cbv iota.
  unfold bind at 1. unfold bind at 1. unfold modify at 1.
  change (Z.to_nat (0 - 1)) with 0%nat. cbn [history_shift]. unfold ret at 1.
  unfold bind at 1. unfold get at 1.
  set (s2 := set_historyCount (0 - 1) s1).
  rewrite (bind_Ok_l _ _ _ _ _ (read_buffer_line s2 b Hl)).
  unfold bind at 1. unfold write_history, store_cstr. simpl historyCount. simpl cfg.
  replace (0 <=? (0 - 1) * bufferSize (cfg s)) with false by (symmetry; apply Z.leb_gt; lia).
  simpl andb. cbv iota. do 2 f_equal; lia.
Qed.

Lemma X19_witness :
  ProcessStandardSequence CR go_typed_depth0
  = Fault (BadWrite HistoryBlk (- bufferSize (cfg go_typed_depth0))).
Proof.
  apply (X19_history_of_depth_zero_is_overrun CR go_typed_depth0 (lit "Go") (user_cmd "Go")
           (fun _ => runok) (replicate 9 (chr "z"))).
  - by left.
  - vm_compute. reflexivity.
  - vm_compute. reflexivity.
  - vm_compute. reflexivity.
  - vm_compute. reflexivity.
  - discriminate.
  - vm_compute. reflexivity.
  - vm_compute. reflexivity.
  - reflexivity.
  - vm_compute. reflexivity.
  - vm_compute. discriminate.
Defined.

Lemma History_loop_run l : forall (k : nat) s,
  0 <= bufferSize (cfg s) ->
  (forall (j : nat) e, l !! j = Some e ->
     entry s (Z.of_nat (k + j)) = Some e /\
     strlen (history_line (Z.of_nat (k + j) - historyCount s) e) < 100) ->
  History_loop (length l) (Z.of_nat k) s =
  Ok tt (set_output
           (output s ++ imap (fun j e => Puts (history_line (Z.of_nat (k + j) - historyCount s) e)) l)
           s).
Proof.
  induction l as [|e l IH]; intros k s Hsz Hl.
  - simpl. unfold ret. rewrite app_nil_r. by destruct s.
  - destruct (Hl 0%nat e eq_refl) as [He Hfit]. rewrite Nat.add_0_r in He, Hfit.
    cbn [length History_loop]. unfold bind at 1. unfold get at 1.
    assert (read_history (Z.of_nat k) s = Ok e s) as Hrd.
    { apply read_history_entry; [nia|done]. }
    rewrite (bind_Ok_l _ _ _ _ _ Hrd).
    unfold bind at 1. unfold sprintf100 at 1. fold (history_line (Z.of_nat k - historyCount s) e).
    replace (strlen (history_line (Z.of_nat k - historyCount s) e) + 1 <=? 100) with true
      by (symmetry; apply Z.leb_le; lia).
    rewrite (bind_Ok_l (puts _) _ _ tt _ eq_refl).
    replace (Z.of_nat k + 1) with (Z.of_nat (S k)) by lia.
    rewrite IH.
    + change (set_output ?v (set_output ?w s)) with (set_output v s).
      cbn [output set_output historyCount imap]. rewrite Nat.add_0_r, <- app_assoc.
      do 3 f_equal. simpl. f_equal.
      apply imap_ext. intros j x _. simpl. do 3 f_equal. lia.
    + done.
    + intros j x Hx. specialize (Hl (S j) x Hx).
      replace (S k + j)%nat with (k + S j)%nat by lia. exact Hl.
Qed.

(** X20: History prints an empty line, then the stored entries, oldest
    first, numbered from minus the count up to -1, then the line in the
    buffer numbered 0; it returns runok and changes nothing but the output.
    This holds when every line so formatted is shorter than the 100 bytes of
    History's local buffer. *)
Theorem X20_History_lists_the_entries p s es b :
  0 <= bufferSize (cfg s) ->
  entries s = Some es -> line s = Some b ->
  (forall (i : nat) e, es !! i = Some e ->
     strlen (history_line (Z.of_nat i - historyCount s) e) < 100) ->
  strlen (history_line 0 b) < 100 ->
  History p s =
  Ok runok
    (set_output
       (output s ++ [Puts []]
        ++ imap (fun i e => Puts (history_line (Z.of_nat i - historyCount s) e)) es
        ++ [Puts (history_line 0 b)]) s).
Proof.
  intros Hsz Hes Hl Hfit Hfit0. apply entries_spec in Hes as [Hlen Hent].
  unfold History. unfold bind at 1. unfold get at 1.
  rewrite (bind_Ok_l (puts _) _ _ tt _ eq_refl).
  set (s1 := set_output (output s ++ [Puts []]) s).
  rewrite <- Hlen.
  pose proof (History_loop_run es 0 s1 Hsz) as Hloop. cbv beta in Hloop.
  rewrite (bind_Ok_l _ _ _ _ _ (Hloop ltac:(intros j e He; split; [by apply Hent|by apply Hfit]))).
  set (s2 := set_output _ s1).
  rewrite (bind_Ok_l _ _ _ _ _ (read_buffer_line s2 b Hl)).
  unfold bind at 1. unfold sprintf100 at 1. fold (history_line 0 b).
  replace (strlen (history_line 0 b) + 1 <=? 100) with true by (symmetry; apply Z.leb_le; lia).
  unfold bind, puts, modify, ret. subst s2 s1. simpl. by rewrite <- !app_assoc.
Qed.

Lemma X20_witness :
  History [] help_submitted =
  Ok runok
    (set_output
       (output help_submitted ++ [Puts []]
        ++ imap (fun i e => Puts (history_line (Z.of_nat i - historyCount help_submitted) e))
             [lit "Help"]
        ++ [Puts (history_line 0 [])]) help_submitted).
Proof.
  apply (X20_History_lists_the_entries [] help_submitted [lit "Help"] []).
  - vm_compute. discriminate.
  - vm_compute. reflexivity.
  - vm_compute. reflexivity.
  - intros [|[|i]] e He; [|done..]. injection He as <-. vm_compute. reflexivity.
  - vm_compute. reflexivity.
Defined.

(** ** Polling without a key *)

Lemma Run_None_quiet s : quiet s -> CommandProcessor_Run None s = Ok runok s.
Proof.
  intros [Hb Hp]. unfold CommandProcessor_Run, bind, get, when, ret. by rewrite Hb, Hp.
Qed.

(** X21: a call of Run while no key is waiting shows the sign-on banner if
    it is still due, by calling the banner's callback with an empty string,
    and then prints the prompt if it is due and echo is on.  Without a
    banner due it always returns, and nothing but the prompt is printed and
    no callback runs; with a banner due it returns when the banner's
    callback does, and the callback is the one call made.  In both cases it
    returns runok and touches neither the line, nor the registry, nor the
    history, and after it nothing is due any more: every further call
    without a key returns runok and leaves the statics exactly as they
    are. *)
Theorem X21_poll_without_key_settles s :
  (showSignOnBanner (cfg s) = false ->
   exists s1,
     CommandProcessor_Run None s = Ok runok s1 /\
     calls s1 = calls s /\
     output s1 = output s ++
       (if showPrompt s && negb (echo (cfg s) =? 0) then [Putch (chr ">")] else [])) /\
  (forall m rb sb,
     showSignOnBanner (cfg s) = true -> SignOnBanner (cfg s) = Some m ->
     call m [] s = Ok rb sb ->
     exists s1,
       CommandProcessor_Run None s = Ok runok s1 /\
       calls s1 = calls s ++ [(command m, [])] /\
       output s1 = output sb ++
         (if showPrompt s && negb (echo (cfg sb) =? 0) then [Putch (chr ">")] else [])) /\
  (forall r s1,
     CommandProcessor_Run None s = Ok r s1 ->
     r = runok /\ quiet s1 /\
     CommandProcessor_Run None s1 = Ok runok s1 /\
     head s1 = head s /\ buffer s1 = buffer s /\ keycount s1 = keycount s /\
     hist_same s s1 /\ whereInHistory s1 = whereInHistory s).
Proof.
  split; [|split].
  - intros Hb. unfold CommandProcessor_Run.
    rewrite (bind_Ok_l get _ s s s eq_refl). rewrite Hb. unfold when at 1.
    rewrite (bind_Ok_l (ret tt) _ s tt s eq_refl).
    rewrite (bind_Ok_l get _ s s s eq_refl).
    destruct (showPrompt s && negb (echo (cfg s) =? 0)).
    + eexists. split; [reflexivity|]. done.
    + eexists. split; [reflexivity|]. simpl. by rewrite app_nil_r.
  - intros m rb sb Hb Hm Hcall. unfold CommandProcessor_Run.
    rewrite (bind_Ok_l get _ s s s eq_refl). rewrite Hb, Hm. unfold when at 1.
    assert (((call m [] ;; ret tt) ;;
             modify (fun s0 => set_cfg (set_showSignOnBanner false (cfg s0)) s0)) s
            = Ok tt (set_cfg (set_showSignOnBanner false (cfg sb)) sb)) as E.
    { mok; [|reflexivity]. mok; [exact Hcall|reflexivity]. }
    rewrite (bind_Ok_l _ _ _ _ _ E).
    rewrite (bind_Ok_l get _ _ _ _ eq_refl).
    apply call_untouched in Hcall as (?&?&?&?&?&?&?&?&?&?&Hsp&?&?&?&?&Hc&?).
    simpl in Hsp, Hc. cbn [showPrompt set_cfg cfg set_showSignOnBanner echo].
    rewrite Hsp.
    destruct (showPrompt s && negb (echo (cfg sb) =? 0)).
    + eexists. split; [reflexivity|]. simpl. by rewrite Hc.
    + eexists. split; [reflexivity|]. simpl. by rewrite Hc, app_nil_r.
  - intros r s1 H.
    assert (r = runok) as -> by (by apply Run_returns_runok in H).
    unfold CommandProcessor_Run in H.
    apply bind_Ok in H as (s0 & ? & E0 & H). unfold get in E0. injection E0 as <- <-.
    apply bind_Ok in H as (u & sb & Eb & H).
    assert (showSignOnBanner (cfg sb) = false /\
            head sb = head s /\ buffer sb = buffer s /\ keycount sb = keycount s /\
            hist_same s sb /\ whereInHistory sb = whereInHistory s)
      as (Hb & Hh & Hbuf & Hk & Hhist & Hw).
    { unfold when in Eb. destruct (showSignOnBanner (cfg s)) eqn:Eban.
      - apply bind_Ok in Eb as (? & sc & Ec & Eb). unfold modify in Eb. injection Eb as _ <-.
        destruct (SignOnBanner (cfg s)) as [m|]; [|done].
        apply bind_Ok in Ec as (? & ? & Ec & Er). unfold ret in Er. injection Er as _ ->.
        apply call_untouched in Ec as (?&?&?&?&?&?&?&?&?&?&?&?&?&?&?&?&?).
        simpl in *. unfold hist_same. repeat split; done.
      - unfold ret in Eb. injection Eb as _ <-. repeat split; done. }
    apply bind_Ok in H as (s0 & ? & E0 & H). unfold get in E0. injection E0 as <- <-.
    apply bind_Ok in H as (? & sp & Ep & H).
    apply bind_Ok in H as (? & ? & E1 & H). unfold ret in E1, H.
    injection E1 as _ <-. injection H as <-.
    destruct Hhist as (?&?&?&?&?).
    unfold when in Ep. destruct (showPrompt sb && negb (echo (cfg sb) =? 0)) eqn:Epr.
    + apply bind_Ok in Ep as (? & ? & E1 & Ep). unfold putch, modify in E1, Ep.
      injection E1 as _ <-. injection Ep as _ <-.
      assert (quiet (set_showPrompt false (set_output (output sb ++ [Putch (chr ">")]) sb)))
        as Hq by (by split).
      split; [done|]. split; [done|]. split; [by apply Run_None_quiet|].
      simpl. unfold hist_same. split_and!; done.
    + unfold ret in Ep. injection Ep as _ <-.
      assert (quiet sb) as Hq by (by split).
      split; [done|]. split; [done|]. split; [by apply Run_None_quiet|].
      unfold hist_same. split_and!; done.
Qed.

Lemma X21_witness :
  exists s1,
    CommandProcessor_Run None main_boot = Ok runok s1 /\
    calls s1 = calls main_boot ++ [(command SignOnBannerCmd, [])] /\
    output s1 = output (state_of (call SignOnBannerCmd [] main_boot)) ++
      (if showPrompt main_boot
          && negb (echo (cfg (state_of (call SignOnBannerCmd [] main_boot))) =? 0)
       then [Putch (chr ">")] else []).
Proof.
  apply (proj1 (proj2 (X21_poll_without_key_settles main_boot))
           SignOnBannerCmd runok (state_of (call SignOnBannerCmd [] main_boot))).
  - vm_compute. reflexivity.
  - vm_compute. reflexivity.
  - vm_compute. reflexivity.
Defined.

(** ** CommandProcessor_End *)

Lemma Init_registry_empty config maxCmdLen numInHistory links mbuf mhist before r s' :
  flag config CFG_ENABLE_SYSTEM = false ->
  flag config CFG_ENABLE_TERMINATE = false ->
  CommandProcessor_Init None config maxCmdLen numInHistory links mbuf mhist before statics
  = Ok r s' ->
  head s' = [].
Proof.
  intros Hs Ht H. unfold CommandProcessor_Init in H. rewrite Hs, Ht in H.
  unfold when in H. mauto; reflexivity.
Qed.

(** X22: End, called while the registry holds no command, reads the next
    pointer of a null link.  That is the case after an Init without banner
    and without built-in commands when no command was added, whether Init
    succeeded or not. *)
Theorem X22_End_on_an_empty_registry
    config maxCmdLen numInHistory links mbuf mhist before r s' :
  flag config CFG_ENABLE_SYSTEM = false ->
  flag config CFG_ENABLE_TERMINATE = false ->
  CommandProcessor_Init None config maxCmdLen numInHistory links mbuf mhist before statics
  = Ok r s' ->
  CommandProcessor_End s' = Fault NullDeref.
Proof.
  intros Hs Ht H. apply Init_registry_empty in H; [|done..].
  unfold CommandProcessor_End, bind, get. by rewrite H.
Qed.

Lemma X22_witness :
  CommandProcessor_End
    (state_of (CommandProcessor_Init None CFG_ECHO_ON 80 5 (fun _ => true)
                 (Some zeros) (Some zeros) [] statics))
  = Fault NullDeref.
Proof.
  apply (X22_End_on_an_empty_registry CFG_ECHO_ON 80 5 (fun _ => true)
           (Some zeros) (Some zeros) [] initok).
  - reflexivity.
  - reflexivity.
  - vm_compute. reflexivity.
Defined.

(** ** Watchdog::log2 *)

Lemma log2_loop_spec fuel : forall v r,
  0 <= v < 2 ^ Z.of_nat fuel ->
  log2_loop (S fuel) v r = Some (r + Z.log2 v).
Proof.
  induction fuel as [|fuel IH]; intros v r Hv.
  - assert (v = 0) as -> by (simpl in Hv; lia). simpl. f_equal. lia.
  - cbn [log2_loop]. cbv zeta.
    rewrite Z.shiftr_div_pow2 by lia. change (2 ^ 1) with 2.
    destruct (Z.eqb_spec (v / 2) 0) as [Hz|Hz].
    + assert (v = 0 \/ v = 1) as [-> | ->].
      { pose proof (Z.div_mod v 2 ltac:(lia)). pose proof (Z.mod_pos_bound v 2 ltac:(lia)). lia. }
      all: f_equal; simpl; lia.
    + assert (0 <= v / 2 < 2 ^ Z.of_nat fuel) as Hh.
      { split; [apply Z.div_pos; lia|].
        apply Z.div_lt_upper_bound; [lia|].
        rewrite Nat2Z.inj_succ, Z.pow_succ_r in Hv by lia. lia. }
      pose proof (IH (v / 2) (r + 1) Hh) as E. cbn [log2_loop] in E. cbv zeta in E.
      rewrite E. f_equal.
      assert (0 < v / 2) as Hpos by lia.
      assert (2 <= v) as H2.
      { destruct (Z.lt_ge_cases v 2) as [Hlt|?]; [|done].
        rewrite Z.div_small in Hz by lia. done. }
      pose proof (Z.log2_shiftr v 1 ltac:(lia)) as Hl.
      rewrite Z.shiftr_div_pow2 in Hl by lia. change (2 ^ 1) with 2 in Hl.
      assert (1 <= Z.log2 v) as H1.
      { change 1 with (Z.log2 2). apply Z.log2_le_mono. lia. }
      lia.
Qed.

(** X23: Watchdog::log2 returns the position of the highest set bit of its
    32-bit argument: for [v >= 1] the result [r] satisfies
    [2^r <= v < 2^(r+1)]; for 0 it returns 0. *)
Theorem X23_log2_is_the_highest_set_bit v :
  0 <= v < 2 ^ 32 ->
  exists r, log2 v = Some r /\ 0 <= r < 32 /\
            (v = 0 -> r = 0) /\ (0 < v -> 2 ^ r <= v < 2 ^ (r + 1)).
Proof.
  intros Hv. exists (Z.log2 v). split; [|split; [|split]].
  - unfold log2. by rewrite (log2_loop_spec 32 v 0 Hv).
  - split; [apply Z.log2_nonneg|].
    destruct (Z.eq_dec v 0) as [->|Hne]; [simpl; lia|].
    apply Z.log2_lt_pow2; lia.
  - by intros ->.
  - intros Hpos. replace (Z.log2 v + 1) with (Z.succ (Z.log2 v)) by lia.
    apply Z.log2_spec. done.
Qed.

Lemma X23_witness :
  exists r, log2 80 = Some r /\ 0 <= r < 32 /\
            (80 = 0 -> r = 0) /\ (0 < 80 -> 2 ^ r <= 80 < 2 ^ (r + 1)).
Proof.
  apply (X23_log2_is_the_highest_set_bit 80). lia.
Defined.

(** ** The return key on a unique match *)

Lemma call_frame m p s r sc :
  call m p s = Ok r sc ->
  calls sc = calls s ++ [(command m, p)] /\
  head sc = head s /\ buffer sc = buffer s /\ hist_same s sc /\
  bufferSize (cfg sc) = bufferSize (cfg s) /\
  caseinsensitive (cfg sc) = caseinsensitive (cfg s).
Proof.
  intros H. apply call_untouched in H as (?&?&?&?&?&?&?&?&?&?&?&?&?&?&?&?&?).
  simpl in *. unfold hist_same. repeat split; done.
Qed.

(** X24: a carriage return or line feed on a line whose command part is
    exactly the name of the one matching command calls that command's
    callback with the parameter text, and ProcessStandardSequence returns
    what the callback returns (runexit for Exit).  After the callback the
    line is entered into a well-formed history as its newest entry (the
    oldest goes when the history is full) unless the repeat check takes it
    for a repeat of what it reads as the newest entry; then the line is
    emptied and the prompt is due.  Beyond what the callback prints, nothing
    is printed. *)
Theorem X24_return_runs_the_matched_command c s b m r sc es last :
  c = CR \/ c = LF ->
  Z.of_nat (length (buffer s)) = bufferSize (cfg s) ->
  hist_wf s -> entries s = Some es ->
  line s = Some b -> b <> [] ->
  hits (caseinsensitive (cfg s)) b (head s) = [m] ->
  rewrite_needed b m = false ->
  call m (args_of b) s = Ok r sc ->
  read_history (historyCount s - 1) s = Ok last s ->
  exists s',
    ProcessStandardSequence c s = Ok r s' /\
    calls s' = calls s ++ [(command m, args_of b)] /\
    entries s' = Some (if mystrnicmp b last (length last) =? 0 then es
                       else fifo (historyDepth s) es b) /\
    line s' = Some [] /\ keycount s' = 0 /\ showPrompt s' = true /\
    output s' = output sc /\ head s' = head s /\ cfg s' = cfg sc.
Proof.
  intros Hc Hsz Hwf Hes Hl Hb Hh Hrw Hcall Hlast.
  rewrite (return_is_submit c Hc).
  assert (scan s b = mkFound 1 (Some m) (Some (params_of b))) as Hscan
    by (by rewrite scan_hits, Hh).
  pose proof (CommandMatches_true_plain s b m _ Hl Hb Hscan Hrw) as Hcm.
  rewrite Hscan in Hcm.
  destruct (call_frame _ _ _ _ _ Hcall) as (Hcalls & Hhead & Hbuf & Hsame & Hbs & Hci).
  assert (line sc = Some b) as Hlc by (unfold line; by rewrite Hbuf).
  assert (Z.of_nat (length (buffer sc)) = bufferSize (cfg sc)) as Hszc by (by rewrite Hbuf, Hbs).
  pose proof (hist_wf_same _ _ Hsame Hwf) as Hwfc.
  pose proof (entries_same _ _ Hsame) as Hesc. rewrite Hes in Hesc.
  assert (read_history (historyCount sc - 1) sc = Ok last sc) as Hlastc.
  { destruct Hsame as (Hhb & Hcn & _ & Hbh & _).
    unfold read_history in *. rewrite Hhb, Hcn, Hbh, Hbs.
    destruct (cstr_at _ _); [|done]. by injection Hlast as ->. }
  assert (exists s2,
            history_enter sc = Ok tt s2 /\
            entries s2 = Some (if mystrnicmp b last (length last) =? 0 then es
                               else fifo (historyDepth s) es b) /\
            buffer s2 = buffer s /\ cfg s2 = cfg sc /\ head s2 = head s /\
            calls s2 = calls sc /\ output s2 = output sc)
    as (s2 & Hen & Hes2 & Hb2 & Hcfg2 & Hh2 & Hcalls2 & Hout2).
  { destruct (Z.eqb_spec (mystrnicmp b last (length last)) 0) as [Hrep|Hrep].
    - exists sc. split; [by apply (history_enter_repeat sc b last)|]. done.
    - destruct (history_enter_fifo sc b last es Hwfc Hszc Hlc Hesc Hlastc Hrep)
        as (s2 & Hen & Hes2 & _ & _ & Hb2 & Hcfg2).
      destruct Hsame as (_ & _ & Hd & _ & _). rewrite Hd in Hes2.
      exists s2. split; [done|]. split; [done|]. split; [congruence|]. split; [done|].
      apply history_enter_counters in Hen as [->|(_ & _ & Hh2 & _ & _ & _ & Hc2 & Ho2 & _)];
        [done|]. repeat split; congruence. }
  destruct (poke_line_start s b Hl) as (buf & Hpk & Hl').
  exists (set_showPrompt true (set_buffer buf (set_keycount 0 s2))). split.
  - unfold submit. rewrite (bind_Ok_l _ _ _ _ _ (read_buffer_line s b Hl)).
    assert (negb (strlen b =? 0) = true) as ->.
    { apply negb_true_iff, Z.eqb_neq. intros H. by apply strlen_nil_iff in H. }
    mok.
    { mok; [exact Hcm|]. cbn [foundCount menu params]. change (1 =? 1) with true. cbv iota.
      mok; [exact (read_buffer_args s b Hl)|].
      mok; [exact Hcall|]. mok; [exact Hen|]. reflexivity. }
    mok; [reflexivity|]. mok; [|reflexivity].
    apply poke_buffer_fwd. simpl. by rewrite Hb2.
  - simpl. rewrite Hcalls2, Hout2, Hh2, Hcfg2, Hcalls. repeat split; done.
Qed.

Lemma X24_witness :
  exists s',
    ProcessStandardSequence CR exit_typed = Ok runexit s' /\
    calls s' = calls exit_typed ++ [(command ExitMenu, args_of (lit "Exit"))] /\
    entries s' = Some (if mystrnicmp (lit "Exit") (replicate 10 (chr "z"))
                            (length (replicate 10 (chr "z"))) =? 0
                       then []
                       else fifo (historyDepth exit_typed) [] (lit "Exit")) /\
    line s' = Some [] /\ keycount s' = 0 /\ showPrompt s' = true /\
    output s' = output (state_of (call ExitMenu (args_of (lit "Exit")) exit_typed)) /\
    head s' = head exit_typed /\
    cfg s' = cfg (state_of (call ExitMenu (args_of (lit "Exit")) exit_typed)).
Proof.
  apply (X24_return_runs_the_matched_command CR exit_typed (lit "Exit") ExitMenu runexit
           (state_of (call ExitMenu (args_of (lit "Exit")) exit_typed)) []
           (replicate 10 (chr "z"))).
  - by left.
  - vm_compute. reflexivity.
  - unfold hist_wf. split; [vm_compute; reflexivity|]. split; [vm_compute; reflexivity|].
    split; [vm_compute; split; discriminate|]. split; [vm_compute; discriminate|].
    intros i Hi.
    assert (historyCount exit_typed = 0) as E by (vm_compute; reflexivity).
    rewrite E in Hi. lia.
  - vm_compute. reflexivity.
  - vm_compute. reflexivity.
  - discriminate.
  - vm_compute. reflexivity.
  - vm_compute. reflexivity.
  - vm_compute. reflexivity.
  - vm_compute. reflexivity.
Defined.

(** ** The line just entered and the arrow keys *)

Lemma history_enter_index s b last u s' :
  line s = Some b ->
  read_history (historyCount s - 1) s = Ok last s ->
  mystrnicmp b last (length last) <> 0 ->
  history_enter s = Ok u s' ->
  whereInHistory s' = historyCount s' - 1.
Proof.
  intros Hl Hlast Hrep H. unfold history_enter in H.
  apply bind_Ok in H as (s0 & ? & E0 & H). unfold get in E0. injection E0 as <- <-.
  rewrite (bind_Ok_l _ _ _ _ _ (read_buffer_line s b Hl)) in H.
  rewrite (bind_Ok_l _ _ _ _ _ Hlast) in H.
  replace (negb (mystrnicmp b last (length last) =? 0)) with true in H
    by (symmetry; by apply negb_true_iff, Z.eqb_neq).
  unfold when at 1 in H.
  apply bind_Ok in H as (? & s1 & _ & H).
  mauto. simpl. lia.
Qed.

Lemma fifo_newest depth es b :
  exists pre, fifo depth es b = pre ++ [b].
Proof. unfold fifo. destruct (_ =? _); by eexists. Qed.

Lemma entries_newest s pre b :
  entries s = Some (pre ++ [b]) ->
  1 <= historyCount s /\ entry s (historyCount s - 1) = Some b.
Proof.
  intros H. apply entries_spec in H as [Hlen Hent].
  rewrite length_app in Hlen. simpl in Hlen.
  assert (1 <= historyCount s) as H1 by lia. split; [done|].
  specialize (Hent (length pre) b).
  replace (historyCount s - 1) with (Z.of_nat (length pre)) by lia.
  apply Hent. rewrite lookup_app_r by lia. by rewrite Nat.sub_diag.
Qed.

(** X25: a line that a carriage return has just entered into the history is
    the entry at the navigation index: the down arrow recalls it (and then
    the index equals the count).  The up arrow steps the index back before
    it recalls: when the line just entered is the only entry, the up arrow
    recalls nothing and hands on the escape code. *)
Theorem X25_down_arrow_recalls_the_line_just_entered c s b m f es last :
  c = CR \/ c = LF ->
  Z.of_nat (length (buffer s)) = bufferSize (cfg s) ->
  hist_wf s -> entries s = Some es ->
  line s = Some b -> b <> [] ->
  hits (caseinsensitive (cfg s)) b (head s) = [m] ->
  rewrite_needed b m = false ->
  callback m = User_cb f ->
  read_history (historyCount s - 1) s = Ok last s ->
  mystrnicmp b last (length last) <> 0 ->
  exists s1 s2,
    ProcessStandardSequence c s = Ok (f (args_of b)) s1 /\
    line s1 = Some [] /\
    whereInHistory s1 = historyCount s1 - 1 /\
    entry s1 (whereInHistory s1) = Some b /\
    ProcessComplexSequence 0x50 s1 = Ok 0 s2 /\
    line s2 = Some b /\ keycount s2 = strlen b /\
    whereInHistory s2 = historyCount s2 /\
    output s2 = output s ++ echoed b /\
    (historyCount s1 = 1 ->
     exists s3, ProcessComplexSequence 0x48 s1 = Ok ESC s3 /\
                line s3 = Some [] /\ whereInHistory s3 = 0).
Proof.
  intros Hc Hsz Hwf Hes Hl Hb Hh Hrw Hcb Hlast Hrep.
  rewrite (return_is_submit c Hc).
  assert (scan s b = mkFound 1 (Some m) (Some (params_of b))) as Hscan
    by (by rewrite scan_hits, Hh).
  pose proof (CommandMatches_true_plain s b m _ Hl Hb Hscan Hrw) as Hcm.
  rewrite Hscan in Hcm.
  set (s1 := set_calls (calls s ++ [(command m, args_of b)]) s).
  assert (call m (args_of b) s = Ok (f (args_of b)) s1) as Hcall.
  { unfold call. rewrite (bind_Ok_l (modify _) _ _ tt _ eq_refl). by rewrite Hcb. }
  assert (read_history (historyCount s1 - 1) s1 = Ok last s1) as Hlast1.
  { unfold read_history in *. simpl.
    destruct (cstr_at _ _); [|done]. by injection Hlast as ->. }
  destruct (history_enter_fifo s1 b last es Hwf Hsz Hl Hes Hlast1 Hrep)
    as (s2 & Hen & Hes2 & Hwf2 & _ & Hb2 & Hcfg2).
  pose proof (history_enter_index s1 b last tt s2 Hl Hlast1 Hrep Hen) as Hidx.
  destruct (fifo_newest (historyDepth s1) es b) as (pre & Hpre). rewrite Hpre in Hes2.
  destruct (entries_newest s2 pre b Hes2) as [Hc1 Hnew].
  assert (output s2 = output s) as Hout2.
  { apply history_enter_counters in Hen as [->|(_ & _ & _ & _ & _ & _ & _ & Ho & _)]; done. }
  destruct (poke_line_start s b Hl) as (buf & Hpk & Hl').
  set (s3 := set_showPrompt true (set_buffer buf (set_keycount 0 s2))).
  assert (submit s = Ok (f (args_of b)) s3) as Hsub.
  { unfold submit. rewrite (bind_Ok_l _ _ _ _ _ (read_buffer_line s b Hl)).
    assert (negb (strlen b =? 0) = true) as ->.
    { apply negb_true_iff, Z.eqb_neq. intros H. by apply strlen_nil_iff in H. }
    mok.
    { mok; [exact Hcm|]. cbn [foundCount menu params]. change (1 =? 1) with true. cbv iota.
      mok; [exact (read_buffer_args s b Hl)|].
      mok; [exact Hcall|]. mok; [exact Hen|]. reflexivity. }
    mok; [reflexivity|]. mok; [|reflexivity].
    apply poke_buffer_fwd. simpl. by rewrite Hb2. }
  pose proof (poke_length _ _ _ _ Hpk) as Hlen.
  pose proof (cstr_at_bound _ _ _ Hl) as Hfit.
  assert (entry s3 (whereInHistory s3) = Some b) as Hnew3.
  { unfold entry in *. simpl. by rewrite Hidx. }
  destruct (recall_run (whereInHistory s3) s3 b) as (buf' & _ & Hl3 & Hrc).
  { simpl. lia. }
  { simpl. rewrite Hcfg2. simpl. lia. }
  { exact Hnew3. }
  { simpl. rewrite Hlen. lia. }
  exists s3. eexists. split; [exact Hsub|]. split; [exact Hl'|].
  split; [exact Hidx|]. split; [exact Hnew3|]. split.
  - unfold ProcessComplexSequence. mok; [reflexivity|]. cbv beta.
    change ((80 =? 66) || (80 =? 80)) with true. cbv iota.
    assert ((negb (historyCount s3 =? 0) && (whereInHistory s3 <? historyCount s3)) = true)
      as ->.
    { simpl. apply andb_true_iff.
      split; [apply negb_true_iff, Z.eqb_neq; lia|apply Z.ltb_lt; lia]. }
    mok.
    { mok; [|reflexivity]. mok; [exact Hrc|]. reflexivity. }
    reflexivity.
  - simpl. rewrite Hout2. split; [exact Hl3|]. split; [done|]. split; [lia|].
    split; [done|]. intros H1. eexists. split.
    + unfold ProcessComplexSequence. mok; [reflexivity|]. cbv beta.
      change ((72 =? 66) || (72 =? 80)) with false.
      change ((72 =? 65) || (72 =? 72)) with true. cbv iota.
      replace (negb (historyCount s3 =? 0)) with true
        by (symmetry; apply negb_true_iff, Z.eqb_neq; simpl; lia).
      mok.
      { mok; [reflexivity|].
        replace (0 <=? whereInHistory s3 - 1) with false
          by (symmetry; apply Z.leb_gt; simpl; lia).
        mok; [reflexivity|]. reflexivity. }
      reflexivity.
    + simpl. split; [exact Hl'|done].
Qed.

Lemma X25_witness :
  exists s1 s2,
    ProcessStandardSequence CR go_typed_depth2 = Ok ((fun _ => runok) (args_of (lit "Go 1"))) s1 /\
    line s1 = Some [] /\
    whereInHistory s1 = historyCount s1 - 1 /\
    entry s1 (whereInHistory s1) = Some (lit "Go 1") /\
    ProcessComplexSequence 0x50 s1 = Ok 0 s2 /\
    line s2 = Some (lit "Go 1") /\ keycount s2 = strlen (lit "Go 1") /\
    whereInHistory s2 = historyCount s2 /\
    output s2 = output go_typed_depth2 ++ echoed (lit "Go 1") /\
    (historyCount s1 = 1 ->
     exists s3, ProcessComplexSequence 0x48 s1 = Ok ESC s3 /\
                line s3 = Some [] /\ whereInHistory s3 = 0).
Proof.
  apply (X25_down_arrow_recalls_the_line_just_entered CR go_typed_depth2 (lit "Go 1")
           (user_cmd "Go") (fun _ => runok) [lit "A"] (lit "A")).
  - by left.
  - vm_compute. reflexivity.
  - unfold hist_wf. split; [vm_compute; reflexivity|]. split; [vm_compute; reflexivity|].
    split; [vm_compute; split; discriminate|]. split; [vm_compute; discriminate|].
    intros i Hi.
    assert (historyCount go_typed_depth2 = 1) as E by (vm_compute; reflexivity).
    rewrite E in Hi. assert (i = 0) as -> by lia.
    exists (lit "A"). split; vm_compute; reflexivity.
  - vm_compute. reflexivity.
  - vm_compute. reflexivity.
  - discriminate.
  - vm_compute. reflexivity.
  - vm_compute. reflexivity.
  - reflexivity.
  - vm_compute. reflexivity.
  - vm_compute. discriminate.
Defined.

(** ** The Filename command of the host program *)

(** X26: Filename, called with a parameter of fewer than 32 characters,
    makes it the file name, builds the long name from it with the prefix
    /sd/, switches the led off, reports success on the serial port and
    returns runok.  Called with a parameter of 32 characters or more it
    copies the parameter past the end of [filename]; the command processor
    as main configures it hands such parameters over
    (main_passes_a_long_parameter below). *)
Theorem X26_Filename_sets_the_name_or_overruns p h :
  length (filename h) = 32%nat -> length (longfilename h) = 48%nat ->
  nonul p -> p <> [] ->
  if strlen p <? 32
  then exists fn lfn,
         Filename p h = HostOk runok (mkHost 0 fn lfn (btserial h ++ [SUCCESS])) /\
         cstr_at fn 0 = Some p /\ cstr_at lfn 0 = Some (lit "/sd/" ++ p) /\
         length fn = 32%nat /\ length lfn = 48%nat
  else Filename p h = HostFault FilenameBlk 32.
Proof.
  intros Hf Hlf Hn Hp. unfold Filename.
  assert (negb (deref p =? 0) = true) as ->.
  { destruct p as [|c p]; [done|]. apply nonul_cons in Hn as [Hc _].
    apply negb_true_iff, Z.eqb_neq. exact Hc. }
  destruct (Z.ltb_spec (strlen p) 32) as [Hlt|Hge].
  - destruct (store_cstr_Some (filename h) 0 p ltac:(lia) ltac:(lia)) as (fn & Hfn).
    assert (nonul (lit "/sd/" ++ p)) as Hn2.
    { apply nonul_app. split; [|done]. repeat constructor; discriminate. }
    destruct (store_cstr_Some (longfilename h) 0 (lit "/sd/" ++ p) ltac:(lia))
      as (lfn & Hlfn).
    { rewrite strlen_app. change (strlen (lit "/sd/")) with 4. lia. }
    pose proof (cstr_at_store_same _ _ _ _ Hfn Hn) as Hc1.
    pose proof (cstr_at_store_same _ _ _ _ Hlfn Hn2) as Hc2.
    exists fn, lfn. rewrite Hfn, Hc1, Hlfn.
    split; [done|]. split; [done|]. split; [done|].
    split; [by rewrite (store_cstr_length _ _ _ _ Hfn)|by rewrite (store_cstr_length _ _ _ _ Hlfn)].
  - unfold store_cstr. rewrite Hf.
    replace (0 + strlen p + 1 <=? Z.of_nat 32) with false by (symmetry; apply Z.leb_gt; lia).
    reflexivity.
Qed.

Lemma X26_witness :
  if strlen (replicate 40 (chr "a")) <? 32
  then exists fn lfn,
         Filename (replicate 40 (chr "a")) host0
         = HostOk runok (mkHost 0 fn lfn (btserial host0 ++ [SUCCESS])) /\
         cstr_at fn 0 = Some (replicate 40 (chr "a")) /\
         cstr_at lfn 0 = Some (lit "/sd/" ++ replicate 40 (chr "a")) /\
         length fn = 32%nat /\ length lfn = 48%nat
  else Filename (replicate 40 (chr "a")) host0 = HostFault FilenameBlk 32.
Proof.
  apply (X26_Filename_sets_the_name_or_overruns (replicate 40 (chr "a")) host0).
  - reflexivity.
  - reflexivity.
  - apply Forall_replicate. discriminate.
  - discriminate.
Defined.

(** The command processor as main configures it hands Filename a parameter
    of 40 characters when that is what was typed. *)
Lemma main_passes_a_long_parameter :
  calls (state_of (session (lit "Filename " ++ replicate 40 (chr "a") ++ [CR]) main_boot))
  = [(lit "About", []); (lit "Filename", replicate 40 (chr "a"))].
Proof. vm_compute. reflexivity. Qed.

(** ** The two case rules *)

(** X27: a command that a line matches under the case-sensitive rule is
    matched under the case-insensitive rule as well: configuring
    CFG_CASE_INSENSITIVE never makes a line match fewer commands. *)
Theorem X27_case_insensitive_matches_more b l m :
  nonul b -> m ∈ hits false b l -> m ∈ hits true b l.
Proof.
  intros Hn Hm. apply hits_elem in Hm as [Hin Hm]. apply hits_elem. split; [done|].
  apply matches_iff in Hm; [|done]. apply matches_iff; [done|].
  unfold fold_case in *. by rewrite Hm.
Qed.

Lemma X27_witness : HelpMenu ∈ hits true (lit "He 12") (head boot).
Proof.
  apply (X27_case_insensitive_matches_more (lit "He 12") (head boot) HelpMenu).
  - repeat constructor; discriminate.
  - assert (hits false (lit "He 12") (head boot) = [HelpMenu]) as ->
      by (vm_compute; reflexivity).
    left.
Defined.
(** ** The rewriting of the line to the full name *)



(** ** The rule that the line is empty or matches a command *)

(** X30: the invariant [Inv] of the statics (the line buffer has the
    configured size and holds a terminated line of [keycount] characters
    that is empty or matches, up to its first space and under the
    configured case rule, the name of a registered command; the names are
    proper strings; the navigation index lies within the stored entries;
    every stored entry that fits the line buffer is empty or matches a
    command) is kept by every call of Run that returns, with a key or
    without, and by every Add of a command with a proper name; and a
    successful Init on the statics of program start establishes it when the
    block it obtained for the line buffer starts with a zero byte. *)
Theorem X30_prefix_rule_is_kept :
  (forall key s r s',
     Inv s -> CommandProcessor_Run key s = Ok r s' ->
     Inv s' /\ exists b, line s' = Some b /\ keycount s' = strlen b /\ prefix_ok s' b) /\
  (forall m temp s r s',
     Inv s -> nonul (command m) -> CommandProcessor_Add m temp s = Ok r s' -> Inv s') /\
  (forall banner config maxCmdLen numInHistory links jb jh before r s,
     CommandProcessor_Init banner config maxCmdLen numInHistory links
       (Some jb) (Some jh) before statics = Ok r s ->
     jb 0%nat = 0 ->
     (forall m, banner = Some m -> nonul (command m)) ->
     Inv s).
Proof.
  split; [|split].
  - intros key s r s' HI H. apply Inv_Run in H; [|done]. split; [done|].
    exact (inv_line _ H).
  - intros m temp s r s' HI Hn H. by eapply Inv_Add.
  - intros banner config maxCmdLen numInHistory links jb jh before r s H Hj Hb.
    apply Fresh_Inv. by eapply Inv_Init.
Qed.

Lemma X30_witness :
  Inv (state_of (CommandProcessor_Run (Some (chr "H")) boot)) /\
  exists b, line (state_of (CommandProcessor_Run (Some (chr "H")) boot)) = Some b /\
            keycount (state_of (CommandProcessor_Run (Some (chr "H")) boot)) = strlen b /\
            prefix_ok (state_of (CommandProcessor_Run (Some (chr "H")) boot)) b.
Proof.
  apply (proj1 X30_prefix_rule_is_kept (Some (chr "H")) boot runok).
  - apply (proj2 (proj2 X30_prefix_rule_is_kept) None
             (CFG_ENABLE_SYSTEM + CFG_ENABLE_TERMINATE) 10 2 (fun _ => true)
             zeros zeros (replicate 10 (chr "z")) initok boot).
    + vm_compute. reflexivity.
    + reflexivity.
    + intros m Hm. discriminate Hm.
  - vm_compute. reflexivity.
Defined.

(** * The properties of the specification, C1 to C10 *)

(** ** C1: the result of CommandProcessor_Run *)

(** C1 (the claim fails on the code): with "Exit" typed, the carriage return
    makes ProcessStandardSequence run the Exit callback and return [runexit],
    yet CommandProcessor_Run, which ends in the same state, returns [runok]:
    it never looks at what ProcessStandardSequence returned. *)
Theorem C1_Run_drops_exit_signal :
  exists s',
    ProcessStandardSequence CR exit_typed = Ok runexit s' /\
    CommandProcessor_Run (Some CR) exit_typed = Ok runok s' /\
    calls s' = [(lit "Exit", [])].
Proof. eexists. split; [|split]; vm_compute; reflexivity. Qed.

(** ** C2: the comparison window is the typed command part *)

Lemma compare_Go ci :
  compare_name ci (lit "Go") (lit "Go") 2 = 0 /\
  compare_name ci (lit "Go") (lit "Gop") 2 = 0.
Proof. destruct ci; split; vm_compute; reflexivity. Qed.

Lemma before_space_typed b : before_space b = typed_of b.
Proof.
  unfold typed_of, compareLength_of. induction b as [|x b IH]; [done|].
  simpl. destruct (x =? SPACE); [done|].
  assert (match Z.succ <$> strchr b SPACE with
          | Some i => i
          | None => strlen (x :: b)
          end = 1 + match strchr b SPACE with
                    | Some i => i
                    | None => strlen b
                    end) as ->.
  { destruct (strchr b SPACE); simpl; [lia|]. unfold strlen. simpl length. lia. }
  pose proof (compareLength_of_bounds b) as Hb. unfold compareLength_of in Hb.
  rewrite Z2Nat.inj_add by lia. simpl. by rewrite IH.
Qed.

Lemma before_space_length b :
  length (before_space b) = Z.to_nat (compareLength_of b).
Proof.
  rewrite before_space_typed. unfold typed_of. rewrite length_take.
  pose proof (compareLength_of_nat b). lia.
Qed.

(** The commands that CommandMatches counts are those that the line
    matches on the window of the specification. *)
Lemma hits_window s b :
  nonul b ->
  Z.of_nat (length (hits (caseinsensitive (cfg s)) b (head s))) = window_count s b.
Proof.
  intros Hb. unfold window_count, hits. do 2 f_equal.
  apply list_filter_iff. intros m. unfold window_match.
  rewrite before_space_length, before_space_typed. by apply matches_iff.
Qed.

(** C2: CommandMatches counts the commands whose name agrees, under the
    case rule, with the typed text before the first space on as many
    leading characters as that text has, whatever follows in the name and
    whatever follows the space in the line.  Called to validate it always
    returns that count and changes nothing; called to execute it returns
    the same count whenever it returns.  With exactly Go and Gop registered
    (in either order) and the line Go in the buffer, the carriage return or
    line feed finds two matches, prints the non-unique message as its only
    output, calls no callback, and leaves an empty line. *)
Theorem C2_typed_length_is_the_window :
  (forall s b, line s = Some b -> b <> [] ->
     (exists f, CommandMatches false s = Ok f s /\ foundCount f = window_count s b) /\
     (forall f s', CommandMatches true s = Ok f s' -> foundCount f = window_count s b)) /\
  (forall s m1 m2 c,
     head s = [m1; m2] ->
     (command m1 = lit "Go" /\ command m2 = lit "Gop") \/
     (command m1 = lit "Gop" /\ command m2 = lit "Go") ->
     line s = Some (lit "Go") ->
     c = CR \/ c = LF ->
     foundCount (scan s (lit "Go")) = 2 /\
     exists s',
       ProcessStandardSequence c s = Ok runok s' /\
       output s' = output s ++ [Puts NON_UNIQUE] /\
       calls s' = calls s /\
       line s' = Some [] /\ keycount s' = 0).
Proof.
  split.
  { intros s b Hl Hne.
    pose proof (proj1 (line_block _ _) Hl) as (Hnb & _).
    assert (foundCount (scan s b) = window_count s b) as Hscan.
    { rewrite scan_hits. cbn [foundCount]. by apply hits_window. }
    assert ((strlen b =? 0) = false) as Hz.
    { apply Z.eqb_neq. intros H. by apply strlen_nil_iff in H. }
    split.
    - exists (scan s b). split; [|exact Hscan].
      rewrite (CommandMatches_false s b Hl). by rewrite Hz.
    - intros f s' H.
      apply (CommandMatches_true_Ok s b f s' Hl Hne) in H
        as [(-> & _ & _)|(m & buf & p & Hs & _ & _ & _ & _ & _ & ->)]; [exact Hscan|].
      rewrite <- Hscan, Hs. reflexivity. }
  intros s m1 m2 c Hh Hn Hl Hc.
  destruct (compare_Go (caseinsensitive (cfg s))) as [C1 C2].
  assert (scan s (lit "Go") = mkFound 2 (Some m2) (Some 2)) as Hs.
  { unfold scan. rewrite Hh.
    change (Z.to_nat (compareLength_of (lit "Go"))) with 2%nat.
    change (params_of (lit "Go")) with 2.
    simpl match_links. destruct Hn as [[-> ->]|[-> ->]]; by rewrite C1, C2. }
  split; [by rewrite Hs|].
  assert (CommandMatches true s = Ok (mkFound 2 (Some m2) (Some 2)) s) as Hcm.
  { unfold CommandMatches. rewrite (bind_Ok_l _ _ _ _ _ (read_buffer_line _ _ Hl)).
    change (strlen (lit "Go") =? 0) with false. cbv iota.
    rewrite (bind_Ok_l get _ s s s eq_refl). fold (scan s (lit "Go")).
    rewrite Hs. done. }
  destruct (poke_line_start _ _ Hl) as (m & Hp & Hm).
  exists (set_showPrompt true
            (set_buffer m (set_keycount 0 (set_output (output s ++ [Puts NON_UNIQUE]) s)))).
  split; [|done].
  assert (ProcessStandardSequence c s = submit s) as ->.
  { destruct Hc as [-> | ->]; reflexivity. }
  unfold submit. rewrite (bind_Ok_l _ _ _ _ _ (read_buffer_line _ _ Hl)).
  change (negb (strlen (lit "Go") =? 0)) with true. cbv iota.
  rewrite (bind_Ok_l (bind (CommandMatches true) _) _ s runok
             (set_output (output s ++ [Puts NON_UNIQUE]) s)).
  2:{ rewrite (bind_Ok_l _ _ _ _ _ Hcm). reflexivity. }
  rewrite (bind_Ok_l (modify _) _ _ tt _ eq_refl).
  rewrite (bind_Ok_l (poke_buffer 0 0) _ _ tt
             (set_buffer m (set_keycount 0 (set_output (output s ++ [Puts NON_UNIQUE]) s)))).
  2:{ unfold poke_buffer. simpl buffer. by rewrite Hp. }
  reflexivity.
Qed.

Lemma C2_witness :
  ((exists f, CommandMatches false he_typed = Ok f he_typed /\
              foundCount f = window_count he_typed (lit "He 12")) /\
   (forall f s', CommandMatches true he_typed = Ok f s' ->
                 foundCount f = window_count he_typed (lit "He 12"))) /\
  window_count he_typed (lit "He 12") = 1 /\
  foundCount (scan go_typed (lit "Go")) = 2 /\
  exists s',
    ProcessStandardSequence CR go_typed = Ok runok s' /\
    output s' = output go_typed ++ [Puts NON_UNIQUE] /\
    calls s' = calls go_typed /\
    line s' = Some [] /\ keycount s' = 0.
Proof.
  split; [|split].
  - apply (proj1 C2_typed_length_is_the_window he_typed (lit "He 12")).
    + vm_compute. reflexivity.
    + discriminate.
  - vm_compute. reflexivity.
  - apply (proj2 C2_typed_length_is_the_window go_typed (user_cmd "Gop") (user_cmd "Go") CR).
    + vm_compute. reflexivity.
    + right. split; reflexivity.
    + vm_compute. reflexivity.
    + left. reflexivity.
Defined.

(** ** C3: the order of the registry *)

(** C3 (the claim fails on the code): registering "A" and then "B" leaves the
    registry as B, A.  The search stops with [prev] on the first link both
    when nothing was passed and when exactly one link was passed, and the
    test [prev == head] then puts the new link in front in both cases. *)
Theorem C3_Add_breaks_order :
  exists s1 s2,
    CommandProcessor_Add (user_cmd "A") true statics = Ok addok s1 /\
    CommandProcessor_Add (user_cmd "B") true s1 = Ok addok s2 /\
    names s2 = [lit "B"; lit "A"] /\
    ci_sorted (names s2) = false.
Proof. do 2 eexists. split; [|split; [|split]]; vm_compute; reflexivity. Qed.

(** The built-in commands themselves end up out of order. *)
Lemma boot_names :
  names boot = [lit "Exit"; lit "Echo"; lit "Help"; lit "?"; lit "History"] /\
  ci_sorted (names boot) = false.
Proof. split; vm_compute; reflexivity. Qed.

(** ** C4: writes into the line buffer *)

(** C4 (the claim fails on the code): the guard [keycount < cfg.bufferSize]
    admits a character when only the last byte of the block is free; the
    character goes into that byte and the terminator is written one past
    the block of [cfg.bufferSize] bytes that Init allocated. *)
Theorem C4_terminator_written_past_block c s :
  Z.of_nat (length (buffer s)) = bufferSize (cfg s) ->
  keycount s = bufferSize (cfg s) - 1 -> 0 <= keycount s ->
  myisprint c = true -> c <> 0x5B ->
  ProcessStandardSequence c s = Fault (BadWrite BufferBlk (bufferSize (cfg s))).
Proof.
  intros Hsz Hk Hk0 Hpr Hc.
  assert (32 <= c <= 126) as Hrange.
  { unfold myisprint in Hpr. apply andb_prop in Hpr as [H1 H2]. lia. }
  unfold ProcessStandardSequence, TAB, ESC, BS, CR, LF.
  destruct (Z.eqb_spec c 0); [lia|].
  destruct (Z.eqb_spec c 91); [lia|].
  destruct (Z.eqb_spec c 224); [lia|].
  destruct (Z.eqb_spec c 9); [lia|].
  destruct (Z.eqb_spec c 27); [lia|].
  destruct (Z.eqb_spec c 8); [lia|].
  destruct (Z.eqb_spec c 13); [lia|].
  destruct (Z.eqb_spec c 10); [lia|]. simpl orb. cbv iota.
  apply bind_Fault_l. unfold insert.
  rewrite (bind_Ok_l get _ s s s eq_refl). rewrite Hpr.
  destruct (Z.ltb_spec (keycount s) (bufferSize (cfg s))); [|lia].
  change (true && true) with true. cbv iota.
  assert (poke_buffer (keycount s) c s
          = Ok tt (set_buffer (<[Z.to_nat (keycount s) := c]> (buffer s)) s)) as Hp1.
  { unfold poke_buffer, poke.
    destruct (Z.leb_spec 0 (keycount s)); [|lia].
    destruct (Z.ltb_spec (keycount s) (Z.of_nat (length (buffer s)))); [|lia]. done. }
  rewrite (bind_Ok_l _ _ _ _ _ Hp1).
  rewrite (bind_Ok_l (modify _) _ _ tt _ eq_refl).
  apply bind_Fault_l. unfold poke_buffer, poke. simpl buffer. rewrite length_insert.
  destruct (Z.ltb_spec (keycount s + 1) (Z.of_nat (length (buffer s)))); [lia|].
  rewrite andb_false_r. f_equal. f_equal. lia.
Qed.

Lemma C4_witness :
  ProcessStandardSequence (chr "r") histo_typed = Fault (BadWrite BufferBlk 6).
Proof.
  apply (C4_terminator_written_past_block (chr "r") histo_typed);
    vm_compute; (reflexivity || discriminate).
Defined.

(** ** C5: the entry of a line into the history *)

(** What the history holds when the second of two lines only extends the
    first (depth 1, the lines Go and Go 1): the repeat check of C10 takes
    the second for a repeat. *)
Lemma Go_extended_entries :
  entries (state_of (session (submit_keys [lit "Go"; lit "Go 1"]) (boot_depth 1)))
  = Some [lit "Go"].
Proof. vm_compute. reflexivity. Qed.

(** C5 (the claim fails on the code): before a line is stored it is compared
    with the newest entry, which is read at slot [historyCount - 1].  On an
    empty history that is slot -1: the string at
    [historyBuffer - cfg.bufferSize], in front of the history block.  So the
    first carriage return or line feed that executes a command reads outside
    the block, and what it finds there decides whether the line is stored.
    When a zero byte lies there, the string read is empty, the comparison
    over its length 0 gives 0, the line is taken for a repeat and is not
    stored; the history is then still empty, so this happens to every line.
    With depth 2 the submitted lines A, B, C leave no entry at all when
    zero bytes lie in front of the block, and leave B, C only when the
    bytes there differ from the first line. *)
Theorem C5_first_entry_reads_in_front_of_the_history :
  (forall c s b m r sc,
     c = CR \/ c = LF ->
     historyCount s = 0 -> 0 < bufferSize (cfg s) ->
     line s = Some b -> b <> [] ->
     hits (caseinsensitive (cfg s)) b (head s) = [m] ->
     rewrite_needed b m = false ->
     call m (args_of b) s = Ok r sc ->
     (strlen (beforeHistory s) < bufferSize (cfg s) ->
      ProcessStandardSequence c s = Fault (BadRead HistoryBlk (- bufferSize (cfg s)))) /\
     (forall pre post,
        beforeHistory s = pre ++ 0 :: post ->
        strlen (0 :: post) = bufferSize (cfg s) ->
        exists s',
          ProcessStandardSequence c s = Ok r s' /\
          historyCount s' = 0 /\ historyBuffer s' = historyBuffer s /\
          entries s' = Some [])) /\
  session (submit_keys [lit "A"; lit "B"; lit "C"]) (boot_depth_before [] 2)
  = Fault (BadRead HistoryBlk (-10)) /\
  (exists s',
     session (submit_keys [lit "A"; lit "B"; lit "C"])
       (boot_depth_before (replicate 10 0) 2) = Ok tt s' /\
     entries s' = Some []) /\
  (exists s',
     session (submit_keys [lit "A"; lit "B"; lit "C"]) (boot_depth 2) = Ok tt s' /\
     entries s' = Some [lit "B"; lit "C"]).
Proof.
  split; [|split; [vm_compute; reflexivity|split; eexists; split; vm_compute; reflexivity]].
  intros c s b m r sc Hc Hn Hsz Hl Hb Hh Hrw Hcall.
  rewrite (return_is_submit c Hc).
  assert (scan s b = mkFound 1 (Some m) (Some (params_of b))) as Hscan
    by (by rewrite scan_hits, Hh).
  pose proof (CommandMatches_true_plain s b m _ Hl Hb Hscan Hrw) as Hcm.
  rewrite Hscan in Hcm.
  destruct (call_frame _ _ _ _ _ Hcall) as (Hcalls & Hhead & Hbuf & Hsame & Hbs & Hci).
  destruct Hsame as (Hhb & Hcn & Hd & Hbh & _).
  assert (line sc = Some b) as Hlc by (unfold line; by rewrite Hbuf).
  assert (negb (strlen b =? 0) = true) as Hnz.
  { apply negb_true_iff, Z.eqb_neq. intros H. by apply strlen_nil_iff in H. }
  split.
  - intros Hshort. unfold submit.
    rewrite (bind_Ok_l _ _ _ _ _ (read_buffer_line s b Hl)). rewrite Hnz.
    apply bind_Fault_l. rewrite (bind_Ok_l _ _ _ _ _ Hcm). cbn [foundCount menu params].
    change (1 =? 1) with true. cbv iota.
    rewrite (bind_Ok_l _ _ _ _ _ (read_buffer_args s b Hl)).
    rewrite (bind_Ok_l _ _ _ _ _ Hcall).
    apply bind_Fault_l. unfold history_enter.
    rewrite (bind_Ok_l get _ sc sc sc eq_refl).
    rewrite (bind_Ok_l _ _ _ _ _ (read_buffer_line sc b Hlc)).
    apply bind_Fault_l. unfold read_history, cstr_at. rewrite Hbh, Hcn, Hn, Hbs.
    replace (0 <=? strlen (beforeHistory s) + (0 - 1) * bufferSize (cfg s)) with false
      by (symmetry; apply Z.leb_gt; lia).
    repeat f_equal; lia.
  - intros pre post Hbefore Hlen.
    assert (read_history (historyCount sc - 1) sc = Ok [] sc) as Hread.
    { unfold read_history. rewrite Hbh, Hhb, Hcn, Hn, Hbs, Hbefore.
      replace (strlen (pre ++ 0 :: post) + (0 - 1) * bufferSize (cfg s)) with (strlen pre)
        by (rewrite strlen_app; lia).
      rewrite <- app_assoc.
      change (pre ++ (0 :: post) ++ historyBuffer s)
        with (pre ++ [] ++ 0 :: post ++ historyBuffer s).
      by rewrite (cstr_at_app pre [] (post ++ historyBuffer s) ltac:(constructor)). }
    assert (history_enter sc = Ok tt sc) as Hen
      by (by apply (history_enter_repeat sc b [])).
    destruct (poke_line_start s b Hl) as (buf & Hpk & Hl').
    exists (set_showPrompt true (set_buffer buf (set_keycount 0 sc))). split.
    + unfold submit. rewrite (bind_Ok_l _ _ _ _ _ (read_buffer_line s b Hl)). rewrite Hnz.
      mok.
      { mok; [exact Hcm|]. cbn [foundCount menu params]. change (1 =? 1) with true. cbv iota.
        mok; [exact (read_buffer_args s b Hl)|].
        mok; [exact Hcall|]. mok; [exact Hen|]. reflexivity. }
      mok; [reflexivity|]. mok; [|reflexivity].
      apply poke_buffer_fwd. simpl. by rewrite Hbuf.
    + simpl. split; [congruence|]. split; [done|].
      unfold entries. simpl. by rewrite Hcn, Hn.
Qed.

Lemma C5_witness :
  ProcessStandardSequence CR (a_typed_before [] 2) = Fault (BadRead HistoryBlk (-10)) /\
  exists s',
    ProcessStandardSequence CR (a_typed_before (replicate 10 0) 2) = Ok runok s' /\
    historyCount s' = 0 /\
    historyBuffer s' = historyBuffer (a_typed_before (replicate 10 0) 2) /\
    entries s' = Some [].
Proof.
  destruct C5_first_entry_reads_in_front_of_the_history as [H _].
  split.
  - apply (H CR (a_typed_before [] 2) (lit "A") (user_cmd "A") runok
             (state_of (call (user_cmd "A") [] (a_typed_before [] 2)))).
    + by left.
    + vm_compute. reflexivity.
    + vm_compute. reflexivity.
    + vm_compute. reflexivity.
    + discriminate.
    + vm_compute. reflexivity.
    + vm_compute. reflexivity.
    + vm_compute. reflexivity.
    + vm_compute. reflexivity.
  - destruct (H CR (a_typed_before (replicate 10 0) 2) (lit "A") (user_cmd "A") runok
                (state_of (call (user_cmd "A") [] (a_typed_before (replicate 10 0) 2)))
                ltac:(by left) ltac:(vm_compute; reflexivity) ltac:(vm_compute; reflexivity)
                ltac:(vm_compute; reflexivity) ltac:(discriminate)
                ltac:(vm_compute; reflexivity) ltac:(vm_compute; reflexivity)
                ltac:(vm_compute; reflexivity)) as [_ H2].
    apply (H2 [] (replicate 9 0)).
    + vm_compute. reflexivity.
    + vm_compute. reflexivity.
Defined.

(** ** C6: the rewriting of the line *)

(** C6 (the claim fails on the code): the line is rewritten in a block of
    [cfg.bufferSize] bytes and copied back into the line buffer of the same
    size, and nothing tests that the name, a space and the parameter text
    fit.  A line that one command matches and whose command part is not
    that command's name can be shorter than the buffer while the rewritten
    line is not; then CommandMatches, called with the wish to execute,
    writes past the end of the block, and so does every carriage return or
    line feed on that line: the buffer is not rewritten, nothing is
    re-echoed and no callback is called.  With a buffer of ten bytes this
    is the case for the line "He 12345", to be rewritten to "Help 12345". *)
Theorem C6_rewrite_overruns_the_buffer c s b m :
  c = CR \/ c = LF ->
  line s = Some b -> b <> [] ->
  hits (caseinsensitive (cfg s)) b (head s) = [m] ->
  typed_of b <> command m ->
  bufferSize (cfg s) <= strlen (command m ++ SPACE :: args_of b) ->
  CommandMatches true s = Fault (BadWrite AlternateBlk (bufferSize (cfg s))) /\
  ProcessStandardSequence c s = Fault (BadWrite AlternateBlk (bufferSize (cfg s))).
Proof.
  intros Hc Hl Hb Hh Hty Hlong.
  pose proof (proj1 (line_block _ _) Hl) as (Hnb & _).
  assert (matches (caseinsensitive (cfg s)) b m = true) as Hm.
  { assert (m ∈ hits (caseinsensitive (cfg s)) b (head s)) as Hin by (rewrite Hh; left).
    by apply hits_elem in Hin as [_ ?]. }
  assert (rewrite_needed b m = true) as Hrw by (by eapply rewrite_needed_iff).
  assert ((strlen b =? 0) = false) as Hz.
  { apply Z.eqb_neq. intros H. by apply strlen_nil_iff in H. }
  assert (CommandMatches true s = Fault (BadWrite AlternateBlk (bufferSize (cfg s)))) as Hcm.
  { unfold CommandMatches. rewrite (bind_Ok_l _ _ _ _ _ (read_buffer_line _ _ Hl)).
    rewrite Hz. rewrite (bind_Ok_l get _ s s s eq_refl).
    fold (scan s b). rewrite scan_hits, Hh. cbn [menu foundCount length last].
    change (Z.of_nat 1 =? 1) with true. cbn [andb].
    fold (rewrite_needed b m). rewrite Hrw.
    rewrite (bind_Ok_l _ _ _ _ _ (read_buffer_args s b Hl)).
    unfold bind, write_alternate.
    destruct (strlen (command m) + 1 <=? bufferSize (cfg s)); [|done].
    destruct (strlen (command m ++ [SPACE]) + 1 <=? bufferSize (cfg s)); [|done].
    change ([SPACE] ++ args_of b) with (SPACE :: args_of b).
    destruct (Z.leb_spec (strlen (command m ++ SPACE :: args_of b) + 1) (bufferSize (cfg s)));
      [lia|done]. }
  split; [exact Hcm|].
  assert (ProcessStandardSequence c s = submit s) as ->.
  { destruct Hc as [-> | ->]; reflexivity. }
  unfold submit. rewrite (bind_Ok_l _ _ _ _ _ (read_buffer_line _ _ Hl)).
  rewrite Hz. cbn [negb]. apply bind_Fault_l. by apply bind_Fault_l.
Qed.

Lemma C6_witness :
  line he12345_typed = Some (lit "He 12345") /\
  keycount he12345_typed = 8 /\ bufferSize (cfg he12345_typed) = 10 /\
  CommandMatches true he12345_typed = Fault (BadWrite AlternateBlk 10) /\
  ProcessStandardSequence CR he12345_typed = Fault (BadWrite AlternateBlk 10).
Proof.
  split; [vm_compute; reflexivity|]. split; [vm_compute; reflexivity|].
  split; [vm_compute; reflexivity|].
  apply (C6_rewrite_overruns_the_buffer CR he12345_typed (lit "He 12345") HelpMenu).
  - by left.
  - vm_compute. reflexivity.
  - discriminate.
  - vm_compute. reflexivity.
  - vm_compute. discriminate.
  - vm_compute. discriminate.
Defined.

(** ** C7: the navigation index after an entry *)

(** C7 (the claim fails on the code): after the line Help was submitted and
    stored as the only entry, the count is 1 and the navigation index is 0,
    not 1.  The up arrow that follows finds no older entry and cancels,
    leaving an empty line; it is the down arrow that recalls Help. *)
Theorem C7_index_left_below_count :
  entries help_submitted = Some [lit "Help"] /\
  historyCount help_submitted = 1 /\
  whereInHistory help_submitted = 0 /\
  line (state_of (session [0xE0; 0x48] help_submitted)) = Some [] /\
  line (state_of (session [0xE0; 0x50] help_submitted)) = Some (lit "Help").
Proof. repeat split; vm_compute; reflexivity. Qed.

(** ** C8: the line after initialisation *)

(** C8 (the claim fails on the code): Init allocates the line buffer and
    never writes to it, so the line is whatever the block holds.  On a
    block that starts with the bytes Z, q and a zero byte, Init returns
    initok with the line Zq in the buffer and a key count of 0; a backspace
    or a byte that is not printable (here 0x01) then only rings the bell,
    and after the byte is processed the line is still Zq, which is not
    empty and matches none of the registered commands. *)
Theorem C8_unwritten_line_matches_no_command :
  CommandProcessor_Init None (CFG_ENABLE_SYSTEM + CFG_ENABLE_TERMINATE) 10 2
    (fun _ => true) (Some junk_Zq) (Some zeros) (replicate 10 (chr "z")) statics
  = Ok initok boot_junk /\
  names boot_junk = [lit "Exit"; lit "Echo"; lit "Help"; lit "?"; lit "History"] /\
  forall key, key = BS \/ key = 1 ->
    exists s',
      CommandProcessor_Run (Some key) boot_junk = Ok runok s' /\
      output s' = [Putch BELL] /\
      head s' = head boot_junk /\
      line s' = Some (lit "Zq") /\ keycount s' = 0 /\
      ~ prefix_ok s' (lit "Zq").
Proof.
  split; [vm_compute; reflexivity|]. split; [vm_compute; reflexivity|].
  assert (hits false (lit "Zq") (head boot_junk) = []) as Hh by (vm_compute; reflexivity).
  intros key [-> | ->]; eexists;
    (split; [vm_compute; reflexivity|]);
    (split; [reflexivity|]); (split; [reflexivity|]);
    (split; [vm_compute; reflexivity|]); (split; [reflexivity|]);
    (intros [H|(m & Hin & Hm)]; [discriminate H|]);
    (assert (m ∈ hits false (lit "Zq") (head boot_junk)) as Hx
       by (apply hits_elem; split; [exact Hin|exact Hm]));
    rewrite Hh in Hx; by apply elem_of_nil in Hx.
Qed.

Lemma C8_witness :
  exists s',
    CommandProcessor_Run (Some BS) boot_junk = Ok runok s' /\
    output s' = [Putch BELL] /\
    head s' = head boot_junk /\
    line s' = Some (lit "Zq") /\ keycount s' = 0 /\
    ~ prefix_ok s' (lit "Zq").
Proof.
  apply (proj2 (proj2 C8_unwritten_line_matches_no_command) BS). by left.
Defined.

(** ** C9: a failed Add *)

Lemma Add_failed_state m s :
  CommandProcessor_Add m false s =
  Ok addfailed (if longestCommand s <? strlen (command m)
                then set_longestCommand (strlen (command m)) s else s).
Proof.
  unfold CommandProcessor_Add, bind, get, when, modify, ret.
  destruct (longestCommand s <? strlen (command m)); reflexivity.
Qed.

(** C9 (the claim fails on the code): the longest-name length is raised
    before the link is allocated, so a failed Add of "History" on the fresh
    statics returns [addfailed], leaves the registry empty, and leaves
    [longestCommand] at 7 instead of 0. *)
Theorem C9_failed_Add_changes_longestCommand :
  exists s',
    CommandProcessor_Add HistoryMenu false statics = Ok addfailed s' /\
    head s' = head statics /\
    longestCommand statics = 0 /\
    longestCommand s' = 7.
Proof. eexists. split; [|split; [|split]]; vm_compute; reflexivity. Qed.

(** ** C10: the repeat check *)

(** C10: the repeat check is zero exactly when the line and the newest
    entry are equal without regard to case over the entry's length (or the
    line's, if that is shorter); the case rule of the configuration plays no
    part.  So on a carriage return or line feed that executes a command,
    when the line left in the buffer by CommandMatches differs from the
    newest entry only in letter case, or extends it, the history block, the
    count and the navigation index stay as they were. *)
Theorem C10_repeat_check_ignores_case_and_extension :
  (forall b last, b <> [] -> nonul b ->
     mystrnicmp b last (length last) = 0 <->
     mytolower <$> take (length last `min` length b) b
     = mytolower <$> take (length last `min` length b) last) /\
  (forall s c r s' b f s1 b1 last,
     c = CR \/ c = LF ->
     line s = Some b -> b <> [] ->
     CommandMatches true s = Ok f s1 -> foundCount f = 1 ->
     line s1 = Some b1 ->
     0 < bufferSize (cfg s) -> 1 <= historyCount s ->
     entry s (historyCount s - 1) = Some last ->
     mytolower <$> b1 = mytolower <$> last \/ (exists ext, b1 = last ++ ext) ->
     ProcessStandardSequence c s = Ok r s' ->
     historyBuffer s' = historyBuffer s /\ historyCount s' = historyCount s /\
     whereInHistory s' = whereInHistory s).
Proof.
  split; [intros; by apply mystrnicmp_0|].
  intros s c r s' b f s1 b1 last Hc Hl Hne Hcm H1 Hl1 Hbs Hcount He Hsame H.
  assert (ProcessStandardSequence c s = submit s) as Hsub.
  { destruct Hc as [-> | ->]; reflexivity. }
  rewrite Hsub in H.
  destruct (submit_stages _ _ _ _ _ _ Hl Hne H Hcm H1)
    as (cbk & prm & p & s2 & s3 & m & _ & _ & _ & Hcall & Henter & _ & ->).
  apply CommandMatches_hist_same in Hcm as ((Hhb1 & Hc1 & _ & Hbh1 & Hbs1) & Hw1 & _).
  apply call_untouched in Hcall
    as (_ & Hb2 & Hhb2 & Hbh2 & Hc2 & _ & _ & _ & _ & Hw2 & _ & Hbs2 & _).
  simpl in Hb2, Hhb2, Hbh2, Hc2, Hw2, Hbs2.
  assert (mystrnicmp b1 last (length last) = 0) as Hz.
  { assert (nonul b1) as Hn1 by (by eapply cstr_at_nonul).
    destruct b1 as [|x b1].
    - assert (last = []) as ->; [|done].
      destruct Hsame as [Hs|(ext & Hs)].
      + apply fmap_mytolower_length in Hs. by destruct last.
      + by destruct last.
    - apply mystrnicmp_0; [done..|].
      destruct Hsame as [Hs|(ext & Hs)].
      + rewrite !fmap_take. by rewrite Hs.
      + rewrite Hs. rewrite length_app.
        replace (length last `min` (length last + length ext))%nat
          with (length last) by lia.
        by rewrite take_app_length, take_ge. }
  assert (history_enter s2 = Ok tt s2) as Hrep.
  { apply (history_enter_repeat s2 b1 last); [|
      |done].
    - unfold line. rewrite Hb2. exact Hl1.
    - apply read_history_entry; [rewrite Hc2, Hc1, Hbs2, Hbs1; nia|].
      split; [|done]. unfold entry. rewrite Hhb2, Hhb1, Hbs2, Hbs1, Hc2, Hc1. exact He. }
  rewrite Hrep in Henter. injection Henter as <-.
  simpl. repeat split; congruence.
Qed.

Lemma C10_witness :
  historyBuffer (state_of (ProcessStandardSequence CR echo_on_typed))
  = historyBuffer echo_on_typed /\
  historyCount (state_of (ProcessStandardSequence CR echo_on_typed))
  = historyCount echo_on_typed /\
  whereInHistory (state_of (ProcessStandardSequence CR echo_on_typed))
  = whereInHistory echo_on_typed.
Proof.
  apply (proj2 C10_repeat_check_ignores_case_and_extension
           echo_on_typed CR runok _ (lit "Echo ON")
           (mkFound 1 (Some EchoMenu) (Some 5)) echo_on_typed
           (lit "Echo ON") (lit "Echo on")).
  - left. reflexivity.
  - vm_compute. reflexivity.
  - discriminate.
  - vm_compute. reflexivity.
  - reflexivity.
  - vm_compute. reflexivity.
  - vm_compute. reflexivity.
  - vm_compute. discriminate.
  - vm_compute. reflexivity.
  - left. vm_compute. reflexivity.
  - vm_compute. reflexivity.
Defined.
